(** * The request-routing core of the proxy (router.go)

    A shallow embedding of [router.go]: snapshot acquisition with the
    two-second cache ([getBackends]), round-robin selection that skips dead
    members ([getRequestData]), the forwarder ([chooseBackend],
    [RoundTripWithData], [RoundTrip]), the WebSocket path
    ([serveWebsocket]), the entry point ([ServeHTTP]), start-up ([Init])
    and the two helpers of the file, [FixedReadCloser] and [bufferPool].

    Go's run-time behaviour is kept where the properties depend on it:
    [int32] arithmetic wraps, [%] truncates towards zero and panics on a
    zero divisor, indexing a slice out of range panics, and assigning into
    a nil map panics.  Collaborators that live outside [router.go] (the
    routes backend, the HTTP transport, the clock, the standard library's
    URL and address parsers) are oracles gathered in [Env]; every call that
    leaves the process is recorded in a trace. *)

From Stdlib Require Import ZArith List Bool Lia DecimalString.
From stdpp Require Import base gmap strings list.

Local Open Scope string_scope.
Local Open Scope list_scope.
Local Open Scope Z_scope.

(** * The model *)

(** ** Go's [int32] *)

Module Int32.

Definition min_int : Z := - 2 ^ 31.
Definition max_int : Z := 2 ^ 31 - 1.

(** Conversion of an integer to [int32]: the low 32 bits, read as a
    two's-complement number. *)
Definition wrap (z : Z) : Z := (z + 2 ^ 31) mod 2 ^ 32 - 2 ^ 31.

Definition add (x y : Z) : Z := wrap (x + y).
Definition sub (x y : Z) : Z := wrap (x - y).

Definition in_range (z : Z) : Prop := min_int <= z <= max_int.

End Int32.

(** ** Go values used by the router *)

(** An [error] value.  [err.(net.Error)] succeeds exactly on [NetError],
    whose [Temporary()] answer is carried along. *)
Inductive error : Type :=
| PlainError (msg : string)
| NetError (msg : string) (temporary : bool).

Definition error_msg (e : error) : string :=
  match e with
  | PlainError m => m
  | NetError m _ => m
  end.

(** [fmt.Errorf(prefix + "%s", err)]: the result is a plain error. *)
Definition Errorf (prefix : string) (e : error) : error :=
  PlainError (prefix +:+ error_msg e).

(** The run-time panics the router can raise. *)
Inductive panic : Type :=
| DivideByZero
| IndexOutOfRange (i : Z) (len : nat)
| NilMapAssignment.

(** [http.Header]: keys are in canonical form, as the literal keys of
    [router.go] are. *)
Abbreviation Header := (gmap string (list string)).

Definition Header_Get (h : Header) (k : string) : string :=
  match h !! k with
  | Some (v :: _) => v
  | _ => ""
  end.

Definition Header_Set (h : Header) (k v : string) : Header := <[k := [v]]> h.
Definition Header_Del (h : Header) (k : string) : Header := delete k h.

Record URL : Type := mkURL {
  Scheme : string;
  UHost : string;
  Path : string
}.

Record Request : Type := mkRequest {
  Host : string;
  ReqURL : URL;
  ReqHeader : Header;
  RemoteAddr : string;
  ProtoMajor : Z;
  ProtoMinor : Z
}.

(** [http.Response]; a [Header] left out of a composite literal is the nil
    map, [None] here. *)
Record Response : Type := mkResponse {
  StatusCode : Z;
  RspProtoMajor : Z;
  RspProtoMinor : Z;
  ContentLength : Z;
  RspHeader : option Header;
  Body : string
}.

Definition StatusBadRequest : Z := 400.
Definition StatusServiceUnavailable : Z := 503.

Definition emptyResponseBody : string := "".
Definition noRouteResponseBody : string := "no such route".

Record requestData : Type := mkRequestData {
  backendLen : Z;
  backend : string;
  backendIdx : Z;
  backendKey : string;
  host : string;
  debug : bool;
  startTime : Z
}.

(** [requestData.String] *)
Definition requestData_String (r : requestData) : string :=
  let back := if String.eqb (backend r) "" then "?" else backend r in
  host r +:+ " -> " +:+ back.

Record backendSet : Type := mkBackendSet {
  id : string;
  backends : list string;
  dead : gset Z;
  expires : Z
}.

(** Durations and instants are nanosecond counts. *)
Definition Second : Z := 1000000000.

(** ** The LRU cache ([lru.Cache] of capacity 100, created in [Init])

    Entries are kept most recently used first.  [Get] promotes the entry it
    finds; [Add] puts the entry in front, replacing one with the same key,
    and drops the oldest entry beyond the capacity. *)

Definition cacheSize : nat := 100.

Abbreviation Cache := (list (string * backendSet)).

Fixpoint lru_peek (k : string) (c : Cache) : option backendSet :=
  match c with
  | [] => None
  | (k', v) :: c' => if String.eqb k' k then Some v else lru_peek k c'
  end.

Fixpoint lru_remove (k : string) (c : Cache) : Cache :=
  match c with
  | [] => []
  | (k', v) :: c' =>
      if String.eqb k' k then lru_remove k c' else (k', v) :: lru_remove k c'
  end.

Definition lru_Get (k : string) (c : Cache) : option backendSet * Cache :=
  match lru_peek k c with
  | Some v => (Some v, (k, v) :: lru_remove k c)
  | None => (None, c)
  end.

Definition lru_Add (k : string) (v : backendSet) (c : Cache) : Cache :=
  take cacheSize ((k, v) :: lru_remove k c).

(** ** The router and its surroundings *)

Record Router : Type := mkRouter {
  RequestTimeout : Z;
  DeadBackendTTL : Z;
  RequestIDHeader : string;
  hasLogger : bool;
  roundRobin : gmap string Z;
  cache : Cache;
  markingDisabled : bool
}.

(** What the router calls and does not define. *)
Record Env : Type := mkEnv {
  (** the n-th reading of [time.Now()] *)
  clock : nat -> Z;
  (** [backend.RoutesBackend.Backends] *)
  Backends : string -> (string * list string * gset Z) + error;
  (** [backend.RoutesBackend.MarkDead] *)
  MarkDead : string -> string -> Z -> Z -> Z -> option error;
  (** [net.SplitHostPort]: host and port, or an error *)
  SplitHostPort : string -> option (string * string);
  (** [net.ParseIP(s) != nil] *)
  ParseIP : string -> bool;
  (** [url.Parse] *)
  url_Parse : string -> URL + error;
  (** [uuid.NewV4] followed by [String] *)
  uuid_NewV4 : Request -> string + error;
  (** [textproto.CanonicalMIMEHeaderKey] *)
  CanonicalKey : string -> string;
  (** [http.Transport.RoundTrip] *)
  Transport_RoundTrip : Request -> Response + error;
  (** whether the request timer's callback has run when the flag is read *)
  timerFired : Request -> bool;
  (** [time.Duration.String] *)
  Duration_String : Z -> string;
  (** [net.Dialer.Dial("tcp", addr)] *)
  Dial : string -> option error;
  (** whether the response writer is an [http.Hijacker], and what
      [Hijack] answers *)
  isHijacker : bool;
  Hijack : option error;
  (** [http.Request.Write] to the upstream connection *)
  Request_Write : Request -> option error
}.

(** Calls that leave the process, in the order they are made. *)
Inductive event : Type :=
| EvBackends (h : string)
| EvMarkDead (h b : string) (idx len ttl : Z)
| EvRoundTrip (req : Request)
| EvLogError (who path : string) (err : error)
| EvAccessLog (status : Z) (key : string)
| EvDial (addr : string)
| EvHijack
| EvRequestWrite (req : Request)
| EvSplice.

Record World : Type := mkWorld {
  router : Router;
  ticks : nat;
  trace : list event
}.

(** ** Computations: state, panics and non-termination *)

Inductive outcome (A : Type) : Type :=
| Ret (a : A) (w : World)
| Panics (p : panic) (w : World)
| Diverges (w : World).

Arguments Ret {A} a w.
Arguments Panics {A} p w.
Arguments Diverges {A} w.

Definition M (A : Type) : Type := World -> outcome A.

Definition ret {A} (a : A) : M A := fun w => Ret a w.

Definition bind {A B} (m : M A) (k : A -> M B) : M B :=
  fun w =>
    match m w with
    | Ret a w' => k a w'
    | Panics p w' => Panics p w'
    | Diverges w' => Diverges w'
    end.

Definition raise {A} (p : panic) : M A := fun w => Panics p w.
Definition loop_forever {A} : M A := fun w => Diverges w.

Declare Scope go_scope.
Delimit Scope go_scope with go.
Notation "x <- m ;; k" := (bind m (fun x => k))
  (at level 100, m at next level, right associativity) : go_scope.
Notation "m ;;; k" := (bind m (fun _ => k))
  (at level 100, right associativity) : go_scope.
Local Open Scope go_scope.

Definition world_of {A} (o : outcome A) : World :=
  match o with
  | Ret _ w => w
  | Panics _ w => w
  | Diverges w => w
  end.

Definition emit (e : event) : M unit :=
  fun w => Ret tt (mkWorld (router w) (ticks w) (trace w ++ [e])).

Definition get_router : M Router := fun w => Ret (router w) w.

Definition put_router (r : Router) : M unit :=
  fun w => Ret tt (mkWorld r (ticks w) (trace w)).

Definition set_cache (c : Cache) (r : Router) : Router :=
  mkRouter (RequestTimeout r) (DeadBackendTTL r) (RequestIDHeader r)
    (hasLogger r) (roundRobin r) c (markingDisabled r).

Definition set_roundRobin (rr : gmap string Z) (r : Router) : Router :=
  mkRouter (RequestTimeout r) (DeadBackendTTL r) (RequestIDHeader r)
    (hasLogger r) rr (cache r) (markingDisabled r).

(** Results of code that touches no state. *)
Inductive result (A : Type) : Type :=
| Done (a : A)
| Panic (p : panic)
| Forever.

Arguments Done {A} a.
Arguments Panic {A} p.
Arguments Forever {A}.

Definition lift {A} (r : result A) : M A :=
  match r with
  | Done a => ret a
  | Panic p => raise p
  | Forever => loop_forever
  end.

(** [x % y] on [int32] operands. *)
Definition int32_rem (x y : Z) : result Z :=
  if y =? 0 then Panic DivideByZero else Done (Z.rem x y).

(** [l[i]] on a slice. *)
Definition index (l : list string) (i : Z) : result string :=
  if i <? 0 then Panic (IndexOutOfRange i (length l))
  else match l !! Z.to_nat i with
       | Some b => Done b
       | None => Panic (IndexOutOfRange i (length l))
       end.

(** [rsp.Header.Set(k, v)] *)
Definition Response_Header_Set (rsp : Response) (k v : string) : result Response :=
  match RspHeader rsp with
  | None => Panic NilMapAssignment
  | Some h =>
      Done (mkResponse (StatusCode rsp) (RspProtoMajor rsp) (RspProtoMinor rsp)
              (ContentLength rsp) (Some (Header_Set h k v)) (Body rsp))
  end.

(** [strconv.FormatUint(uint64(i), 10)] *)
Definition FormatUint (i : Z) : string :=
  NilZero.string_of_uint (N.to_uint (Z.to_N (i mod 2 ^ 64))).

(** [strings.Join] *)
Fixpoint Join (l : list string) (sep : string) : string :=
  match l with
  | [] => ""
  | [s] => s
  | s :: l' => s +:+ sep +:+ Join l' sep
  end.

Definition set_Host (h : string) (r : Request) : Request :=
  mkRequest h (ReqURL r) (ReqHeader r) (RemoteAddr r) (ProtoMajor r) (ProtoMinor r).

Definition set_ReqHeader (h : Header) (r : Request) : Request :=
  mkRequest (Host r) (ReqURL r) h (RemoteAddr r) (ProtoMajor r) (ProtoMinor r).

Definition set_URL (scheme uhost : string) (r : Request) : Request :=
  mkRequest (Host r) (mkURL scheme uhost (Path (ReqURL r))) (ReqHeader r)
    (RemoteAddr r) (ProtoMajor r) (ProtoMinor r).

(** ** The selection loop (lines 214-225 of [getRequestData]) *)

(** [scan] runs the [for] loop from [chosenNumber]; [n] is
    [int32(reqData.backendLen)], which is not zero once line 213 has been
    passed.  Besides [toUseNumber] it reports the keys looked up in
    [set.dead], in order.  [None] means the fuel ran out. *)
Fixpoint scan (fuel : nat) (dead : gset Z) (n initialNumber chosenNumber : Z)
  : option (list Z * Z) :=
  match fuel with
  | O => None
  | S fuel' =>
      if decide (chosenNumber ∈ dead) then
        let chosenNumber' := Z.rem (Int32.add chosenNumber 1) n in
        if chosenNumber' =? initialNumber then Some ([chosenNumber], -1)
        else
          match scan fuel' dead n initialNumber chosenNumber' with
          | Some (probes, toUse) => Some (chosenNumber :: probes, toUse)
          | None => None
          end
      else Some ([chosenNumber], chosenNumber)
  end.

(** Fuel that decides the loop: it either stops within [2 * |n|] rounds or
    never does (see [scan_out_of_fuel_forever]). *)
Definition scan_fuel (n : Z) : nat := 2 * Z.to_nat (Z.abs n).

(** Lines 213-225: from the value [atomic.AddInt32] returned to
    [toUseNumber], with the keys probed in [set.dead]. *)
Definition selectIndex (set : backendSet) (counter : Z) : result (list Z * Z) :=
  let n := Int32.wrap (Z.of_nat (length (backends set))) in
  match int32_rem (Int32.sub counter 1) n with
  | Done initialNumber =>
      match scan (scan_fuel n) (dead set) n initialNumber initialNumber with
      | Some r => Done r
      | None => Forever
      end
  | Panic p => Panic p
  | Forever => Forever
  end.

(** ** The functions of [router.go] *)

Section Code.

Variable E : Env.

Definition time_Now : M Z :=
  fun w => Ret (clock E (ticks w)) (mkWorld (router w) (S (ticks w)) (trace w)).

(** [backendSet.Expired] *)
Definition Expired (s : backendSet) : M bool :=
  now <- time_Now ;; ret (expires s <? now).

Definition cache_Get (k : string) : M (option backendSet) :=
  rt <- get_router ;;
  let '(v, c) := lru_Get k (cache rt) in
  put_router (set_cache c rt) ;;; ret v.

Definition cache_Add (k : string) (v : backendSet) : M unit :=
  rt <- get_router ;;
  put_router (set_cache (lru_Add k v (cache rt)) rt).

Definition getBackends (host : string) : M (backendSet + error) :=
  data <- cache_Get host ;;
  fresh <- match data with
           | Some set =>
               expired <- Expired set ;;
               ret (if expired then None else Some set)
           | None => ret None
           end ;;
  match fresh with
  | Some set => ret (inl set)
  | None =>
      emit (EvBackends host) ;;;
      match Backends E host with
      | inr err =>
          ret (inr (Errorf "error running routes backend commands: " err))
      | inl (id, backends, dead) =>
          now <- time_Now ;;
          let set := mkBackendSet id backends dead (now + 2 * Second) in
          cache_Add host set ;;; ret (inl set)
      end
  end.

(** [net.SplitHostPort] followed by the fall-back to the whole string. *)
Definition hostOnly (hostport : string) : string :=
  let host := match SplitHostPort E hostport with
              | Some (h, _) => h
              | None => ""
              end in
  if String.eqb host "" then hostport else host.

(** Lines 197-212: the counter of [host], created at zero on first use,
    is incremented; the new value is returned. *)
Definition nextCounter (host : string) : M Z :=
  rt <- get_router ;;
  let rr := match roundRobin rt !! host with
            | Some _ => roundRobin rt
            | None => <[host := 0]> (roundRobin rt)
            end in
  let v := Int32.add (default 0 (rr !! host)) 1 in
  put_router (set_roundRobin (<[host := v]> rr) rt) ;;; ret v.

Definition getRequestData (req : Request) (save : bool)
  : M (Request * requestData * option error) :=
  let host := hostOnly (Host req) in
  let isDebug := negb (String.eqb (Header_Get (ReqHeader req) "X-Debug-Router") "") in
  now <- time_Now ;;
  let reqData := mkRequestData 0 "" 0 "" host isDebug now in
  let req := set_ReqHeader (Header_Del (ReqHeader req) "X-Debug-Router") req in
  r <- getBackends host ;;
  match r with
  | inr err => ret (req, reqData, Some err)
  | inl set =>
      let len := Z.of_nat (length (backends set)) in
      initialNumber <- nextCounter host ;;
      sel <- lift (selectIndex set initialNumber) ;;
      let toUseNumber := snd sel in
      if toUseNumber =? -1 then
        ret (req, mkRequestData len "" 0 (id set) host isDebug now,
             Some (PlainError "all backends are dead"))
      else
        b <- lift (index (backends set) toUseNumber) ;;
        ret (req, mkRequestData len b toUseNumber (id set) host isDebug now, None)
  end.

Definition logError (who path : string) (err : error) : M unit :=
  emit (EvLogError who path err).

Definition chooseBackend (req : Request) : M (Request * requestData) :=
  let req := set_URL "" "" req in
  r <- getRequestData req true ;;
  let '(req, reqData, err) := r in
  match err with
  | Some err =>
      logError (requestData_String reqData) (Path (ReqURL req)) err ;;;
      ret (req, reqData)
  | None =>
      match url_Parse E (backend reqData) with
      | inr err =>
          logError (requestData_String reqData) (Path (ReqURL req))
            (Errorf "invalid backend url: " err) ;;;
          ret (req, reqData)
      | inl url =>
          let req := set_URL (Scheme url) (UHost url) req in
          let req := if String.eqb (UHost (ReqURL req)) ""
                     then set_URL "http" (backend reqData) req
                     else req in
          rt <- get_router ;;
          let key := CanonicalKey E (RequestIDHeader rt) in
          if negb (String.eqb (RequestIDHeader rt) "")
             && String.eqb (Header_Get (ReqHeader req) key) "" then
            match uuid_NewV4 E req with
            | inr err =>
                logError (requestData_String reqData) (Path (ReqURL req))
                  (Errorf "unable to generate request id: " err) ;;;
                ret (req, reqData)
            | inl uniqueID =>
                ret (set_ReqHeader (Header_Set (ReqHeader req) key uniqueID) req,
                     reqData)
            end
          else ret (req, reqData)
      end
  end.

(** Lines 305-326: what is done with a transport error. *)
Definition handleTransportError (req : Request) (reqData : requestData)
    (err : error) : M unit :=
  rt <- get_router ;;
  let markAsDead := match err with
                    | NetError _ temporary => negb temporary
                    | PlainError _ => false
                    end in
  let isTimeout := (0 <? RequestTimeout rt) && timerFired E req in
  let markAsDead := if isTimeout then false else markAsDead in
  let err := if isTimeout
             then PlainError ("request timed out after "
                              +:+ Duration_String E (RequestTimeout rt)
                              +:+ ": " +:+ error_msg err)
             else Errorf "error in backend request: " err in
  let err := if markAsDead then PlainError (error_msg err +:+ " *DEAD*") else err in
  logError (requestData_String reqData) (Path (ReqURL req)) err ;;;
  if markAsDead && negb (markingDisabled rt) then
    emit (EvMarkDead (host reqData) (backend reqData) (backendIdx reqData)
            (backendLen reqData) (DeadBackendTTL rt)) ;;;
    match MarkDead E (host reqData) (backend reqData) (backendIdx reqData)
            (backendLen reqData) (DeadBackendTTL rt) with
    | Some markErr =>
        logError (requestData_String reqData) (Path (ReqURL req))
          (Errorf "error markind dead backend in routes backend: " markErr)
    | None => ret tt
    end
  else ret tt.

Definition RoundTripWithData (req : Request) (reqData : requestData)
  : M (Request * Response) :=
  r <- (if String.eqb (Scheme (ReqURL req)) "" || String.eqb (UHost (ReqURL req)) ""
        then
          ret (req,
               mkResponse StatusBadRequest (ProtoMajor req) (ProtoMinor req)
                 (Z.of_nat (String.length noRouteResponseBody)) None
                 noRouteResponseBody)
        else
          let host := hostOnly (UHost (ReqURL req)) in
          let isIP := ParseIP E host in
          let req := if isIP then req
                     else set_Host host
                            (set_ReqHeader
                               (Header_Set (ReqHeader req) "X-Host" (Host req)) req) in
          _ <- time_Now ;;
          emit (EvRoundTrip req) ;;;
          _ <- time_Now ;;
          match Transport_RoundTrip E req with
          | inl rsp => ret (req, rsp)
          | inr err =>
              handleTransportError req reqData err ;;;
              ret (req,
                   mkResponse StatusServiceUnavailable (ProtoMajor req)
                     (ProtoMinor req) 0 (Some ∅) emptyResponseBody)
          end) ;;
  let '(req, rsp) := r in
  rsp <- (if debug reqData then
            rsp <- lift (Response_Header_Set rsp "X-Debug-Backend-Url"
                           (backend reqData)) ;;
            rsp <- lift (Response_Header_Set rsp "X-Debug-Backend-Id"
                           (FormatUint (backendIdx reqData))) ;;
            lift (Response_Header_Set rsp "X-Debug-Frontend-Key" (host reqData))
          else ret rsp) ;;
  rt <- get_router ;;
  (if hasLogger rt then
     _ <- time_Now ;;
     _ <- time_Now ;;
     emit (EvAccessLog (StatusCode rsp) (backendKey reqData))
   else ret tt) ;;;
  ret (req, rsp).

Definition RoundTrip (req : Request) : M (Request * Response) :=
  r <- chooseBackend req ;;
  let '(req, reqData) := r in
  RoundTripWithData req reqData.

Definition serveWebsocket (req : Request)
  : M (Request * requestData * option error) :=
  r <- getRequestData req false ;;
  let '(req, reqData, err) := r in
  match err with
  | Some err => ret (req, reqData, Some err)
  | None =>
  match url_Parse E (backend reqData) with
  | inr err => ret (req, reqData, Some err)
  | inl url =>
  let req := set_Host (UHost url) req in
  emit (EvDial (UHost url)) ;;;
  match Dial E (UHost url) with
  | Some err => ret (req, reqData, Some err)
  | None =>
  if negb (isHijacker E) then ret (req, reqData, Some (PlainError "not a hijacker"))
  else
  emit EvHijack ;;;
  match Hijack E with
  | Some err => ret (req, reqData, Some err)
  | None =>
  let req :=
    match SplitHostPort E (RemoteAddr req) with
    | Some (clientIP, _) =>
        let clientIP :=
          match ReqHeader req !! "X-Forwarded-For" with
          | Some prior => Join prior ", " +:+ ", " +:+ clientIP
          | None => clientIP
          end in
        set_ReqHeader (Header_Set (ReqHeader req) "X-Forwarded-For" clientIP) req
    | None => req
    end in
  emit (EvRequestWrite req) ;;;
  match Request_Write E req with
  | Some err => ret (req, reqData, Some err)
  | None => emit EvSplice ;;; ret (req, reqData, None)
  end end end end end.

End Code.

(** ** The HTTP entry point *)

Definition StatusOK : Z := 200.
Definition StatusBadGateway : Z := 502.

(** What [ServeHTTP] does with the response writer: the calls it makes on
    it, and the hand-over of writer and request to the reverse proxy. *)
Inductive reply : Type :=
| RwWriteHeader (status : Z)
| RwWrite (body : string)
| RwError (msg : string) (status : Z)
| RpServeHTTP (req : Request).

Section Entry.

Variable E : Env.

(** [strings.ToLower] *)
Variable ToLower : string -> string.

Definition ServeHTTP (req : Request) : M (list reply) :=
  if String.eqb (Host req) "__ping__" && String.eqb (Path (ReqURL req)) "/" then
    ret [RwWriteHeader StatusOK; RwWrite "OK"]
  else
    let upgrade := Header_Get (ReqHeader req) "Upgrade" in
    if negb (String.eqb upgrade "") && String.eqb (ToLower upgrade) "websocket" then
      r <- serveWebsocket E req ;;
      let '(req, reqData, err) := r in
      match err with
      | Some err =>
          logError (requestData_String reqData) (Path (ReqURL req)) err ;;;
          ret [RwError "" StatusBadGateway]
      | None => ret []
      end
    else ret [RpServeHTTP req].

End Entry.

(** ** Start-up ([Router.Init]) *)

Module Startup.

(** [net.Dialer], as far as [Init] sets it. *)
Record Dialer : Type := mkDialer {
  Timeout : Z;
  KeepAlive : Z
}.

(** The embedded [http.Transport], as far as [Init] sets it; [Dial] is the
    dialer whose method it holds. *)
Record http_Transport : Type := mkTransport {
  Dial : option Dialer;
  TLSHandshakeTimeout : Z;
  MaxIdleConnsPerHost : Z
}.

(** [httputil.ReverseProxy]: the director does nothing, the transport is
    the router itself and the buffer pool is a new, empty one. *)
Record ReverseProxy : Type := mkReverseProxy {
  rp_FlushInterval : Z
}.

(** The [Router] struct with its fields as [Init] finds them; a nil
    pointer, interface or map is [None].  Routes backends and loggers are
    told apart by a number. *)
Record Router : Type := mkRouter {
  Transport : http_Transport;
  LogPath : string;
  DialTimeout : Z;
  RequestTimeout : Z;
  DeadBackendTTL : Z;
  FlushInterval : Z;
  RequestIDHeader : string;
  rp : option ReverseProxy;
  dialer : option Dialer;
  backend : option Z;
  logger : option Z;
  roundRobin : option (gmap string Z);
  cache : option Cache;
  markingDisabled : bool
}.

(** The constructors [Init] calls; each returns a value, nil or not, and
    an error, nil or not. *)
Record Deps : Type := mkDeps {
  (** [backend.NewRedisBackend], called with two empty option records *)
  NewRedisBackend : option Z * option error;
  (** [NewFileLogger] *)
  NewFileLogger : string -> option Z * option error
}.

Inductive call : Type :=
| CallNewRedisBackend
| CallNewFileLogger (path : string)
| CallLruNew (size : Z).

(** [lru.New]: a size that is not positive is refused. *)
Definition lru_New (size : Z) : option Cache * option error :=
  if size <=? 0 then (None, Some (PlainError "Must provide a positive size"))
  else (Some [], None).

Definition set_backend (b : option Z) (r : Router) : Router :=
  mkRouter (Transport r) (LogPath r) (DialTimeout r) (RequestTimeout r)
    (DeadBackendTTL r) (FlushInterval r) (RequestIDHeader r) (rp r) (dialer r)
    b (logger r) (roundRobin r) (cache r) (markingDisabled r).

Definition set_LogPath (p : string) (r : Router) : Router :=
  mkRouter (Transport r) p (DialTimeout r) (RequestTimeout r)
    (DeadBackendTTL r) (FlushInterval r) (RequestIDHeader r) (rp r) (dialer r)
    (backend r) (logger r) (roundRobin r) (cache r) (markingDisabled r).

Definition set_logger (l : option Z) (r : Router) : Router :=
  mkRouter (Transport r) (LogPath r) (DialTimeout r) (RequestTimeout r)
    (DeadBackendTTL r) (FlushInterval r) (RequestIDHeader r) (rp r) (dialer r)
    (backend r) l (roundRobin r) (cache r) (markingDisabled r).

Definition set_DeadBackendTTL (ttl : Z) (r : Router) : Router :=
  mkRouter (Transport r) (LogPath r) (DialTimeout r) (RequestTimeout r)
    ttl (FlushInterval r) (RequestIDHeader r) (rp r) (dialer r)
    (backend r) (logger r) (roundRobin r) (cache r) (markingDisabled r).

Definition set_cache (c : option Cache) (r : Router) : Router :=
  mkRouter (Transport r) (LogPath r) (DialTimeout r) (RequestTimeout r)
    (DeadBackendTTL r) (FlushInterval r) (RequestIDHeader r) (rp r) (dialer r)
    (backend r) (logger r) (roundRobin r) c (markingDisabled r).

(** Lines 126-141. *)
Definition wire (r : Router) : Router :=
  let d := mkDialer (DialTimeout r) (30 * Second) in
  mkRouter (mkTransport (Some d) (DialTimeout r) 100)
    (LogPath r) (DialTimeout r) (RequestTimeout r)
    (DeadBackendTTL r) (FlushInterval r) (RequestIDHeader r)
    (Some (mkReverseProxy (FlushInterval r))) (Some d)
    (backend r) (logger r) (Some ∅) (cache r) (markingDisabled r).

(** [Init] works on the router in place: what it has set by the time it
    fails stays set.  The result is the router, the error returned and the
    constructors called. *)
Definition Init (D : Deps) (r : Router) : Router * option error * list call :=
  let '(r, err, calls) :=
    match backend r with
    | None =>
        let '(be, err) := NewRedisBackend D in
        match err with
        | Some err => (r, Some err, [CallNewRedisBackend])
        | None => (set_backend be r, None, [CallNewRedisBackend])
        end
    | Some _ => (r, None, [])
    end in
  match err with
  | Some err => (r, Some err, calls)
  | None =>
  let r := if String.eqb (LogPath r) "" then set_LogPath "./access.log" r else r in
  let '(r, err, calls) :=
    match logger r with
    | None =>
        if negb (String.eqb (LogPath r) "none") then
          let '(l, err) := NewFileLogger D (LogPath r) in
          (set_logger l r, err, calls ++ [CallNewFileLogger (LogPath r)])
        else (r, None, calls)
    | Some _ => (r, None, calls)
    end in
  match err with
  | Some err => (r, Some err, calls)
  | None =>
  let r := if DeadBackendTTL r =? 0 then set_DeadBackendTTL 30 r else r in
  let '(r, err, calls) :=
    match cache r with
    | None =>
        let '(c, err) := lru_New 100 in
        (set_cache c r, err, calls ++ [CallLruNew 100])
    | Some _ => (r, None, calls)
    end in
  match err with
  | Some err => (r, Some err, calls)
  | None => (wire r, None, calls)
  end end end.

End Startup.

(** ** Fixed bodies and the buffer pool *)

(** Go's built-in [copy]: as many bytes of [src] as fit overwrite the head
    of [dst]; their number is returned. *)
Definition copy (dst src : list Byte.byte) : list Byte.byte * nat :=
  let n := Nat.min (length dst) (length src) in
  (take n src ++ drop n dst, n).

(** [io.EOF] *)
Definition io_EOF : error := PlainError "EOF".

(** [FixedReadCloser.Read] on the buffer [p]: the buffer afterwards, the
    count and the error. *)
Definition FixedReadCloser_Read (value p : list Byte.byte)
  : list Byte.byte * nat * error :=
  let '(p', n) := copy p value in (p', n, io_EOF).

(** [sync.Pool] without [New]: it holds what was put into it, hands out
    whichever item it likes, or none, and may drop items at any time. *)
Record bufferPool : Type := mkBufferPool {
  syncPool : list (list Byte.byte)
}.

(** [make([]byte, n)] *)
Definition make (n : nat) : list Byte.byte := replicate n Byte.x00.

Definition bufferSize : nat := 32 * 1024.

(** [bufferPool.Get]; [pick] is the choice of the pool. *)
Definition bufferPool_Get (pick : list (list Byte.byte) -> option nat) (p : bufferPool)
  : list Byte.byte * bufferPool :=
  match pick (syncPool p) with
  | Some i =>
      match syncPool p !! i with
      | Some b => (b, mkBufferPool (delete i (syncPool p)))
      | None => (make bufferSize, p)
      end
  | None => (make bufferSize, p)
  end.

(** [bufferPool.Put] *)
Definition bufferPool_Put (b : list Byte.byte) (p : bufferPool) : bufferPool :=
  mkBufferPool (b :: syncPool p).

(** * Vocabulary of the properties *)

Definition new_events {A} (w : World) (o : outcome A) : list event :=
  drop (length (trace w)) (trace (world_of o)).

(** The world in which [getRequestData] calls [getBackends]: the clock has
    been read once, for [startTime]. *)
Definition after_start (w : World) : World :=
  mkWorld (router w) (S (ticks w)) (trace w).

(** The entry [getBackends] may serve from the cache: present under the
    host and not past its deadline at the reading [now]. *)
Definition cached_fresh (now : Z) (h : string) (c : Cache) : option backendSet :=
  match lru_peek h c with
  | Some s => if expires s <? now then None else Some s
  | None => None
  end.

(** The instant at which line 175 stamped an entry. *)
Definition stamped_at (s : backendSet) : Z := expires s - 2 * Second.

(** Every cached entry was stamped by line 175 from an earlier reading of
    the clock. *)
Definition stamped_by_clock (E : Env) (w : World) : Prop :=
  forall h s,
    lru_peek h (cache (router w)) = Some s ->
    exists t, (t < ticks w)%nat /\ stamped_at s = clock E t.

(** Kinds of calls in a trace. *)

Definition isBackends (e : event) : bool :=
  match e with EvBackends _ => true | _ => false end.

Definition isRoundTrip (e : event) : bool :=
  match e with EvRoundTrip _ => true | _ => false end.

Definition isMarkDead (e : event) : bool :=
  match e with EvMarkDead _ _ _ _ _ => true | _ => false end.

Definition isRequestWrite (e : event) : bool :=
  match e with EvRequestWrite _ => true | _ => false end.

(** ** The forwarder *)

(** The request has no upstream: line 275. *)
Definition unresolved (req : Request) : bool :=
  String.eqb (Scheme (ReqURL req)) "" || String.eqb (UHost (ReqURL req)) "".

(** The local request timer went off: a timer exists only for a positive
    [RequestTimeout]. *)
Definition timedOut (E : Env) (rt : Router) (req : Request) : bool :=
  (0 <? RequestTimeout rt) && timerFired E req.

(** The transport reports the error as a network error that is not
    temporary. *)
Definition nonTemporary (err : error) : bool :=
  match err with
  | NetError _ temporary => negb temporary
  | PlainError _ => false
  end.

Definition shouldMark (E : Env) (rt : Router) (req : Request) (err : error) : bool :=
  nonTemporary err && negb (timedOut E rt req) && negb (markingDisabled rt).

(** The request as line 303 hands it to the transport. *)
Definition upstreamRequest (E : Env) (req : Request) : Request :=
  let up := hostOnly E (UHost (ReqURL req)) in
  if ParseIP E up then req
  else set_Host up (set_ReqHeader (Header_Set (ReqHeader req) "X-Host" (Host req)) req).

Definition debugHeaders (rd : requestData) (h : Header) : Header :=
  Header_Set
    (Header_Set (Header_Set h "X-Debug-Backend-Url" (backend rd))
       "X-Debug-Backend-Id" (FormatUint (backendIdx rd)))
    "X-Debug-Frontend-Key" (host rd).

Definition with_header (rsp : Response) (h : Header) : Response :=
  mkResponse (StatusCode rsp) (RspProtoMajor rsp) (RspProtoMinor rsp)
    (ContentLength rsp) (Some h) (Body rsp).

(** ** The reference algorithm of the specification

    "Let k0 = (counter - 1) mod N.  Starting at k0, scan forward modulo N.
    The first index not in dead is the choice."  [ring] lists the N indices
    in the order in which the scan visits them. *)

Definition ring (n k0 : Z) : list Z :=
  map (fun j => (k0 + Z.of_nat j) mod n) (seq 0 (Z.to_nat n)).

(** [None] stands for AllBackendsDead. *)
Definition reference_select (set : backendSet) (counter : Z) : option Z :=
  let n := Z.of_nat (length (backends set)) in
  if n =? 0 then None
  else find (fun i => bool_decide (i ∉ dead set)) (ring n ((counter - 1) mod n)).

(** Walking a list of indices up to the first live one: the indices
    looked at, and the choice ([-1] when there is none). *)
Fixpoint walk (d : gset Z) (l : list Z) : list Z * Z :=
  match l with
  | [] => ([], -1)
  | i :: l' =>
      if decide (i ∈ d) then (i :: fst (walk d l'), snd (walk d l'))
      else ([i], i)
  end.

(** One round of the loop: line 221. *)
Definition next (n c : Z) : Z := Z.rem (Int32.add c 1) n.

(** [n] requests in a row, each resolved by [getRequestData]: the indices
    chosen, up to the first request that is not given one. *)
Fixpoint resolve_many (E : Env) (n : nat) (req : Request) (w : World) : list Z :=
  match n with
  | O => []
  | S n' =>
      match getRequestData E req true w with
      | Ret (_, rd, None) w' => backendIdx rd :: resolve_many E n' req w'
      | _ => []
      end
  end.

(** ** Snapshots, logs, the WebSocket request, start-up and the pool *)

(** The entry cached for a host, if any, is a snapshot the routes backend
    gives for it. *)
Definition cache_agrees (E : Env) (h : string) (c : Cache) : Prop :=
  forall s, lru_peek h c = Some s -> Backends E h = inl (id s, backends s, dead s).

(** The same settings: everything of the router but the counters and the
    cache. *)
Definition same_settings (r r' : Router) : Prop :=
  RequestTimeout r' = RequestTimeout r
  /\ DeadBackendTTL r' = DeadBackendTTL r
  /\ RequestIDHeader r' = RequestIDHeader r
  /\ hasLogger r' = hasLogger r
  /\ markingDisabled r' = markingDisabled r.

(** The choice of the reference algorithm among [bs] with dead set [d],
    from the incremented counter. *)
Definition chosen (bs : list string) (d : gset Z) (counter : Z) : Z :=
  default (-1) (reference_select (mkBackendSet "" bs d 0) counter).

Definition isAccessLog (e : event) : bool :=
  match e with EvAccessLog _ _ => true | _ => false end.

Definition isLogError (e : event) : bool :=
  match e with EvLogError _ _ _ => true | _ => false end.

(** The world after line 342-351: with a logger, the clock is read twice
    and one entry is handed to it. *)
Definition logged (rd : requestData) (rsp : Response) (w : World) : World :=
  if hasLogger (router w)
  then mkWorld (router w) (S (S (ticks w)))
         (trace w ++ [EvAccessLog (StatusCode rsp) (backendKey rd)])
  else w.

(** Lines 337-352 on a response [rsp]. *)
Definition respond (sent : Request) (rd : requestData) (rsp : Response) (w : World)
  : outcome (Request * Response) :=
  if debug rd then
    match RspHeader rsp with
    | Some h =>
        Ret (sent, with_header rsp (debugHeaders rd h))
          (logged rd (with_header rsp (debugHeaders rd h)) w)
    | None => Panics NilMapAssignment w
    end
  else Ret (sent, rsp) (logged rd rsp w).

(** The 503 response of lines 327-334. *)
Definition unavailable (req : Request) : Response :=
  mkResponse StatusServiceUnavailable (ProtoMajor req) (ProtoMinor req) 0 (Some ∅)
    emptyResponseBody.

(** The world in which the transport has just been called. *)
Definition called (sent : Request) (w : World) : World :=
  mkWorld (router w) (S (S (ticks w))) (trace w ++ [EvRoundTrip sent]).

(** The text of the error that line 320 logs. *)
Definition transportErrorText (E : Env) (rt : Router) (req : Request) (err : error)
  : string :=
  let base := if timedOut E rt req
              then "request timed out after " +:+ Duration_String E (RequestTimeout rt)
                   +:+ ": " +:+ error_msg err
              else "error in backend request: " +:+ error_msg err in
  if nonTemporary err && negb (timedOut E rt req) then base +:+ " *DEAD*" else base.

(** The request [getRequestData] hands back to [chooseBackend]. *)
Definition resolving (req : Request) : Request :=
  set_ReqHeader (Header_Del (ReqHeader req) "X-Debug-Router") (set_URL "" "" req).

(** Lines 379-384: the client address is appended to [X-Forwarded-For]. *)
Definition forwardedFor (E : Env) (req : Request) : Request :=
  match SplitHostPort E (RemoteAddr req) with
  | Some (clientIP, _) =>
      let clientIP :=
        match ReqHeader req !! "X-Forwarded-For" with
        | Some prior => Join prior ", " +:+ ", " +:+ clientIP
        | None => clientIP
        end in
      set_ReqHeader (Header_Set (ReqHeader req) "X-Forwarded-For" clientIP) req
  | None => req
  end.

(** The request [serveWebsocket] writes to the backend at [addr]. *)
Definition upgradeRequest (E : Env) (addr : string) (req : Request) : Request :=
  forwardedFor E
    (set_Host addr (set_ReqHeader (Header_Del (ReqHeader req) "X-Debug-Router") req)).

(** [serveWebsocket] returned an error, or did not return. *)
Definition failed {A B} (o : outcome (A * B * option error)) : Prop :=
  forall r rd w', o <> Ret (r, rd, None) w'.

(** The request is the health check of line 401. *)
Definition isPing (req : Request) : bool :=
  String.eqb (Host req) "__ping__" && String.eqb (Path (ReqURL req)) "/".

(** The request asks for a WebSocket upgrade: line 407. *)
Definition isUpgrade (ToLower : string -> string) (req : Request) : bool :=
  negb (String.eqb (Header_Get (ReqHeader req) "Upgrade") "")
  && String.eqb (ToLower (Header_Get (ReqHeader req) "Upgrade")) "websocket".

(** The router of the request model that an initialised [Router] struct
    stands for. *)
Definition serving (r : Startup.Router) : option Router :=
  match Startup.roundRobin r, Startup.cache r with
  | Some rr, Some c =>
      Some (mkRouter (Startup.RequestTimeout r) (Startup.DeadBackendTTL r)
              (Startup.RequestIDHeader r)
              (bool_decide (Startup.logger r <> None)) rr c
              (Startup.markingDisabled r))
  | _, _ => None
  end.

(** What [Init] never changes. *)
Definition same_configuration (r r' : Startup.Router) : Prop :=
  Startup.DialTimeout r' = Startup.DialTimeout r
  /\ Startup.RequestTimeout r' = Startup.RequestTimeout r
  /\ Startup.FlushInterval r' = Startup.FlushInterval r
  /\ Startup.RequestIDHeader r' = Startup.RequestIDHeader r
  /\ Startup.markingDisabled r' = Startup.markingDisabled r.

(** The router struct while it serves: counters and cache have moved on. *)
Definition in_service (rr : gmap string Z) (c : Cache) (r : Startup.Router)
  : Startup.Router :=
  Startup.mkRouter (Startup.Transport r) (Startup.LogPath r) (Startup.DialTimeout r)
    (Startup.RequestTimeout r) (Startup.DeadBackendTTL r) (Startup.FlushInterval r)
    (Startup.RequestIDHeader r) (Startup.rp r) (Startup.dialer r) (Startup.backend r)
    (Startup.logger r) (Some rr) (Some c) (Startup.markingDisabled r).

(** What happens to a pool: a [Get], a [Put] of the [i]-th buffer handed
    out so far (the reverse proxy puts back what it got), or the pool
    dropping the items not marked in [keep]. *)
Inductive pool_op : Type :=
| DoGet (pick : list (list Byte.byte) -> option nat)
| DoPut (i : nat)
| DoDrop (keep : list bool).

(** The items of [l] whose mark in [keep] is set. *)
Fixpoint keep_marked {A} (keep : list bool) (l : list A) : list A :=
  match keep, l with
  | true :: keep', x :: l' => x :: keep_marked keep' l'
  | false :: keep', _ :: l' => keep_marked keep' l'
  | _, _ => []
  end.

(** The pool and the buffers handed out, oldest first, after [ops]. *)
Fixpoint pool_run (ops : list pool_op) (p : bufferPool) (out : list (list Byte.byte))
  : bufferPool * list (list Byte.byte) :=
  match ops with
  | [] => (p, out)
  | DoGet pick :: ops' =>
      let '(b, p') := bufferPool_Get pick p in pool_run ops' p' (out ++ [b])
  | DoPut i :: ops' =>
      match out !! i with
      | Some b => pool_run ops' (bufferPool_Put b p) out
      | None => pool_run ops' p out
      end
  | DoDrop keep :: ops' =>
      pool_run ops' (mkBufferPool (keep_marked keep (syncPool p))) out
  end.

(** ** A concrete deployment, for running the code *)

Module Scenario.

Definition url_Parse (s : string) : URL + error :=
  if String.eqb s "http://a:80" then inl (mkURL "http" "a:80" "")
  else if String.eqb s "http://b:80" then inl (mkURL "http" "b:80" "")
  else if String.eqb s "http://c:80" then inl (mkURL "http" "c:80" "")
  else if String.eqb s "http://10.0.0.1:80" then inl (mkURL "http" "10.0.0.1:80" "")
  else inr (PlainError "parse error").

Definition SplitHostPort (s : string) : option (string * string) :=
  if String.eqb s "a:80" then Some ("a", "80")
  else if String.eqb s "b:80" then Some ("b", "80")
  else if String.eqb s "c:80" then Some ("c", "80")
  else if String.eqb s "10.0.0.1:80" then Some ("10.0.0.1", "80")
  else if String.eqb s "203.0.113.5:4711" then Some ("203.0.113.5", "4711")
  else None.

Definition ParseIP (s : string) : bool :=
  String.eqb s "10.0.0.1" || String.eqb s "203.0.113.5".

(** The routes backend answers [reply]; an upstream exchange ends in
    [upstream]; [fired] tells whether the request timer goes off first. *)
Definition env (reply : (string * list string * gset Z) + error)
    (upstream : Response + error) (fired : bool) : Env :=
  mkEnv (fun n => Z.of_nat n * Second) (fun _ => reply)
    (fun _ _ _ _ _ => None) SplitHostPort ParseIP url_Parse
    (fun _ => inl "6ba7b810-9dad-41d1-80b4-00c04fd430c8") (fun k => k)
    (fun _ => upstream) (fun _ => fired) (fun _ => "100ms")
    (fun _ => None) true None (fun _ => None).

Definition three : list string := ["http://a:80"; "http://b:80"; "http://c:80"].

Definition ok200 : Response := mkResponse 200 1 1 2 (Some ∅) "ok".

Definition refused : error := NetError "connection refused" false.

(** A router whose counter for [app.example] holds [counter]. *)
Definition routerAt (counter : Z) (timeout : Z) (disabled : bool) : Router :=
  mkRouter timeout 30 "" true {["app.example" := counter]} [] disabled.

Definition start (r : Router) : World := mkWorld r 0 [].

Definition request (hdr : Header) : Request :=
  mkRequest "app.example" (mkURL "" "" "/") hdr "203.0.113.5:4711" 1 1.

Definition plain : Request := request ∅.
Definition debugging : Request := request {["X-Debug-Router" := ["1"]]}.
Definition upgrading : Request := request {["Upgrade" := ["websocket"]]}.

(** The routes backend cannot be reached. *)
Definition lookupFails : Env :=
  env (inr (PlainError "redis: connection refused")) (inl ok200) false.

Definition lookupError : error :=
  Errorf "error running routes backend commands: "
    (PlainError "redis: connection refused").

Definition idle : World := start (routerAt 0 0 false).

(** What [getRequestData] hands back when the lookup fails. *)
Definition stripped (req : Request) : Request :=
  set_ReqHeader (Header_Del (ReqHeader req) "X-Debug-Router") (set_URL "" "" req).

Definition unrouted (dbg : bool) : requestData :=
  mkRequestData 0 "" 0 "" "app.example" dbg 0.

Definition afterLookup : World :=
  mkWorld (routerAt 0 0 false) 1 [EvBackends "app.example"].

(** One backend, given by a literal IP address. *)
Definition byAddress : Env :=
  env (inl ("s3", ["http://10.0.0.1:80"], ∅)) (inl ok200) false.

(** The upgrade request as [serveWebsocket] writes it upstream there. *)
Definition written : Request :=
  set_ReqHeader
    (Header_Set (Header_Del (ReqHeader upgrading) "X-Debug-Router")
       "X-Forwarded-For" "203.0.113.5")
    (set_Host "10.0.0.1:80" upgrading).

End Scenario.

(** ** A backend on the IPv6 loopback

    The only backend is the loopback address, written with or without a
    port.  The parsers answer on the strings that occur as Go's do:
    [url.Parse] keeps the brackets in the authority, [net.SplitHostPort]
    strips them together with the port and reports a missing port when
    there is none, and [net.ParseIP] accepts the address only without
    brackets. *)

Module Loopback6.

Definition url_Parse (s : string) : URL + error :=
  if String.eqb s "http://[::1]" then inl (mkURL "http" "[::1]" "")
  else if String.eqb s "http://[::1]:80" then inl (mkURL "http" "[::1]:80" "")
  else Scenario.url_Parse s.

Definition SplitHostPort (s : string) : option (string * string) :=
  if String.eqb s "[::1]:80" then Some ("::1", "80") else Scenario.SplitHostPort s.

Definition ParseIP (s : string) : bool :=
  String.eqb s "::1" || Scenario.ParseIP s.

(** The routes backend gives the one backend [b]; upstream exchanges
    succeed. *)
Definition env (b : string) : Env :=
  mkEnv (fun n => Z.of_nat n * Second) (fun _ => inl ("s6", [b], ∅))
    (fun _ _ _ _ _ => None) SplitHostPort ParseIP url_Parse
    (fun _ => inl "6ba7b810-9dad-41d1-80b4-00c04fd430c8") (fun k => k)
    (fun _ => inl Scenario.ok200) (fun _ => false) (fun _ => "100ms")
    (fun _ => None) true None (fun _ => None).

End Loopback6.

(** * Proofs *)

Ltac run_go :=
  unfold bind, ret, raise, loop_forever, emit, get_router, put_router, time_Now;
  cbn [router ticks trace world_of fst snd].

(** ** [int32] *)

Module Int32Facts.

Lemma wrap_range z : Int32.in_range (Int32.wrap z).
Proof.
  unfold Int32.in_range, Int32.wrap, Int32.min_int, Int32.max_int.
  pose proof (Z.mod_pos_bound (z + 2 ^ 31) (2 ^ 32) ltac:(lia)). lia.
Qed.

Lemma wrap_small z : Int32.in_range z -> Int32.wrap z = z.
Proof.
  unfold Int32.in_range, Int32.wrap, Int32.min_int, Int32.max_int. intros Hz.
  rewrite Z.mod_small; lia.
Qed.

End Int32Facts.

(** ** The cache and the trace *)

Lemma lru_peek_remove_eq k (c : Cache) : lru_peek k (lru_remove k c) = None.
Proof.
  induction c as [|[k' v] c IH]; simpl; [reflexivity|].
  destruct (String.eqb k' k) eqn:Hk; simpl; [exact IH|].
  rewrite Hk. exact IH.
Qed.

Lemma lru_peek_remove_ne k k' (c : Cache) :
  k <> k' -> lru_peek k' (lru_remove k c) = lru_peek k' c.
Proof.
  intros Hne. induction c as [|[k0 v] c IH]; simpl; [reflexivity|].
  destruct (String.eqb k0 k) eqn:Hk.
  - apply String.eqb_eq in Hk. subst k0.
    destruct (String.eqb k k') eqn:Hk'; [|exact IH].
    apply String.eqb_eq in Hk'. contradiction.
  - simpl. destruct (String.eqb k0 k'); [reflexivity|exact IH].
Qed.

(** [Get] reorders the cache and leaves every binding as it was. *)
Lemma lru_Get_peek k k' (c : Cache) :
  lru_peek k' (snd (lru_Get k c)) = lru_peek k' c.
Proof.
  unfold lru_Get. destruct (lru_peek k c) as [v|] eqn:Hp; simpl; [|reflexivity].
  destruct (String.eqb k k') eqn:Hk.
  - apply String.eqb_eq in Hk. subst k'. symmetry. exact Hp.
  - apply lru_peek_remove_ne. intros ->. rewrite String.eqb_refl in Hk. discriminate.
Qed.

Lemma lru_Get_fst k (c : Cache) : fst (lru_Get k c) = lru_peek k c.
Proof. unfold lru_Get. destruct (lru_peek k c); reflexivity. Qed.

(** The entry just added is the one found under its key. *)
Lemma lru_Add_peek k v (c : Cache) : lru_peek k (lru_Add k v c) = Some v.
Proof. unfold lru_Add. simpl. rewrite String.eqb_refl. reflexivity. Qed.

Lemma drop_length_app {A} (l l' : list A) : drop (length l) (l ++ l') = l'.
Proof. induction l; simpl; auto. Qed.

Lemma drop_length_self {A} (l : list A) : drop (length l) l = [].
Proof. induction l; simpl; auto. Qed.

Lemma new_events_app {A} (w : World) (o : outcome A) (evs : list event) :
  trace (world_of o) = trace w ++ evs -> new_events w o = evs.
Proof. intros H. unfold new_events. rewrite H. apply drop_length_app. Qed.

(** ** Snapshot acquisition *)

(** C8: snapshot acquisition.  The cached snapshot is returned exactly when
    it is present and not past its deadline, so never when it is older
    than two seconds, and then the routes backend is not called.
    Otherwise the routes backend is called once; on success the fresh
    snapshot carries [expires = now + 2s] for a clock reading [now] taken
    during the call and is the entry found in the cache afterwards; on
    failure the failure is returned, no snapshot (stale or otherwise) is,
    and every binding of the cache is what it was. *)
Theorem getBackends_cache_ttl (E : Env) (h : string) (w : World) :
  let now := clock E (ticks w) in
  match cached_fresh now h (cache (router w)) with
  | Some s =>
      exists w', getBackends E h w = Ret (inl s) w'
        /\ new_events w (getBackends E h w) = []
        /\ now - stamped_at s <= 2 * Second
        /\ forall k, lru_peek k (cache (router w')) = lru_peek k (cache (router w))
  | None =>
      new_events w (getBackends E h w) = [EvBackends h] /\
      match Backends E h with
      | inl (i, bs, d) =>
          exists w' t,
            getBackends E h w
            = Ret (inl (mkBackendSet i bs d (clock E t + 2 * Second))) w'
            /\ (ticks w <= t <= S (ticks w))%nat
            /\ ticks w' = S t
            /\ lru_peek h (cache (router w'))
               = Some (mkBackendSet i bs d (clock E t + 2 * Second))
      | inr err =>
          exists w',
            getBackends E h w
            = Ret (inr (Errorf "error running routes backend commands: " err)) w'
            /\ forall k, lru_peek k (cache (router w')) = lru_peek k (cache (router w))
      end
  end.
Proof.
  intros now. subst now. unfold cached_fresh, new_events, getBackends, cache_Get, cache_Add, Expired.
  destruct w as [rt t tr]. run_go.
  pose proof (lru_Get_fst h (cache rt)) as Hfst.
  pose proof (fun k => lru_Get_peek h k (cache rt)) as Hsnd.
  destruct (lru_Get h (cache rt)) as [v c']. simpl in Hfst, Hsnd. subst v.
  run_go.
  destruct (lru_peek h (cache rt)) as [s|] eqn:Hpeek; run_go.
  - destruct (expires s <? clock E t) eqn:Hexp; run_go.
    + destruct (Backends E h) as [[[i bs] d]|err]; run_go;
        (split; [apply (drop_length_app tr [EvBackends h])|]).
      * eexists _, (S t). split; [reflexivity|]. cbn.
        repeat split; try lia. apply lru_Add_peek.
      * eexists. split; [reflexivity|]. cbn. exact Hsnd.
    + eexists. split; [reflexivity|]. cbn.
      split; [apply drop_length_self|].
      split; [|exact Hsnd].
      unfold stamped_at. apply Z.ltb_ge in Hexp. lia.
  - destruct (Backends E h) as [[[i bs] d]|err]; run_go;
      (split; [apply (drop_length_app tr [EvBackends h])|]).
    + eexists _, t. split; [reflexivity|]. cbn.
      repeat split; try lia. apply lru_Add_peek.
    + eexists. split; [reflexivity|]. cbn. exact Hsnd.
Qed.

(** [getBackends] always returns, and calls nothing but the routes
    backend. *)
Lemma getBackends_trace (E : Env) (h : string) (w : World) :
  exists r w' (evs : list event),
    getBackends E h w = Ret r w'
    /\ trace w' = trace w ++ evs
    /\ forallb isBackends evs = true.
Proof.
  unfold getBackends, cache_Get, cache_Add, Expired.
  destruct w as [rt t tr]. run_go.
  destruct (lru_Get h (cache rt)) as [[s|] c']; run_go.
  - destruct (expires s <? clock E t); run_go.
    + destruct (Backends E h) as [[[i bs] d]|err]; run_go;
        eexists _, _, [EvBackends h]; repeat split; reflexivity.
    + eexists _, _, []. rewrite app_nil_r. repeat split; reflexivity.
  - destruct (Backends E h) as [[[i bs] d]|err]; run_go;
      eexists _, _, [EvBackends h]; repeat split; reflexivity.
Qed.

Lemma lru_peek_take k (n : nat) (c : Cache) s :
  lru_peek k (take n c) = Some s -> lru_peek k c = Some s.
Proof.
  revert n. induction c as [|[k' v] c IH]; intros [|n]; simpl; try discriminate.
  destruct (String.eqb k' k); [trivial|apply IH].
Qed.

Lemma lru_Add_peek_inv k v (c : Cache) k' s :
  lru_peek k' (lru_Add k v c) = Some s ->
  (k' = k /\ s = v) \/ lru_peek k' c = Some s.
Proof.
  intros Hp. apply lru_peek_take in Hp. simpl in Hp.
  destruct (String.eqb_spec k k') as [->|Hne].
  - left. injection Hp as <-. auto.
  - right. rewrite lru_peek_remove_ne in Hp by exact Hne. exact Hp.
Qed.

(** X7: [getBackends] keeps the cache stamped: what it adds carries the
    reading it has just taken. *)
Lemma getBackends_keeps_stamps (E : Env) (h : string) (w : World) r w' :
  stamped_by_clock E w ->
  getBackends E h w = Ret r w' ->
  stamped_by_clock E w' /\ (ticks w <= ticks w')%nat.
Proof.
  unfold stamped_by_clock, getBackends, cache_Get, cache_Add, Expired.
  destruct w as [rt t tr]. run_go. intros Hinv.
  pose proof (fun k => lru_Get_peek h k (cache rt)) as Hsnd.
  destruct (lru_Get h (cache rt)) as [v c']. simpl in Hsnd.
  assert (Hinv' : forall n, (t <= n)%nat -> forall h0 s,
             lru_peek h0 c' = Some s ->
             exists t0, (t0 < n)%nat /\ stamped_at s = clock E t0).
  { intros n Hn h0 s Hp. rewrite Hsnd in Hp.
    destruct (Hinv h0 s Hp) as (t0 & Ht0 & Hs). exists t0. split; [lia|exact Hs]. }
  assert (Hadd : forall n i bs d, (t <= n)%nat -> forall h0 s,
             lru_peek h0 (lru_Add h (mkBackendSet i bs d (clock E n + 2 * Second)) c')
             = Some s ->
             exists t0, (t0 < S n)%nat /\ stamped_at s = clock E t0).
  { intros n i bs d Hn h0 s Hp. apply lru_Add_peek_inv in Hp as [[_ ->]|Hp].
    - exists n. split; [lia|]. unfold stamped_at. cbn. lia.
    - destruct (Hinv' n Hn h0 s Hp) as (t0 & Ht0 & Hs). exists t0. split; [lia|exact Hs]. }
  run_go. destruct v as [s0|]; run_go.
  - destruct (expires s0 <? clock E t); run_go.
    + destruct (Backends E h) as [[[i bs] d]|err]; run_go; intros [= <- <-]; cbn.
      * split; [apply Hadd; lia|lia].
      * split; [apply Hinv'; lia|lia].
    + intros [= <- <-]; cbn. split; [apply Hinv'; lia|lia].
  - destruct (Backends E h) as [[[i bs] d]|err]; run_go; intros [= <- <-]; cbn.
    + split; [apply Hadd; lia|lia].
    + split; [apply Hinv'; lia|lia].
Qed.

(** ** Selection *)

(** The loop hands back [-1] or a key that is not in the dead set. *)
Lemma scan_live fuel (d : gset Z) n k0 c probes r :
  scan fuel d n k0 c = Some (probes, r) -> r = -1 \/ r ∉ d.
Proof.
  revert c probes r. induction fuel as [|fuel IH]; intros c probes r; simpl; [discriminate|].
  destruct (decide (c ∈ d)) as [Hin|Hout].
  - destruct (Z.rem (Int32.add c 1) n =? k0).
    + intros [= _ <-]. now left.
    + destruct (scan fuel d n k0 (Z.rem (Int32.add c 1) n)) as [[p r']|] eqn:Hs;
        [|discriminate].
      intros [= _ <-]. eapply IH. exact Hs.
  - intros [= _ <-]. now right.
Qed.

Lemma selectIndex_live set counter probes r :
  selectIndex set counter = Done (probes, r) -> r = -1 \/ r ∉ dead set.
Proof.
  unfold selectIndex, int32_rem.
  destruct (Int32.wrap (Z.of_nat (length (backends set))) =? 0); [discriminate|].
  destruct (scan _ _ _ _ _) as [[p r']|] eqn:Hs; [|discriminate].
  intros [= _ <-]. eapply scan_live. exact Hs.
Qed.

Lemma index_Done (l : list string) i b :
  index l i = Done b ->
  0 <= i < Z.of_nat (length l) /\ l !! Z.to_nat i = Some b.
Proof.
  unfold index. destruct (i <? 0) eqn:Hi; [discriminate|].
  apply Z.ltb_ge in Hi.
  destruct (l !! Z.to_nat i) as [b'|] eqn:Hl; [|discriminate].
  intros [= <-]. split; [|reflexivity].
  apply lookup_lt_Some in Hl. lia.
Qed.

(** C2: whenever [getRequestData] returns a choice (no error), the chosen
    index is not in the dead set of the snapshot it selected from; it is an
    index of that snapshot and the chosen URL is the one stored there. *)
Theorem getRequestData_never_dead (E : Env) (req : Request) (save : bool)
    (w : World) (req' : Request) (rd : requestData) (w' : World) :
  getRequestData E req save w = Ret (req', rd, None) w' ->
  exists set w2,
    getBackends E (hostOnly E (Host req)) (after_start w) = Ret (inl set) w2
    /\ (backendIdx rd ∉ dead set)
    /\ 0 <= backendIdx rd < Z.of_nat (length (backends set))
    /\ backends set !! Z.to_nat (backendIdx rd) = Some (backend rd).
Proof.
  unfold getRequestData. run_go. fold (after_start w).
  destruct (getBackends E (hostOnly E (Host req)) (after_start w))
    as [[set|err] w2|p w2|w2] eqn:Hget; try discriminate.
  unfold nextCounter. run_go.
  destruct (selectIndex set _) as [[probes r]|p|] eqn:Hsel; cbn; try discriminate.
  destruct (r =? -1) eqn:Hr; [discriminate|].
  destruct (index (backends set) r) as [b|p|] eqn:Hidx; cbn; try discriminate.
  intros [= <- <- <-].
  exists set, w2. split; [reflexivity|]. cbn.
  apply selectIndex_live in Hsel. apply index_Done in Hidx.
  apply Z.eqb_neq in Hr.
  destruct Hsel as [?|Hlive]; [contradiction|].
  destruct Hidx as [Hrange Hlook]. auto.
Qed.

Lemma getRequestData_never_dead_witness :
  exists req' rd w' set w2,
    getRequestData (Scenario.env (inl ("s2", Scenario.three, {[1]})) (inl Scenario.ok200) false)
      Scenario.plain true (Scenario.start (Scenario.routerAt 1 0 false))
    = Ret (req', rd, None) w'
    /\ getBackends (Scenario.env (inl ("s2", Scenario.three, {[1]})) (inl Scenario.ok200) false)
         "app.example" (after_start (Scenario.start (Scenario.routerAt 1 0 false)))
       = Ret (inl set) w2
    /\ dead set = {[1]} /\ backendIdx rd = 2 /\ (backendIdx rd ∉ dead set).
Proof.
  eexists _, _, _.
  assert (Hrun :
    getRequestData (Scenario.env (inl ("s2", Scenario.three, {[1]})) (inl Scenario.ok200) false)
      Scenario.plain true (Scenario.start (Scenario.routerAt 1 0 false))
    = Ret (set_ReqHeader (Header_Del ∅ "X-Debug-Router") Scenario.plain,
           mkRequestData 3 "http://c:80" 2 "s2" "app.example" false 0, None)
        (mkWorld
           (mkRouter 0 30 "" true {["app.example" := 2]}
              [("app.example", mkBackendSet "s2" Scenario.three {[1]} (3 * Second))]
              false)
           2 [EvBackends "app.example"])) by (vm_compute; reflexivity).
  destruct (getRequestData_never_dead _ _ _ _ _ _ _ Hrun)
    as (set & w2 & Hget & Hlive & _ & _).
  exists set, w2. split; [exact Hrun|]. split; [exact Hget|].
  split; [|split; [reflexivity|exact Hlive]].
  vm_compute in Hget. injection Hget as <- _. reflexivity.
Defined.

(** *** Agreement with the reference algorithm before the counter wraps *)

Lemma walk_find d l :
  snd (walk d l) = default (-1) (find (fun i => bool_decide (i ∉ d)) l).
Proof.
  induction l as [|i l IH]; simpl; [reflexivity|].
  destruct (decide (i ∈ d)) as [Hin|Hout]; simpl.
  - rewrite bool_decide_eq_false_2 by (intros Hn; exact (Hn Hin)). exact IH.
  - rewrite bool_decide_eq_true_2 by exact Hout. reflexivity.
Qed.

Lemma walk_all_dead d l :
  find (fun i => bool_decide (i ∉ d)) l = None -> walk d l = (l, -1).
Proof.
  induction l as [|i l IH]; simpl; [reflexivity|].
  destruct (decide (i ∈ d)) as [Hin|Hout]; simpl.
  - rewrite bool_decide_eq_false_2 by (intros Hn; exact (Hn Hin)).
    intros Hf. rewrite (IH Hf). reflexivity.
  - rewrite bool_decide_eq_true_2 by exact Hout. discriminate.
Qed.

Lemma rem_succ_mod c n :
  0 <= c < n -> n <= Int32.max_int ->
  Z.rem (Int32.add c 1) n = (c + 1) mod n.
Proof.
  intros Hc Hn. unfold Int32.add.
  rewrite Int32Facts.wrap_small
    by (unfold Int32.in_range, Int32.min_int, Int32.max_int in *; lia).
  apply Z.rem_mod_nonneg; lia.
Qed.

Lemma ring_step_ne n k0 d :
  0 <= k0 < n -> 0 < d < n -> (k0 + d) mod n <> k0.
Proof.
  intros Hk Hd. destruct (Z_lt_dec (k0 + d) n) as [Hlt|Hge].
  - rewrite Z.mod_small by lia. lia.
  - replace (k0 + d) with ((k0 + d - n) + 1 * n) by lia.
    rewrite Z_mod_plus_full, Z.mod_small by lia. lia.
Qed.

Lemma ring_wrap n k0 : 0 <= k0 < n -> (k0 + n) mod n = k0.
Proof.
  intros Hk. replace (k0 + n) with (k0 + 1 * n) by lia.
  rewrite Z_mod_plus_full. apply Z.mod_small. exact Hk.
Qed.

(** With [k0] an index, the loop is the walk along the rest of the ring. *)
Lemma scan_walk (d : gset Z) n k0 :
  0 <= k0 < n -> n <= Int32.max_int ->
  forall (m j fuel : nat),
    (j + S m)%nat = Z.to_nat n -> (S m <= fuel)%nat ->
    scan fuel d n k0 ((k0 + Z.of_nat j) mod n)
    = Some (walk d (map (fun i => (k0 + Z.of_nat i) mod n) (seq j (S m)))).
Proof.
  intros Hk Hn. induction m as [|m IH]; intros j fuel Hj Hfuel;
    (destruct fuel as [|fuel]; [lia|]);
    [change (seq j 1) with [j]
    |change (seq j (S (S m))) with (j :: seq (S j) (S m))];
    cbn [scan map walk].
  - destruct (decide ((k0 + Z.of_nat j) mod n ∈ d)) as [Hin|Hout]; [|reflexivity].
    rewrite rem_succ_mod by (try apply Z.mod_pos_bound; lia).
    rewrite Z.add_mod_idemp_l by lia.
    replace (k0 + Z.of_nat j + 1) with (k0 + n) by lia.
    rewrite ring_wrap by lia. rewrite Z.eqb_refl. reflexivity.
  - destruct (decide ((k0 + Z.of_nat j) mod n ∈ d)) as [Hin|Hout]; [|reflexivity].
    rewrite rem_succ_mod by (try apply Z.mod_pos_bound; lia).
    rewrite Z.add_mod_idemp_l by lia.
    replace (k0 + Z.of_nat j + 1) with (k0 + Z.of_nat (S j)) by lia.
    destruct ((k0 + Z.of_nat (S j)) mod n =? k0) eqn:Heq.
    + apply Z.eqb_eq in Heq. exfalso.
      apply (ring_step_ne n k0 (Z.of_nat (S j))); [lia|lia|exact Heq].
    + rewrite (IH (S j) fuel) by lia.
      destruct (walk d _) as [p r]. reflexivity.
Qed.

(** Before the counter wraps, [selectIndex] walks the ring of the
    specification from [k0 = (counter - 1) mod N]. *)
Lemma selectIndex_walk set counter :
  let n := Z.of_nat (length (backends set)) in
  1 <= n <= Int32.max_int -> 1 <= counter <= Int32.max_int ->
  selectIndex set counter
  = Done (walk (dead set) (ring n ((counter - 1) mod n))).
Proof.
  intros n Hn Hc. unfold selectIndex, int32_rem. fold n.
  rewrite (Int32Facts.wrap_small n)
    by (unfold Int32.in_range, Int32.min_int, Int32.max_int in *; lia).
  destruct (n =? 0) eqn:Hz; [apply Z.eqb_eq in Hz; lia|].
  unfold Int32.sub.
  rewrite Int32Facts.wrap_small
    by (unfold Int32.in_range, Int32.min_int, Int32.max_int in *; lia).
  rewrite Z.rem_mod_nonneg by lia.
  set (k0 := (counter - 1) mod n).
  assert (Hk : 0 <= k0 < n) by (apply Z.mod_pos_bound; lia).
  destruct (Z.to_nat n) as [|m] eqn:Hm; [lia|].
  pose proof (scan_walk (dead set) n k0 Hk ltac:(lia) m 0%nat (scan_fuel n)) as Hs.
  rewrite Z.add_0_r, (Z.mod_small k0 n Hk) in Hs.
  rewrite Hs; [unfold ring; rewrite Hm; reflexivity| lia |].
  unfold scan_fuel. lia.
Qed.

(** In that regime the choice is the reference algorithm's, and a ring
    with no live index is looked at exactly once, index by index. *)
Lemma selectIndex_reference set counter :
  let n := Z.of_nat (length (backends set)) in
  1 <= n <= Int32.max_int -> 1 <= counter <= Int32.max_int ->
  exists probes toUse,
    selectIndex set counter = Done (probes, toUse)
    /\ toUse = default (-1) (reference_select set counter)
    /\ (reference_select set counter = None ->
        probes = ring n ((counter - 1) mod n) /\ length probes = Z.to_nat n).
Proof.
  intros n Hn Hc. pose proof (selectIndex_walk set counter Hn Hc) as Hw. fold n in Hw.
  destruct (walk (dead set) (ring n ((counter - 1) mod n))) as [p r] eqn:Hwalk.
  exists p, r. split; [exact Hw|].
  unfold reference_select. fold n.
  destruct (n =? 0) eqn:Hz; [apply Z.eqb_eq in Hz; lia|].
  split.
  - rewrite <- walk_find, Hwalk. reflexivity.
  - intros Hnone. rewrite (walk_all_dead _ _ Hnone) in Hwalk.
    injection Hwalk as <- _. split; [reflexivity|].
    unfold ring. rewrite length_map, length_seq. reflexivity.
Qed.

Lemma find_ring_range (d : gset Z) n k0 i :
  0 < n ->
  find (fun i => bool_decide (i ∉ d)) (ring n k0) = Some i -> 0 <= i < n.
Proof.
  intros Hn Hf. apply find_some in Hf as [Hin _].
  unfold ring in Hin. apply in_map_iff in Hin as (j & <- & _).
  apply Z.mod_pos_bound. exact Hn.
Qed.

(** The ring visits every index. *)
Lemma ring_complete n k0 i : 0 <= k0 < n -> 0 <= i < n -> In i (ring n k0).
Proof.
  intros Hk Hi. unfold ring. apply in_map_iff.
  exists (Z.to_nat ((i - k0) mod n)).
  pose proof (Z.mod_pos_bound (i - k0) n ltac:(lia)) as Hm.
  split.
  - rewrite Z2Nat.id by lia. rewrite Z.add_mod_idemp_r by lia.
    replace (k0 + (i - k0)) with i by lia. apply Z.mod_small. exact Hi.
  - apply in_seq. lia.
Qed.

(** With a live index in the snapshot the reference algorithm finds one. *)
Lemma reference_select_live set counter i :
  0 <= i < Z.of_nat (length (backends set)) -> i ∉ dead set ->
  exists j, reference_select set counter = Some j.
Proof.
  intros Hi Hlive. unfold reference_select.
  set (n := Z.of_nat (length (backends set))) in *.
  destruct (n =? 0) eqn:Hz; [apply Z.eqb_eq in Hz; lia|].
  destruct (find _ _) as [j|] eqn:Hf; [exists j; reflexivity|].
  exfalso. eapply find_none in Hf.
  - apply bool_decide_eq_false in Hf. apply Hf. exact Hlive.
  - apply ring_complete; [apply Z.mod_pos_bound|]; lia.
Qed.

Lemma nextCounter_value (rr : gmap string Z) (h : string) :
  default 0 (match rr !! h with
             | Some _ => rr
             | None => <[h := 0]> rr
             end !! h) = default 0 (rr !! h).
Proof.
  destruct (rr !! h) as [x|] eqn:Hl; [rewrite Hl; reflexivity|].
  rewrite lookup_insert_eq. reflexivity.
Qed.

(** While the counter of the host has not wrapped, [getRequestData]
    chooses what the reference algorithm chooses from the incremented
    counter, and fails with "all backends are dead" exactly when the
    reference finds no live index. *)
Lemma getRequestData_reference (E : Env) (req : Request) (save : bool)
    (w : World) (set : backendSet) (w2 : World) :
  let h := hostOnly E (Host req) in
  let n := Z.of_nat (length (backends set)) in
  let c := default 0 (roundRobin (router w2) !! h) in
  getBackends E h (after_start w) = Ret (inl set) w2 ->
  1 <= n <= Int32.max_int -> 0 <= c < Int32.max_int ->
  exists req' rd w',
    getRequestData E req save w
    = Ret (req', rd,
           match reference_select set (c + 1) with
           | Some _ => None
           | None => Some (PlainError "all backends are dead")
           end) w'
    /\ roundRobin (router w') !! h = Some (c + 1)
    /\ forall i, reference_select set (c + 1) = Some i ->
         backendIdx rd = i /\ backends set !! Z.to_nat i = Some (backend rd).
Proof.
  intros h n c Hget Hn Hc. unfold getRequestData. run_go. fold (after_start w).
  fold h. rewrite Hget. unfold nextCounter. run_go.
  rewrite nextCounter_value. fold c.
  assert (Hadd : Int32.add c 1 = c + 1).
  { unfold Int32.add. apply Int32Facts.wrap_small.
    unfold Int32.in_range, Int32.min_int, Int32.max_int in *. lia. }
  rewrite Hadd.
  destruct (selectIndex_reference set (c + 1) Hn ltac:(lia))
    as (probes & toUse & Hsel & Hto & _).
  rewrite Hsel. cbn [lift]. run_go.
  destruct (reference_select set (c + 1)) as [i|] eqn:Href; cbn in Hto; subst toUse.
  - assert (Hi : 0 <= i < n).
    { unfold reference_select in Href. fold n in Href.
      destruct (n =? 0); [discriminate|].
      eapply find_ring_range; [|exact Href]. lia. }
    destruct (i =? -1) eqn:Hm1; [apply Z.eqb_eq in Hm1; lia|].
    unfold index. destruct (i <? 0) eqn:Hneg; [apply Z.ltb_lt in Hneg; lia|].
    destruct (backends set !! Z.to_nat i) as [b|] eqn:Hb.
    + cbn [lift]. run_go. eexists _, _, _. split; [reflexivity|].
      cbn. split; [apply lookup_insert_eq|].
      intros i' [= <-]. split; [reflexivity|exact Hb].
    + apply lookup_ge_None in Hb. lia.
  - cbn. eexists _, _, _. split; [reflexivity|].
    cbn. split; [apply lookup_insert_eq|]. intros i' [=].
Qed.

(** *** The fuel of the loop *)

Lemma next_negative n c :
  1 <= n <= Int32.max_int -> - n < c < 0 -> next n c = c + 1.
Proof.
  intros Hn Hc. unfold next, Int32.add.
  rewrite Int32Facts.wrap_small
    by (unfold Int32.in_range, Int32.min_int, Int32.max_int in *; lia).
  replace (c + 1) with (- (- (c + 1))) by lia.
  rewrite Z.rem_opp_l by lia. rewrite Z.rem_small by lia. reflexivity.
Qed.

Lemma next_index n c :
  1 <= n <= Int32.max_int -> 0 <= c < n -> 0 <= next n c < n.
Proof.
  intros Hn Hc. unfold next. rewrite rem_succ_mod by lia.
  apply Z.mod_pos_bound. lia.
Qed.

(** Running out of fuel means every key met on the way was dead. *)
Lemma scan_None_dead (d : gset Z) n k0 :
  forall fuel c, scan fuel d n k0 c = None ->
  forall j, (j < fuel)%nat -> Nat.iter j (next n) c ∈ d.
Proof.
  induction fuel as [|fuel IH]; intros c Hs j Hj; [lia|].
  cbn [scan] in Hs. destruct (decide (c ∈ d)) as [Hin|Hout]; [|discriminate].
  fold (next n c) in Hs.
  destruct (next n c =? k0); [discriminate|].
  destruct (scan fuel d n k0 (next n c)) as [[p r]|] eqn:Hrec; [discriminate|].
  destruct j as [|j]; [exact Hin|].
  rewrite Nat.iter_succ_r. apply (IH _ Hrec). lia.
Qed.

Lemma iter_next_negative n :
  1 <= n <= Int32.max_int ->
  forall j c, - n < c -> c + Z.of_nat j <= 0 ->
  Nat.iter j (next n) c = c + Z.of_nat j.
Proof.
  intros Hn. induction j as [|j IH]; intros c Hc Hj; [cbn; lia|].
  rewrite Nat.iter_succ_r, next_negative by lia.
  rewrite IH by lia. lia.
Qed.

Lemma iter_next_index n :
  1 <= n <= Int32.max_int ->
  forall j c, 0 <= c -> c + Z.of_nat j < n ->
  Nat.iter j (next n) c = c + Z.of_nat j.
Proof.
  intros Hn. induction j as [|j IH]; intros c Hc Hj; [cbn; lia|].
  rewrite Nat.iter_succ_r. unfold next at 2. rewrite rem_succ_mod by lia.
  rewrite Z.mod_small by lia. rewrite IH by lia. lia.
Qed.

(** From a negative start, with every key from there to the end of the
    ring dead, the loop has no way out. *)
Lemma scan_stuck (d : gset Z) n k0 :
  1 <= n <= Int32.max_int -> - n < k0 < 0 ->
  (forall i, k0 <= i < n -> i ∈ d) ->
  forall fuel c, k0 <= c < n -> scan fuel d n k0 c = None.
Proof.
  intros Hn Hk Hdead. induction fuel as [|fuel IH]; intros c Hc; [reflexivity|].
  cbn [scan]. destruct (decide (c ∈ d)) as [_|Hout]; [|now contradiction Hout; apply Hdead].
  fold (next n c).
  assert (Hnext : k0 < next n c < n).
  { destruct (Z_lt_dec c 0).
    - rewrite next_negative by lia. lia.
    - pose proof (next_index n c Hn ltac:(lia)). lia. }
  destruct (next n c =? k0) eqn:Heq; [apply Z.eqb_eq in Heq; lia|].
  rewrite IH by lia. reflexivity.
Qed.

(** The fuel [selectIndex] gives the loop decides it: for a backend count
    that fits [int32] and a start as line 213 computes it, a loop that
    has not stopped within [scan_fuel n] rounds never stops. *)
Lemma scan_out_of_fuel_forever (d : gset Z) n k0 :
  1 <= n <= Int32.max_int -> - n < k0 < n ->
  scan (scan_fuel n) d n k0 k0 = None ->
  forall fuel, scan fuel d n k0 k0 = None.
Proof.
  intros Hn Hk Hnone fuel.
  destruct (Z_lt_dec k0 0) as [Hneg|Hpos].
  - apply scan_stuck; try lia.
    intros i Hi. pose proof (scan_None_dead d n k0 _ _ Hnone) as Hdead.
    destruct (Z_lt_dec i 0) as [Hi0|Hi0].
    + specialize (Hdead (Z.to_nat (i - k0)) ltac:(unfold scan_fuel; lia)).
      rewrite iter_next_negative in Hdead by lia.
      replace (k0 + Z.of_nat (Z.to_nat (i - k0))) with i in Hdead by lia.
      exact Hdead.
    + specialize (Hdead (Z.to_nat i + Z.to_nat (- k0))%nat ltac:(unfold scan_fuel; lia)).
      rewrite Nat.iter_add in Hdead.
      rewrite (iter_next_negative n Hn (Z.to_nat (- k0)) k0) in Hdead by lia.
      replace (k0 + Z.of_nat (Z.to_nat (- k0))) with 0 in Hdead by lia.
      rewrite iter_next_index in Hdead by lia.
      replace (0 + Z.of_nat (Z.to_nat i)) with i in Hdead by lia.
      exact Hdead.
  - exfalso.
    destruct (Z.to_nat n) as [|m] eqn:Hm; [lia|].
    pose proof (scan_walk d n k0 ltac:(lia) ltac:(lia) m 0%nat (scan_fuel n)
                  ltac:(lia) ltac:(unfold scan_fuel; lia)) as Hs.
    rewrite Z.add_0_r, Z.mod_small in Hs by lia.
    rewrite Hs in Hnone. discriminate.
Qed.

(** *** Where selection goes wrong *)

(** X4: Once the counter has wrapped, line 213 yields a negative start unless
    [counter - 1] is a multiple of the backend count; no dead set of
    indices contains it, so the loop stops at once and hands it back as
    the choice: [-1] is then read as "all backends are dead", anything
    below makes line 230 index the slice out of range. *)
Lemma selectIndex_wrapped set counter :
  let n := Z.of_nat (length (backends set)) in
  1 <= n <= Int32.max_int ->
  Int32.min_int < counter <= 0 ->
  (forall i, i ∈ dead set -> 0 <= i) ->
  Z.rem (counter - 1) n <> 0 ->
  exists k, selectIndex set counter = Done ([k], k) /\ - n < k < 0.
Proof.
  intros n Hn Hc Hdead Hrem. unfold selectIndex, int32_rem. fold n.
  rewrite (Int32Facts.wrap_small n)
    by (unfold Int32.in_range, Int32.min_int, Int32.max_int in *; lia).
  destruct (n =? 0) eqn:Hz; [apply Z.eqb_eq in Hz; lia|].
  unfold Int32.sub.
  rewrite Int32Facts.wrap_small
    by (unfold Int32.in_range, Int32.min_int, Int32.max_int in *; lia).
  set (k := Z.rem (counter - 1) n) in *.
  assert (Hk : - n < k < 0).
  { pose proof (Z.mod_pos_bound (- (counter - 1)) n ltac:(lia)) as Hb.
    assert (Hopp : k = - ((- (counter - 1)) mod n)).
    { subst k. replace (counter - 1) with (- (- (counter - 1))) at 1 by lia.
      rewrite Z.rem_opp_l by lia. rewrite Z.rem_mod_nonneg by lia. reflexivity. }
    lia. }
  exists k. split; [|exact Hk].
  destruct (scan_fuel n) as [|fuel] eqn:Hfuel; [unfold scan_fuel in Hfuel; lia|].
  cbn [scan]. destruct (decide (k ∈ dead set)) as [Hin|_]; [|reflexivity].
  apply Hdead in Hin. lia.
Qed.

(** C3 (the code departs from the specification): when the snapshot has no
    backend, line 213 computes [(initialNumber - 1) % 0]; [getRequestData]
    ends in a run-time panic and returns no error value. *)
Theorem getRequestData_no_backends_panics (E : Env) (req : Request)
    (save : bool) (w : World) (set : backendSet) (w2 : World) :
  getBackends E (hostOnly E (Host req)) (after_start w) = Ret (inl set) w2 ->
  backends set = [] ->
  exists w', getRequestData E req save w = Panics DivideByZero w'.
Proof.
  intros Hget Hnil. unfold getRequestData. run_go. fold (after_start w).
  rewrite Hget. unfold nextCounter. run_go.
  unfold selectIndex, int32_rem. rewrite Hnil. cbn.
  eexists. reflexivity.
Qed.

Lemma getRequestData_no_backends_panics_witness :
  exists w',
    getRequestData (Scenario.env (inl ("s0", [], ∅)) (inl Scenario.ok200) false)
      Scenario.plain true (Scenario.start (Scenario.routerAt 0 0 false))
    = Panics DivideByZero w'.
Proof.
  apply (getRequestData_no_backends_panics _ _ _ _
           (mkBackendSet "s0" [] ∅ (3 * Second))
           (mkWorld
              (mkRouter 0 30 "" true {["app.example" := 0]}
                 [("app.example", mkBackendSet "s0" [] ∅ (3 * Second))] false)
              2 [EvBackends "app.example"])).
  - vm_compute. reflexivity.
  - reflexivity.
Defined.

(** C4 (the code departs from the specification): a counter at the largest
    [int32] value serves one more request and wraps to the smallest one;
    on the request after that line 213 yields [-2] for three backends,
    and line 230 indexes the slice with it. *)
Theorem getRequestData_after_overflow :
  let E := Scenario.env (inl ("s1", Scenario.three, ∅)) (inl Scenario.ok200) false in
  exists req1 rd1 w1,
    getRequestData E Scenario.plain true
      (Scenario.start (Scenario.routerAt Int32.max_int 0 false))
    = Ret (req1, rd1, None) w1
    /\ backendIdx rd1 = 1
    /\ roundRobin (router w1) !! "app.example" = Some Int32.min_int
    /\ exists w2,
         getRequestData E Scenario.plain true w1
         = Panics (IndexOutOfRange (-2) 3) w2.
Proof.
  cbv zeta. eexists _, _, _. split; [vm_compute; reflexivity|].
  split; [reflexivity|]. split; [vm_compute; reflexivity|].
  eexists. vm_compute. reflexivity.
Qed.

(** C1 (the code departs from the specification): with the counter at
    [-1] the increment gives 0; the reference algorithm starts at
    [k0 = (0 - 1) mod 3 = 2] and chooses index 2, which is live, while
    [getRequestData] reports that all backends are dead.  Before the
    counter wraps the two agree ([getRequestData_reference]); after it
    has wrapped they part on most counter values ([selectIndex_wrapped]). *)
Theorem getRequestData_departs_from_reference :
  let E := Scenario.env (inl ("s1", Scenario.three, ∅)) (inl Scenario.ok200) false in
  reference_select (mkBackendSet "s1" Scenario.three ∅ (3 * Second)) 0 = Some 2
  /\ exists req' rd w',
       getRequestData E Scenario.plain true
         (Scenario.start (Scenario.routerAt (-1) 0 false))
       = Ret (req', rd, Some (PlainError "all backends are dead")) w'
       /\ roundRobin (router w') !! "app.example" = Some 0
       /\ lru_peek "app.example" (cache (router w'))
          = Some (mkBackendSet "s1" Scenario.three ∅ (3 * Second)).
Proof.
  cbv zeta. split; [vm_compute; reflexivity|].
  eexists _, _, _. split; [vm_compute; reflexivity|].
  split; vm_compute; reflexivity.
Qed.

(** ** What resolution does to the trace and to the request *)

(** Resolution calls nothing but the routes backend, whatever its
    outcome; when it returns, the request has lost [X-Debug-Router] and
    nothing else, and the record carries the host key and the debug
    flag. *)
Lemma getRequestData_effects (E : Env) (req : Request) (save : bool) (w : World) :
  let o := getRequestData E req save w in
  (exists evs : list event,
      trace (world_of o) = trace w ++ evs /\ forallb isBackends evs = true)
  /\ forall req' rd e w',
       o = Ret (req', rd, e) w' ->
       req' = set_ReqHeader (Header_Del (ReqHeader req) "X-Debug-Router") req
       /\ host rd = hostOnly E (Host req)
       /\ debug rd = negb (String.eqb (Header_Get (ReqHeader req) "X-Debug-Router") "").
Proof.
  cbv zeta. unfold getRequestData. run_go. fold (after_start w).
  destruct (getBackends_trace E (hostOnly E (Host req)) (after_start w))
    as (r & w2 & evs & Hget & Htr & Hevs).
  rewrite Hget. cbn [trace after_start] in Htr.
  destruct r as [set|err].
  - unfold nextCounter. run_go.
    destruct (selectIndex set _) as [[probes toUse]|p|]; cbn [lift]; run_go.
    + destruct (toUse =? -1); run_go.
      * split; [exists evs; auto|]. intros ? ? ? ? [= <- <- <- <-]. auto.
      * destruct (index (backends set) toUse) as [b|p|]; cbn [lift]; run_go.
        -- split; [exists evs; auto|]. intros ? ? ? ? [= <- <- <- <-]. auto.
        -- split; [exists evs; auto|]. intros ? ? ? ? [=].
        -- split; [exists evs; auto|]. intros ? ? ? ? [=].
    + split; [exists evs; auto|]. intros ? ? ? ? [=].
    + split; [exists evs; auto|]. intros ? ? ? ? [=].
  - run_go. split; [exists evs; auto|]. intros ? ? ? ? [= <- <- <- <-]. auto.
Qed.

Lemma backends_only_no_round_trip (evs : list event) :
  forallb isBackends evs = true -> List.filter isRoundTrip evs = [].
Proof.
  induction evs as [|e evs IH]; [reflexivity|].
  cbn. destruct e; cbn; try discriminate. exact IH.
Qed.

Lemma backends_only_In (evs : list event) (e : event) :
  forallb isBackends evs = true -> In e evs -> isBackends e = true.
Proof. intros Hall Hin. rewrite forallb_forall in Hall. exact (Hall e Hin). Qed.

(** ** The forwarder *)

Lemma handleTransportError_run (E : Env) (req : Request) (rd : requestData)
    (err : error) (w : World) :
  exists evs : list event,
    handleTransportError E req rd err w
    = Ret tt (mkWorld (router w) (ticks w) (trace w ++ evs))
    /\ List.filter isRoundTrip evs = []
    /\ List.filter isMarkDead evs
       = if shouldMark E (router w) req err
         then [EvMarkDead (host rd) (backend rd) (backendIdx rd) (backendLen rd)
                 (DeadBackendTTL (router w))]
         else [].
Proof.
  unfold handleTransportError, shouldMark, timedOut, nonTemporary, logError.
  destruct w as [rt t tr]. run_go.
  destruct ((0 <? RequestTimeout rt) && timerFired E req);
    destruct err as [msg|msg [|]]; cbn [negb andb];
    try (eexists; split; [reflexivity|]; split; reflexivity).
  destruct (markingDisabled rt); cbn [negb andb]; run_go;
    [eexists; split; [reflexivity|]; split; reflexivity|].
  destruct (MarkDead E _ _ _ _ _); run_go;
    rewrite <- !app_assoc; eexists; (split; [reflexivity|]); split; reflexivity.
Qed.

(** Without an upstream the forwarder builds the 400 response, whose
    [Header] is the nil map; the debug headers are then set on it. *)
Lemma RoundTripWithData_unresolved (E : Env) (req : Request) (rd : requestData)
    (w : World) :
  unresolved req = true ->
  RoundTripWithData E req rd w
  = if debug rd then Panics NilMapAssignment w
    else Ret (req,
              mkResponse StatusBadRequest (ProtoMajor req) (ProtoMinor req) 13 None
                noRouteResponseBody)
           (if hasLogger (router w)
            then mkWorld (router w) (S (S (ticks w)))
                   (trace w ++ [EvAccessLog StatusBadRequest (backendKey rd)])
            else w).
Proof.
  unfold unresolved, RoundTripWithData. intros ->. destruct w as [rt t tr]. run_go.
  destruct (debug rd); cbn; [reflexivity|].
  destruct (hasLogger rt); reflexivity.
Qed.

(** With an upstream the forwarder calls the transport once, with
    [upstreamRequest]; an error is handled by [handleTransportError] and
    answered with the 503 response, whose [Header] is an empty map. *)
Lemma RoundTripWithData_resolved (E : Env) (req : Request) (rd : requestData)
    (w : World) :
  unresolved req = false ->
  let req' := upstreamRequest E req in
  let o := RoundTripWithData E req rd w in
  exists evs : list event,
    trace (world_of o) = trace w ++ EvRoundTrip req' :: evs
    /\ List.filter isRoundTrip evs = []
    /\ List.filter isMarkDead evs
       = match Transport_RoundTrip E req' with
         | inr err =>
             if shouldMark E (router w) req' err
             then [EvMarkDead (host rd) (backend rd) (backendIdx rd) (backendLen rd)
                     (DeadBackendTTL (router w))]
             else []
         | inl _ => []
         end
    /\ match Transport_RoundTrip E req' with
       | inr err =>
           exists w',
             o = Ret (req',
                      mkResponse StatusServiceUnavailable (ProtoMajor req')
                        (ProtoMinor req') 0
                        (Some (if debug rd then debugHeaders rd ∅ else ∅))
                        emptyResponseBody) w'
       | inl rsp =>
           if debug rd then
             match RspHeader rsp with
             | Some h => exists w', o = Ret (req', with_header rsp (debugHeaders rd h)) w'
             | None => exists w', o = Panics NilMapAssignment w'
             end
           else exists w', o = Ret (req', rsp) w'
       end.
Proof.
  intros Hres req' o. subst o. unfold RoundTripWithData.
  unfold unresolved in Hres. rewrite Hres.
  change (if ParseIP E (hostOnly E (UHost (ReqURL req))) then req
          else set_Host (hostOnly E (UHost (ReqURL req)))
                 (set_ReqHeader (Header_Set (ReqHeader req) "X-Host" (Host req)) req))
    with (upstreamRequest E req).
  fold req'. destruct w as [rt t tr]. run_go.
  destruct (Transport_RoundTrip E req') as [rsp|err] eqn:Hup; run_go.
  - destruct (debug rd); [destruct (RspHeader rsp) as [h|] eqn:Hh|].
    + unfold Response_Header_Set. rewrite Hh. cbn.
      destruct (hasLogger rt); cbn.
      * exists [EvAccessLog (StatusCode rsp) (backendKey rd)].
        rewrite <- app_assoc. repeat split; try reflexivity. eexists; reflexivity.
      * exists []. repeat split; try reflexivity. eexists; reflexivity.
    + unfold Response_Header_Set. rewrite Hh. cbn.
      exists []. repeat split; try reflexivity. eexists; reflexivity.
    + cbn. destruct (hasLogger rt); cbn.
      * exists [EvAccessLog (StatusCode rsp) (backendKey rd)].
        rewrite <- app_assoc. repeat split; try reflexivity. eexists; reflexivity.
      * exists []. repeat split; try reflexivity. eexists; reflexivity.
  - destruct (handleTransportError_run E req' rd err
                (mkWorld rt (S (S t)) (tr ++ [EvRoundTrip req'])))
      as (evs & Hrun & Hrt & Hmd).
    cbn [router ticks trace] in Hrun, Hmd. rewrite Hrun. cbn.
    destruct (debug rd); cbn; (destruct (hasLogger rt); cbn).
    + exists (evs ++ [EvAccessLog StatusServiceUnavailable (backendKey rd)]).
      rewrite <- !app_assoc. rewrite !List.filter_app, Hrt, Hmd, !app_nil_r.
      repeat split; try reflexivity. eexists; reflexivity.
    + exists evs. rewrite <- !app_assoc.
      repeat split; try assumption; try reflexivity. eexists; reflexivity.
    + exists (evs ++ [EvAccessLog StatusServiceUnavailable (backendKey rd)]).
      rewrite <- !app_assoc. rewrite !List.filter_app, Hrt, Hmd, !app_nil_r.
      repeat split; try reflexivity. eexists; reflexivity.
    + exists evs. rewrite <- !app_assoc.
      repeat split; try assumption; try reflexivity. eexists; reflexivity.
Qed.

Lemma filter_isMarkDead_skip (e : event) (evs : list event) :
  isMarkDead e = false ->
  List.filter isMarkDead (e :: evs) = List.filter isMarkDead evs.
Proof. intros H. cbn [List.filter]. rewrite H. reflexivity. Qed.

(** C6: one run of the forwarder calls [MarkDead] at most once, and it
    does so exactly when the upstream exchange failed with a network error
    that is not temporary, the request timer had not fired, and marking
    is not disabled; the call names the host, backend, index and size of
    the request record and the configured TTL. *)
Theorem RoundTripWithData_marks_dead_at_most_once (E : Env) (req : Request)
    (rd : requestData) (w : World) :
  let o := RoundTripWithData E req rd w in
  let marks := List.filter isMarkDead (new_events w o) in
  (length marks <= 1)%nat
  /\ (marks <> [] <->
      unresolved req = false
      /\ exists err,
           Transport_RoundTrip E (upstreamRequest E req) = inr err
           /\ nonTemporary err = true
           /\ timedOut E (router w) (upstreamRequest E req) = false
           /\ markingDisabled (router w) = false)
  /\ forall e, In e marks ->
       e = EvMarkDead (host rd) (backend rd) (backendIdx rd) (backendLen rd)
             (DeadBackendTTL (router w)).
Proof.
  cbv zeta. destruct (unresolved req) eqn:Hres.
  - rewrite (RoundTripWithData_unresolved E req rd w Hres).
    assert (Hnone : List.filter isMarkDead
                      (new_events w
                         (if debug rd then Panics NilMapAssignment w
                          else Ret (req,
                                    mkResponse StatusBadRequest (ProtoMajor req)
                                      (ProtoMinor req) 13 None noRouteResponseBody)
                                 (if hasLogger (router w)
                                  then mkWorld (router w) (S (S (ticks w)))
                                         (trace w ++ [EvAccessLog StatusBadRequest
                                                        (backendKey rd)])
                                  else w))) = []).
    { destruct (debug rd); [|destruct (hasLogger (router w))].
      - unfold new_events. cbn. rewrite drop_length_self. reflexivity.
      - rewrite (new_events_app _ _ [EvAccessLog StatusBadRequest (backendKey rd)]);
          reflexivity.
      - unfold new_events. cbn. rewrite drop_length_self. reflexivity. }
    rewrite Hnone. cbn. split; [lia|]. split; [|intros e []].
    split; [intros H; now contradiction H|intros [H _]; discriminate].
  - destruct (RoundTripWithData_resolved E req rd w Hres)
      as (evs & Htr & _ & Hmd & _).
    rewrite (new_events_app _ _ _ Htr).
    rewrite filter_isMarkDead_skip by reflexivity. rewrite Hmd.
    destruct (Transport_RoundTrip E (upstreamRequest E req)) as [rsp|err].
    + cbn. split; [lia|]. split; [|intros e []].
      split; [intros H; now contradiction H|intros [_ (err & [=] & _)]].
    + unfold shouldMark.
      destruct (nonTemporary err) eqn:Hnt;
        destruct (timedOut E (router w) (upstreamRequest E req)) eqn:Hto;
        destruct (markingDisabled (router w)) eqn:Hdis; cbn;
        (split; [lia|]);
        (split; [split; [intros H; try now contradiction H
                        |intros [_ (err' & [= <-] & H1 & H2 & H3)];
                         try congruence; try discriminate]
                |intros e He; try (destruct He as [<-|[]]; reflexivity);
                 try now destruct He]).
      split; [reflexivity|]. exists err. auto.
Qed.

Lemma unresolved_false (req : Request) :
  Scheme (ReqURL req) <> "" -> UHost (ReqURL req) <> "" -> unresolved req = false.
Proof.
  intros Hs Hh. unfold unresolved.
  destruct (String.eqb_spec (Scheme (ReqURL req)) ""); [contradiction|].
  destruct (String.eqb_spec (UHost (ReqURL req)) ""); [contradiction|].
  reflexivity.
Qed.

(** A request with an upstream is handed to the transport once.  The
    rewrite follows the test of line 297 on the upstream host as lines
    293-296 compute it: when [net.ParseIP] rejects it, the request sent
    has [Host] set to that host and [X-Host] set to the authority the
    client sent; when [net.ParseIP] accepts it, the request is sent as it
    came, [Host] and [X-Host] included.  The upstream URL is the same in
    both cases. *)
Lemma RoundTripWithData_rewrite_by_test (E : Env) (req : Request)
    (rd : requestData) (w : World) :
  Scheme (ReqURL req) <> "" -> UHost (ReqURL req) <> "" ->
  let up := hostOnly E (UHost (ReqURL req)) in
  exists sent,
    List.filter isRoundTrip (new_events w (RoundTripWithData E req rd w))
    = [EvRoundTrip sent]
    /\ ReqURL sent = ReqURL req
    /\ if ParseIP E up
       then Host sent = Host req /\ ReqHeader sent = ReqHeader req
       else Host sent = up
            /\ ReqHeader sent !! "X-Host" = Some [Host req]
            /\ Header_Get (ReqHeader sent) "X-Host" = Host req
            /\ forall k, k <> "X-Host" -> ReqHeader sent !! k = ReqHeader req !! k.
Proof.
  intros Hs Hh up.
  destruct (RoundTripWithData_resolved E req rd w (unresolved_false req Hs Hh))
    as (evs & Htr & Hrt & _).
  exists (upstreamRequest E req). rewrite (new_events_app _ _ _ Htr).
  cbn [List.filter isRoundTrip]. rewrite Hrt.
  split; [reflexivity|].
  unfold upstreamRequest. fold up. destruct (ParseIP E up).
  - repeat split; reflexivity.
  - cbn. unfold Header_Get, Header_Set. rewrite lookup_insert_eq.
    repeat split; try reflexivity.
    intros k Hk. apply lookup_insert_ne. congruence.
Qed.

(** C9 (the code departs from the specification): an upstream that is a
    literal IPv6 address without a port, as in [http://[::1]], is not
    taken for a literal IP address.  [net.SplitHostPort] finds no port in
    the authority, so line 295 falls back to the whole authority,
    brackets included, and [net.ParseIP] rejects that; the request is
    sent with [Host] rewritten to the bracketed address and [X-Host] set
    to the authority the client sent.  The same address with a port, and
    every IPv4 address, is recognised and nothing is rewritten (see
    [ipv6_backend_scenario]). *)
Theorem RoundTripWithData_bracketed_ipv6 (E : Env) (req : Request)
    (rd : requestData) (w : World) :
  SplitHostPort E "[::1]" = None ->
  ParseIP E "[::1]" = false ->
  Scheme (ReqURL req) <> "" ->
  UHost (ReqURL req) = "[::1]" ->
  exists sent,
    List.filter isRoundTrip (new_events w (RoundTripWithData E req rd w))
    = [EvRoundTrip sent]
    /\ Host sent = "[::1]"
    /\ ReqHeader sent !! "X-Host" = Some [Host req].
Proof.
  intros Hsplit Hip Hs Hh.
  assert (Hhost : UHost (ReqURL req) <> "") by (rewrite Hh; discriminate).
  destruct (RoundTripWithData_rewrite_by_test E req rd w Hs Hhost)
    as (sent & Hsent & _ & Hrw).
  assert (Hup : hostOnly E (UHost (ReqURL req)) = "[::1]")
    by (unfold hostOnly; rewrite Hh, Hsplit; reflexivity).
  rewrite Hup, Hip in Hrw. destruct Hrw as (Hhostsent & Hx & _).
  exists sent. split; [exact Hsent|]. split; assumption.
Qed.

Lemma RoundTripWithData_bracketed_ipv6_witness :
  exists sent,
    List.filter isRoundTrip
      (new_events Scenario.idle
         (RoundTripWithData (Loopback6.env "http://[::1]")
            (set_URL "http" "[::1]" Scenario.plain)
            (mkRequestData 1 "http://[::1]" 0 "s6" "app.example" false 0)
            Scenario.idle))
    = [EvRoundTrip sent]
    /\ Host sent = "[::1]"
    /\ ReqHeader sent !! "X-Host" = Some ["app.example"].
Proof.
  exact (RoundTripWithData_bracketed_ipv6 (Loopback6.env "http://[::1]")
           (set_URL "http" "[::1]" Scenario.plain)
           (mkRequestData 1 "http://[::1]" 0 "s6" "app.example" false 0)
           Scenario.idle eq_refl eq_refl ltac:(discriminate) eq_refl).
Defined.

(** C5 (the code departs from the specification): with the debug flag set, the
    400 response of a request without upstream gets no debug header: its
    [Header] is the nil map, line 338 assigns into it, and the forwarder
    panics before any response exists.  The 503 response, built with an
    empty [Header], does carry the three headers. *)
Theorem RoundTripWithData_debug_synthesized (E : Env) (req : Request)
    (rd : requestData) (w : World) :
  debug rd = true ->
  (unresolved req = true ->
   RoundTripWithData E req rd w = Panics NilMapAssignment w)
  /\ (unresolved req = false ->
      forall err, Transport_RoundTrip E (upstreamRequest E req) = inr err ->
      exists sent rsp h w',
        RoundTripWithData E req rd w = Ret (sent, rsp) w'
        /\ StatusCode rsp = StatusServiceUnavailable
        /\ RspHeader rsp = Some h
        /\ h !! "X-Debug-Backend-Url" = Some [backend rd]
        /\ h !! "X-Debug-Backend-Id" = Some [FormatUint (backendIdx rd)]
        /\ h !! "X-Debug-Frontend-Key" = Some [host rd]).
Proof.
  intros Hdbg. split.
  - intros Hres. rewrite (RoundTripWithData_unresolved E req rd w Hres), Hdbg.
    reflexivity.
  - intros Hres err Herr.
    destruct (RoundTripWithData_resolved E req rd w Hres) as (evs & _ & _ & _ & Hout).
    rewrite Herr, Hdbg in Hout. destruct Hout as (w' & Hout).
    eexists _, _, _, w'. split; [exact Hout|].
    cbn. unfold debugHeaders, Header_Set.
    repeat split; reflexivity.
Qed.

Lemma RoundTripWithData_debug_synthesized_witness :
  let E := Scenario.env (inr (PlainError "redis: connection refused"))
             (inr Scenario.refused) false in
  let rd := mkRequestData 0 "" 0 "" "app.example" true 0 in
  let w := Scenario.start (Scenario.routerAt 0 0 false) in
  RoundTripWithData E Scenario.plain rd w
  = Panics NilMapAssignment w.
Proof.
  cbv zeta.
  apply (proj1 (RoundTripWithData_debug_synthesized
                  (Scenario.env (inr (PlainError "redis: connection refused"))
                     (inr Scenario.refused) false)
                  Scenario.plain
                  (mkRequestData 0 "" 0 "" "app.example" true 0)
                  (Scenario.start (Scenario.routerAt 0 0 false)) eq_refl)).
  reflexivity.
Defined.

(** When resolution fails, or the chosen URL does not parse,
    [chooseBackend] logs the error and leaves the request without scheme
    and host. *)
Lemma chooseBackend_no_route (E : Env) (req : Request) (w : World)
    (req1 : Request) (rd : requestData) (oerr : option error) (w1 : World) :
  getRequestData E (set_URL "" "" req) true w = Ret (req1, rd, oerr) w1 ->
  oerr <> None \/ (exists e, url_Parse E (backend rd) = inr e) ->
  exists err,
    chooseBackend E req w
    = Ret (req1, rd)
        (mkWorld (router w1) (ticks w1)
           (trace w1 ++ [EvLogError (requestData_String rd) (Path (ReqURL req1)) err]))
    /\ unresolved req1 = true.
Proof.
  intros Hget Hfail.
  destruct (getRequestData_effects E (set_URL "" "" req) true w) as [_ Hret].
  destruct (Hret _ _ _ _ Hget) as (Hreq1 & _ & _).
  assert (Hun : unresolved req1 = true) by (rewrite Hreq1; reflexivity).
  unfold chooseBackend. run_go. rewrite Hget. unfold logError.
  destruct oerr as [err|].
  - run_go. exists err. split; [reflexivity|exact Hun].
  - destruct Hfail as [Hne|(e & He)]; [contradiction|].
    rewrite He. run_go. eexists. split; [reflexivity|exact Hun].
Qed.

(** [chooseBackend] never touches the authority the client sent. *)
Lemma chooseBackend_Host (E : Env) (req : Request) (w : World)
    (req' : Request) (rd : requestData) (w' : World) :
  chooseBackend E req w = Ret (req', rd) w' -> Host req' = Host req.
Proof.
  destruct (getRequestData_effects E (set_URL "" "" req) true w) as [_ Hret].
  unfold chooseBackend, bind at 1.
  destruct (getRequestData E (set_URL "" "" req) true w)
    as [[[req1 rd1] oerr] w1|p w1|w1] eqn:Hget; try discriminate.
  destruct (Hret _ _ _ _ eq_refl) as (-> & _ & _). clear Hret Hget.
  unfold logError. destruct oerr as [err|]; run_go.
  - intros [= <- _ _]. reflexivity.
  - destruct (url_Parse E (backend rd1)) as [u|err]; run_go.
    + destruct (negb _ && _); [destruct (uuid_NewV4 E _)|]; run_go;
        intros [= <- _ _];
        destruct (String.eqb (UHost _) ""); reflexivity.
    + intros [= <- _ _]. reflexivity.
Qed.

(** C7 (the code departs from the specification): when resolution fails or the
    chosen URL does not parse, the forwarder makes no upstream call; a
    request without [X-Debug-Router] is answered with the 400 response
    whose body is "no such route", but for a request that carries a
    non-empty [X-Debug-Router] the forwarder panics on the nil [Header] of
    that response and no response is returned. *)
Theorem RoundTrip_no_route (E : Env) (req : Request) (w : World)
    (req1 : Request) (rd : requestData) (oerr : option error) (w1 : World) :
  getRequestData E (set_URL "" "" req) true w = Ret (req1, rd, oerr) w1 ->
  oerr <> None \/ (exists e, url_Parse E (backend rd) = inr e) ->
  let o := RoundTrip E req w in
  List.filter isRoundTrip (new_events w o) = []
  /\ if String.eqb (Header_Get (ReqHeader req) "X-Debug-Router") ""
     then exists sent rsp w',
            o = Ret (sent, rsp) w'
            /\ StatusCode rsp = StatusBadRequest
            /\ Body rsp = "no such route"
            /\ ContentLength rsp = 13
     else exists w', o = Panics NilMapAssignment w'.
Proof.
  intros Hget Hfail o. subst o.
  destruct (getRequestData_effects E (set_URL "" "" req) true w) as [Htr Hret].
  destruct (Hret _ _ _ _ Hget) as (_ & _ & Hdbg). cbn in Hdbg.
  rewrite Hget in Htr. cbn [world_of] in Htr.
  destruct Htr as (evs0 & Htr & Hevs0).
  destruct (chooseBackend_no_route E req w req1 rd oerr w1 Hget Hfail)
    as (err & Hchoose & Hun).
  assert (Hrun : RoundTrip E req w
                 = RoundTripWithData E req1 rd
                     (mkWorld (router w1) (ticks w1)
                        (trace w1 ++ [EvLogError (requestData_String rd)
                                        (Path (ReqURL req1)) err])))
    by (unfold RoundTrip, bind; rewrite Hchoose; reflexivity).
  rewrite Hrun, (RoundTripWithData_unresolved E req1 rd _ Hun), Hdbg.
  cbn [router ticks trace].
  destruct (String.eqb (Header_Get (ReqHeader req) "X-Debug-Router") ""); cbn [negb].
  - split; [|eexists _, _, _; split; [reflexivity|repeat split]].
    destruct (hasLogger (router w1)).
    + erewrite new_events_app
        by (cbn; rewrite Htr, <- !app_assoc; reflexivity).
      rewrite !List.filter_app, (backends_only_no_round_trip _ Hevs0). reflexivity.
    + erewrite new_events_app
        by (cbn; rewrite Htr, <- !app_assoc; reflexivity).
      rewrite !List.filter_app, (backends_only_no_round_trip _ Hevs0). reflexivity.
  - split; [|eexists; reflexivity].
    erewrite new_events_app
      by (cbn; rewrite Htr, <- !app_assoc; reflexivity).
    rewrite !List.filter_app, (backends_only_no_round_trip _ Hevs0). reflexivity.
Qed.

Lemma RoundTrip_no_route_witness :
  (exists w',
     RoundTrip Scenario.lookupFails Scenario.debugging Scenario.idle
     = Panics NilMapAssignment w')
  /\ (exists sent rsp w',
        RoundTrip Scenario.lookupFails Scenario.plain Scenario.idle
        = Ret (sent, rsp) w'
        /\ StatusCode rsp = StatusBadRequest
        /\ Body rsp = "no such route"
        /\ ContentLength rsp = 13).
Proof.
  assert (Hfail : Some Scenario.lookupError <> None) by discriminate.
  split.
  - assert (Hget :
      getRequestData Scenario.lookupFails (set_URL "" "" Scenario.debugging) true
        Scenario.idle
      = Ret (Scenario.stripped Scenario.debugging, Scenario.unrouted true,
             Some Scenario.lookupError) Scenario.afterLookup)
      by (vm_compute; reflexivity).
    pose proof (RoundTrip_no_route Scenario.lookupFails Scenario.debugging
                  Scenario.idle (Scenario.stripped Scenario.debugging)
                  (Scenario.unrouted true) (Some Scenario.lookupError)
                  Scenario.afterLookup Hget (or_introl Hfail)) as H.
    cbv zeta in H. destruct H as [_ H].
    vm_compute (String.eqb _ _) in H. exact H.
  - assert (Hget :
      getRequestData Scenario.lookupFails (set_URL "" "" Scenario.plain) true
        Scenario.idle
      = Ret (Scenario.stripped Scenario.plain, Scenario.unrouted false,
             Some Scenario.lookupError) Scenario.afterLookup)
      by (vm_compute; reflexivity).
    pose proof (RoundTrip_no_route Scenario.lookupFails Scenario.plain
                  Scenario.idle (Scenario.stripped Scenario.plain)
                  (Scenario.unrouted false) (Some Scenario.lookupError)
                  Scenario.afterLookup Hget (or_introl Hfail)) as H.
    cbv zeta in H. destruct H as [_ H].
    vm_compute (String.eqb _ _) in H. exact H.
Defined.

(** ** Scenarios of the specification, run on the model *)

(** The dead-skip scenario of the specification: three backends, index 1
    dead, a fresh counter; four requests choose 0, 2, 2, 0. *)
Example dead_skip_scenario :
  resolve_many (Scenario.env (inl ("s2", Scenario.three, {[1]})) (inl Scenario.ok200) false)
    4 Scenario.plain
    (Scenario.start (mkRouter 0 30 "" true ∅ [] false))
  = [0; 2; 2; 0].
Proof. vm_compute. reflexivity. Qed.

(** The liveness-marking scenario: the backend refuses the connection;
    the client gets the empty 503 response and [MarkDead] is called once,
    for index 0 of 2 with the default TTL. *)
Example liveness_marking_scenario :
  let E := Scenario.env (inl ("s1", ["http://a:80"; "http://b:80"], ∅))
             (inr Scenario.refused) false in
  let o := RoundTrip E Scenario.plain (Scenario.start (mkRouter 0 30 "" true ∅ [] false)) in
  (exists sent w',
     o = Ret (sent, mkResponse StatusServiceUnavailable 1 1 0 (Some ∅) "") w')
  /\ List.filter isMarkDead (new_events (Scenario.start (mkRouter 0 30 "" true ∅ [] false)) o)
     = [EvMarkDead "app.example" "http://a:80" 0 2 30].
Proof.
  cbv zeta. split; [eexists _, _|]; vm_compute; reflexivity.
Qed.

(** The timeout scenario: the request timer goes off before the transport
    gives up; the client gets the 503 response, [MarkDead] is not
    called, and the log line says that the request timed out. *)
Example timeout_scenario :
  let E := Scenario.env (inl ("s1", ["http://a:80"; "http://b:80"], ∅))
             (inr Scenario.refused) true in
  let w := Scenario.start (mkRouter 100000000 30 "" true ∅ [] false) in
  let o := RoundTrip E Scenario.plain w in
  (exists sent w',
     o = Ret (sent, mkResponse StatusServiceUnavailable 1 1 0 (Some ∅) "") w')
  /\ List.filter isMarkDead (new_events w o) = []
  /\ In (EvLogError "app.example -> http://a:80" "/"
           (PlainError "request timed out after 100ms: connection refused"))
       (new_events w o).
Proof.
  cbv zeta. split; [eexists _, _; vm_compute; reflexivity|].
  split; [vm_compute; reflexivity|].
  vm_compute. do 2 right. left. reflexivity.
Qed.

(** The debug-headers scenario: index 0, backend [http://a:80]. *)
Example debug_headers_scenario :
  let E := Scenario.env (inl ("s1", ["http://a:80"; "http://b:80"], ∅))
             (inl Scenario.ok200) false in
  let w := Scenario.start (mkRouter 0 30 "" true ∅ [] false) in
  exists sent rsp h w',
    RoundTrip E Scenario.debugging w = Ret (sent, rsp) w'
    /\ RspHeader rsp = Some h
    /\ h !! "X-Debug-Backend-Url" = Some ["http://a:80"]
    /\ h !! "X-Debug-Backend-Id" = Some ["0"]
    /\ h !! "X-Debug-Frontend-Key" = Some ["app.example"]
    /\ ReqHeader sent !! "X-Debug-Router" = None.
Proof.
  cbv zeta. eexists _, _, _, _. split; [vm_compute; reflexivity|].
  repeat split; vm_compute; reflexivity.
Qed.

(** The IPv6 loopback as backend, run end to end.  Written with a port it
    is taken for a literal IP address and the request goes out as it
    came; written without, [Host] is rewritten and [X-Host] is set. *)
Example ipv6_backend_scenario :
  (exists sent rsp w',
     RoundTrip (Loopback6.env "http://[::1]:80") Scenario.plain Scenario.idle
     = Ret (sent, rsp) w'
     /\ UHost (ReqURL sent) = "[::1]:80"
     /\ Host sent = "app.example" /\ ReqHeader sent !! "X-Host" = None)
  /\ (exists sent rsp w',
        RoundTrip (Loopback6.env "http://[::1]") Scenario.plain Scenario.idle
        = Ret (sent, rsp) w'
        /\ UHost (ReqURL sent) = "[::1]"
        /\ Host sent = "[::1]" /\ ReqHeader sent !! "X-Host" = Some ["app.example"]).
Proof.
  split; eexists _, _, _; (split; [vm_compute; reflexivity|]);
    repeat split; vm_compute; reflexivity.
Qed.

(** ** The WebSocket path *)

Ltac no_write_in Hin Hevs0 :=
  apply in_app_or in Hin as [Hin|Hin];
  [ apply (backends_only_In _ _ Hevs0) in Hin; discriminate
  | cbn in Hin; repeat (destruct Hin as [Hin|Hin]; try discriminate); try contradiction ].

(** C10: on the WebSocket path the request written upstream has [Host]
    set to the host component of the backend URL, whether or not that is
    a literal IP address ([ParseIP] is never consulted), and its [X-Host]
    header is what the client sent, if anything: the path never sets it. *)
Theorem serveWebsocket_host (E : Env) (req : Request) (w : World) (sent : Request) :
  In (EvRequestWrite sent) (new_events w (serveWebsocket E req w)) ->
  exists req1 rd w1 u,
    getRequestData E req false w = Ret (req1, rd, None) w1
    /\ url_Parse E (backend rd) = inl u
    /\ Host sent = UHost u
    /\ ReqHeader sent !! "X-Host" = ReqHeader req !! "X-Host".
Proof.
  destruct (getRequestData_effects E req false w) as [(evs0 & Htr & Hevs0) Hret].
  unfold serveWebsocket, bind at 1.
  destruct (getRequestData E req false w) as [[[req1 rd] oerr] w1|p w1|w1] eqn:Hget;
    cbn [world_of] in Htr.
  2,3: erewrite new_events_app by (cbn [world_of]; exact Htr); intros Hin;
       apply (backends_only_In _ _ Hevs0) in Hin; discriminate.
  destruct (Hret _ _ _ _ eq_refl) as (Hreq1 & _ & _).
  destruct oerr as [err|].
  { erewrite new_events_app by (cbn [world_of]; exact Htr); intros Hin;
      apply (backends_only_In _ _ Hevs0) in Hin; discriminate. }
  destruct (url_Parse E (backend rd)) as [u|err] eqn:Hu.
  2: { erewrite new_events_app by (cbn [world_of]; exact Htr); intros Hin;
       apply (backends_only_In _ _ Hevs0) in Hin; discriminate. }
  destruct w1 as [rt1 t1 tr1]. cbn [trace] in Htr. run_go.
  destruct (Dial E (UHost u)).
  { rewrite (new_events_app _ _ (evs0 ++ [EvDial (UHost u)]))
      by (cbn; rewrite Htr, <- app_assoc; reflexivity).
    intros Hin. no_write_in Hin Hevs0. }
  destruct (isHijacker E); cbn [negb].
  2: { rewrite (new_events_app _ _ (evs0 ++ [EvDial (UHost u)]))
         by (cbn; rewrite Htr, <- app_assoc; reflexivity).
       intros Hin. no_write_in Hin Hevs0. }
  run_go. destruct (Hijack E).
  { rewrite (new_events_app _ _ (evs0 ++ [EvDial (UHost u); EvHijack]))
      by (cbn; rewrite Htr, <- !app_assoc; reflexivity).
    intros Hin. no_write_in Hin Hevs0. }
  run_go.
  match goal with
  | |- context [Request_Write E ?r] => set (out := r)
  end.
  assert (Hout : Host out = UHost u
                 /\ ReqHeader out !! "X-Host" = ReqHeader req !! "X-Host").
  { subst out req1. cbn [Host ReqHeader set_Host set_ReqHeader RemoteAddr].
    destruct (SplitHostPort E (RemoteAddr req)) as [[clientIP port]|];
      cbn [Host ReqHeader set_Host set_ReqHeader]; (split; [reflexivity|]);
      unfold Header_Set, Header_Del;
      rewrite ?lookup_insert_ne by discriminate;
      apply lookup_delete_ne; discriminate. }
  destruct (Request_Write E out).
  - rewrite (new_events_app _ _ (evs0 ++ [EvDial (UHost u); EvHijack; EvRequestWrite out]))
      by (cbn; rewrite Htr, <- !app_assoc; reflexivity).
    intros Hin. no_write_in Hin Hevs0.
    injection Hin as <-. exists req1, rd, (mkWorld rt1 t1 tr1), u.
    destruct Hout. auto.
  - run_go.
    rewrite (new_events_app _ _
               (evs0 ++ [EvDial (UHost u); EvHijack; EvRequestWrite out; EvSplice]))
      by (cbn; rewrite Htr, <- !app_assoc; reflexivity).
    intros Hin. no_write_in Hin Hevs0.
    injection Hin as <-. exists req1, rd, (mkWorld rt1 t1 tr1), u.
    destruct Hout. auto.
Qed.

Lemma serveWebsocket_host_witness :
  In (EvRequestWrite Scenario.written)
    (new_events Scenario.idle
       (serveWebsocket Scenario.byAddress Scenario.upgrading Scenario.idle))
  /\ Host Scenario.written = "10.0.0.1:80"
  /\ ParseIP Scenario.byAddress "10.0.0.1" = true
  /\ ReqHeader Scenario.written !! "X-Host" = None.
Proof.
  assert (Hin : In (EvRequestWrite Scenario.written)
                  (new_events Scenario.idle
                     (serveWebsocket Scenario.byAddress Scenario.upgrading
                        Scenario.idle))).
  { vm_compute. do 3 right. left. reflexivity. }
  destruct (serveWebsocket_host Scenario.byAddress Scenario.upgrading Scenario.idle
              Scenario.written Hin) as (req1 & rd & w1 & u & _ & _ & _ & Hx).
  split; [exact Hin|]. split; [reflexivity|]. split; [reflexivity|].
  rewrite Hx. reflexivity.
Defined.

(** ** Round robin over requests in a row *)

Lemma same_settings_refl r : same_settings r r.
Proof. repeat split. Qed.

(** [getBackends] always returns; it changes the cache and nothing else of
    the router. *)
Lemma getBackends_router (E : Env) (h : string) (w : World) :
  exists r w' c',
    getBackends E h w = Ret r w' /\ router w' = set_cache c' (router w).
Proof.
  unfold getBackends, cache_Get, cache_Add, Expired.
  destruct w as [rt t tr]. run_go.
  destruct (lru_Get h (cache rt)) as [[s|] c']; run_go.
  - destruct (expires s <? clock E t); run_go.
    + destruct (Backends E h) as [[[i bs] d]|err]; run_go;
        eexists _, _, _; split; reflexivity.
    + eexists _, _, _. split; reflexivity.
  - destruct (Backends E h) as [[[i bs] d]|err]; run_go;
      eexists _, _, _; split; reflexivity.
Qed.

(** With the routes backend answering and the cache agreeing with it,
    [getBackends] hands out the backend's snapshot, from the cache or
    fresh, and the cache still agrees. *)
Lemma getBackends_snapshot (E : Env) (h : string) (w : World) i0 bs d :
  Backends E h = inl (i0, bs, d) ->
  cache_agrees E h (cache (router w)) ->
  exists set w2,
    getBackends E h w = Ret (inl set) w2
    /\ id set = i0 /\ backends set = bs /\ dead set = d
    /\ roundRobin (router w2) = roundRobin (router w)
    /\ cache_agrees E h (cache (router w2)).
Proof.
  intros Hb Hagree. unfold cache_agrees, getBackends, cache_Get, cache_Add, Expired in *.
  destruct w as [rt t tr]. run_go. cbn [router] in Hagree.
  pose proof (lru_Get_fst h (cache rt)) as Hfst.
  pose proof (fun k => lru_Get_peek h k (cache rt)) as Hsnd.
  destruct (lru_Get h (cache rt)) as [v c']. simpl in Hfst, Hsnd. subst v.
  run_go. rewrite Hb.
  assert (Hfresh : forall n,
            lru_peek h (lru_Add h (mkBackendSet i0 bs d n) c')
            = Some (mkBackendSet i0 bs d n)) by (intros; apply lru_Add_peek).
  destruct (lru_peek h (cache rt)) as [s|] eqn:Hpeek; run_go.
  - destruct (expires s <? clock E t); run_go.
    + eexists _, _. split; [reflexivity|]. cbn [router cache set_cache roundRobin id backends dead].
      repeat split. intros s'. rewrite Hfresh. intros [= <-]. reflexivity.
    + eexists _, _. split; [reflexivity|]. cbn [router cache set_cache roundRobin id backends dead].
      pose proof (Hagree s eq_refl) as Hs. rewrite Hb in Hs. injection Hs as -> -> ->.
      repeat split. intros s'. rewrite Hsnd, Hpeek. intros [= <-]. reflexivity.
  - eexists _, _. split; [reflexivity|]. cbn [router cache set_cache roundRobin id backends dead].
    repeat split. intros s'. rewrite Hfresh. intros [= <-]. reflexivity.
Qed.

Lemma reference_select_ext s s' counter :
  backends s = backends s' -> dead s = dead s' ->
  reference_select s counter = reference_select s' counter.
Proof. unfold reference_select. intros -> ->. reflexivity. Qed.

(** One request, with the counter of its host not yet wrapped. *)
Lemma getRequestData_step (E : Env) (req : Request) (save : bool) (w : World)
    i0 bs d :
  let h := hostOnly E (Host req) in
  let n := Z.of_nat (length bs) in
  let c := default 0 (roundRobin (router w) !! h) in
  Backends E h = inl (i0, bs, d) ->
  cache_agrees E h (cache (router w)) ->
  1 <= n <= Int32.max_int -> 0 <= c < Int32.max_int ->
  exists req' rd w',
    getRequestData E req save w
    = Ret (req', rd,
           match reference_select (mkBackendSet "" bs d 0) (c + 1) with
           | Some _ => None
           | None => Some (PlainError "all backends are dead")
           end) w'
    /\ (forall i, reference_select (mkBackendSet "" bs d 0) (c + 1) = Some i ->
        backendIdx rd = i /\ bs !! Z.to_nat i = Some (backend rd))
    /\ roundRobin (router w') !! h = Some (c + 1)
    /\ cache_agrees E h (cache (router w')).
Proof.
  intros h n c Hb Hagree Hn Hc.
  destruct (getBackends_snapshot E h (after_start w) i0 bs d Hb Hagree)
    as (set & w2 & Hget & _ & Hbs & Hd & Hrr & Hagree2).
  unfold getRequestData. run_go. fold (after_start w). fold h. rewrite Hget.
  unfold nextCounter. run_go. rewrite nextCounter_value, Hrr.
  cbn [router after_start]. fold c.
  assert (Hadd : Int32.add c 1 = c + 1).
  { unfold Int32.add. apply Int32Facts.wrap_small.
    unfold Int32.in_range, Int32.min_int, Int32.max_int in *. lia. }
  rewrite Hadd.
  assert (Hn' : 1 <= Z.of_nat (length (backends set)) <= Int32.max_int)
    by (rewrite Hbs; exact Hn).
  destruct (selectIndex_reference set (c + 1) Hn' ltac:(lia))
    as (probes & toUse & Hsel & Hto & _).
  rewrite (reference_select_ext set (mkBackendSet "" bs d 0)) in Hto by assumption.
  rewrite Hsel. cbn [lift]. run_go.
  destruct (reference_select (mkBackendSet "" bs d 0) (c + 1)) as [i|] eqn:Href;
    cbn in Hto; subst toUse.
  - assert (Hi : 0 <= i < n).
    { unfold reference_select in Href. cbn [backends dead] in Href. fold n in Href.
      destruct (n =? 0); [discriminate|].
      eapply find_ring_range; [|exact Href]. lia. }
    destruct (i =? -1) eqn:Hm1; [apply Z.eqb_eq in Hm1; lia|].
    unfold index. destruct (i <? 0) eqn:Hneg; [apply Z.ltb_lt in Hneg; lia|].
    rewrite Hbs.
    destruct (bs !! Z.to_nat i) as [b|] eqn:Hlook.
    + cbn [lift]. run_go. eexists _, _, _. split; [reflexivity|].
      cbn. split; [intros i' [= <-]; auto|].
      split; [apply lookup_insert_eq|exact Hagree2].
    + apply lookup_ge_None in Hlook. lia.
  - cbn. eexists _, _, _. split; [reflexivity|].
    cbn. split; [intros i' [=]|].
    split; [apply lookup_insert_eq|exact Hagree2].
Qed.

Lemma reference_select_valid bs d counter i :
  reference_select (mkBackendSet "" bs d 0) counter = Some i ->
  0 <= i < Z.of_nat (length bs) /\ i ∉ d.
Proof.
  unfold reference_select. cbn [backends dead].
  destruct (Z.of_nat (length bs) =? 0) eqn:Hz; [discriminate|].
  apply Z.eqb_neq in Hz. intros Hf. split.
  - eapply find_ring_range; [|exact Hf]. lia.
  - apply find_some in Hf as [_ Hlive]. apply bool_decide_eq_true in Hlive. exact Hlive.
Qed.

(** Requests in a row, while the counter does not wrap and some backend
    is live: each is given the reference algorithm's choice for the next
    counter value. *)
Lemma resolve_many_steps (E : Env) (req : Request) i0 bs d :
  let h := hostOnly E (Host req) in
  let n := Z.of_nat (length bs) in
  Backends E h = inl (i0, bs, d) ->
  1 <= n <= Int32.max_int ->
  (exists i, 0 <= i < n /\ i ∉ d) ->
  forall (k : nat) (w : World) (c : Z),
    default 0 (roundRobin (router w) !! h) = c ->
    cache_agrees E h (cache (router w)) ->
    0 <= c -> c + Z.of_nat k <= Int32.max_int ->
    resolve_many E k req w
    = map (fun j => chosen bs d (c + Z.of_nat j + 1)) (seq 0 k).
Proof.
  intros h n Hb Hn (i & Hi & Hlive).
  induction k as [|k IH]; intros w c Hcw Hagree Hc Hk; [reflexivity|].
  pose proof (getRequestData_step E req true w i0 bs d Hb Hagree Hn) as Hstep.
  cbv zeta in Hstep. fold h in Hstep. rewrite Hcw in Hstep.
  destruct (Hstep ltac:(lia)) as (req' & rd & w' & Hrun & Hidx & Hrr & Hagree').
  destruct (reference_select_live (mkBackendSet "" bs d 0) (c + 1) i Hi Hlive)
    as (j & Hj).
  cbn [resolve_many]. rewrite Hrun, Hj. destruct (Hidx j Hj) as [-> _].
  change (seq 0 (S k)) with (0%nat :: seq 1 k). cbn [map].
  f_equal.
  - unfold chosen. replace (c + Z.of_nat 0 + 1) with (c + 1) by lia.
    rewrite Hj. reflexivity.
  - rewrite (IH w' (c + 1)) by (try assumption; try (rewrite Hrr; reflexivity); lia).
    rewrite <- seq_shift, map_map. apply map_ext. intros a.
    f_equal. lia.
Qed.

Lemma find_map_seq_first {A} (p : A -> bool) (f : nat -> A) (len a : nat) x :
  find p (map f (seq a len)) = Some x ->
  exists m, (a <= m < a + len)%nat /\ x = f m
            /\ forall m', (a <= m' < m)%nat -> p (f m') = false.
Proof.
  revert a. induction len as [|len IH]; intros a; cbn; [discriminate|].
  destruct (p (f a)) eqn:Hp.
  - intros [= <-]. exists a. repeat split; try lia.
  - intros Hf. destruct (IH (S a) Hf) as (m & Hm & Hx & Hbefore).
    exists m. repeat split; try lia; [exact Hx|].
    intros m' Hm'. destruct (Nat.eq_dec m' a) as [->|Hne]; [exact Hp|].
    apply Hbefore. lia.
Qed.

(** What the reference algorithm chooses is the first live index met from
    [(counter - 1) mod N] on. *)
Lemma reference_select_first bs d counter i :
  reference_select (mkBackendSet "" bs d 0) counter = Some i ->
  let n := Z.of_nat (length bs) in
  exists m, 0 <= m < n /\ i = (counter - 1 + m) mod n
            /\ forall m', 0 <= m' < m -> (counter - 1 + m') mod n ∈ d.
Proof.
  unfold reference_select, ring. cbn [backends dead]. intros Hf.
  set (n := Z.of_nat (length bs)) in *.
  destruct (n =? 0) eqn:Hz; [discriminate|]. apply Z.eqb_neq in Hz.
  apply find_map_seq_first in Hf as (m & Hm & Hi & Hbefore).
  exists (Z.of_nat m). split; [lia|]. split.
  - rewrite Hi. apply Z.add_mod_idemp_l. exact Hz.
  - intros m' Hm'. specialize (Hbefore (Z.to_nat m') ltac:(lia)).
    apply bool_decide_eq_false in Hbefore.
    rewrite Z2Nat.id, Z.add_mod_idemp_l in Hbefore by lia.
    destruct (decide ((counter - 1 + m') mod n ∈ d)) as [Hin|Hout];
      [exact Hin|contradiction].
Qed.

Lemma reference_select_no_dead bs counter :
  Z.of_nat (length bs) <> 0 ->
  reference_select (mkBackendSet "" bs ∅ 0) counter
  = Some ((counter - 1) mod Z.of_nat (length bs)).
Proof.
  intros Hn. unfold reference_select, ring. cbn [backends dead].
  destruct (Z.of_nat (length bs) =? 0) eqn:Hz; [apply Z.eqb_eq in Hz; contradiction|].
  destruct (Z.to_nat (Z.of_nat (length bs))) as [|m] eqn:Hm; [lia|].
  cbn. rewrite Z.add_0_r, Z.mod_mod by exact Hn. reflexivity.
Qed.

(** X2: Round robin with dead-skip.  While the counter of a host does not
    wrap, the routes backend keeps giving the same snapshot and one of its
    indices is live, [k] requests in a row are all given a backend, and
    the one numbered [j] gets the first live index met from
    [(c + j) mod N] on, where [c] is the counter before the first. *)
Theorem resolve_many_skips_dead (E : Env) (req : Request) (w : World)
    (i0 : string) (bs : list string) (d : gset Z) (k : nat) :
  let h := hostOnly E (Host req) in
  let n := Z.of_nat (length bs) in
  let c := default 0 (roundRobin (router w) !! h) in
  Backends E h = inl (i0, bs, d) ->
  cache_agrees E h (cache (router w)) ->
  1 <= n <= Int32.max_int ->
  0 <= c -> c + Z.of_nat k <= Int32.max_int ->
  (exists i, 0 <= i < n /\ i ∉ d) ->
  length (resolve_many E k req w) = k
  /\ forall (j : nat) (i : Z),
       resolve_many E k req w !! j = Some i ->
       0 <= i < n /\ (i ∉ d)
       /\ exists m, 0 <= m < n /\ i = (c + Z.of_nat j + m) mod n
                    /\ forall m', 0 <= m' < m -> (c + Z.of_nat j + m') mod n ∈ d.
Proof.
  intros h n c Hb Hagree Hn Hc Hk Hlive.
  rewrite (resolve_many_steps E req i0 bs d Hb Hn Hlive k w c eq_refl Hagree Hc Hk).
  split; [rewrite length_map, length_seq; reflexivity|].
  intros j i Hj. rewrite list_lookup_fmap in Hj.
  destruct (seq 0 k !! j) as [j'|] eqn:Hseq; [|discriminate].
  apply lookup_seq in Hseq as [-> _]. cbn in Hj. injection Hj as <-.
  destruct Hlive as (i & Hi & Hilive).
  destruct (reference_select_live (mkBackendSet "" bs d 0)
              (c + Z.of_nat j + 1) i Hi Hilive) as (x & Hx).
  unfold chosen. rewrite Hx. cbn [default].
  destruct (reference_select_valid _ _ _ _ Hx) as [Hrange Hxlive].
  split; [exact Hrange|]. split; [exact Hxlive|].
  destruct (reference_select_first _ _ _ _ Hx) as (m & Hm & Hxm & Hbefore).
  fold n in Hm, Hxm, Hbefore.
  exists m. split; [exact Hm|]. split.
  - rewrite Hxm. replace (c + Z.of_nat j + 1 - 1 + m) with (c + Z.of_nat j + m) by lia.
    reflexivity.
  - intros m' Hm'. replace (c + Z.of_nat j + m') with (c + Z.of_nat j + 1 - 1 + m') by lia.
    apply Hbefore. exact Hm'.
Qed.

(** X1: Fairness.  With no dead backend, [k] requests in a row from counter
    value [c] choose the indices [c mod N], [(c + 1) mod N], ... in turn. *)
Theorem resolve_many_fair (E : Env) (req : Request) (w : World)
    (i0 : string) (bs : list string) (k : nat) :
  let h := hostOnly E (Host req) in
  let n := Z.of_nat (length bs) in
  let c := default 0 (roundRobin (router w) !! h) in
  Backends E h = inl (i0, bs, ∅) ->
  cache_agrees E h (cache (router w)) ->
  1 <= n <= Int32.max_int ->
  0 <= c -> c + Z.of_nat k <= Int32.max_int ->
  resolve_many E k req w = map (fun j => (c + Z.of_nat j) mod n) (seq 0 k).
Proof.
  intros h n c Hb Hagree Hn Hc Hk.
  assert (Hlive : exists i, 0 <= i < n /\ i ∉ (∅ : gset Z))
    by (exists 0; split; [lia|set_solver]).
  rewrite (resolve_many_steps E req i0 bs ∅ Hb Hn Hlive k w c eq_refl Hagree Hc Hk).
  apply map_ext. intros j. unfold chosen.
  rewrite reference_select_no_dead by (fold n; lia).
  cbn [default]. fold n.
  replace (c + Z.of_nat j + 1 - 1) with (c + Z.of_nat j) by lia. reflexivity.
Qed.

Lemma empty_cache_agrees (E : Env) (h : string) : cache_agrees E h [].
Proof. intros s. cbn. discriminate. Qed.

Lemma resolve_many_skips_dead_witness :
  length (resolve_many (Scenario.env (inl ("s2", Scenario.three, {[1]}))
                          (inl Scenario.ok200) false)
            5 Scenario.plain (Scenario.start (Scenario.routerAt 7 0 false))) = 5%nat
  /\ resolve_many (Scenario.env (inl ("s2", Scenario.three, {[1]}))
                     (inl Scenario.ok200) false)
       5 Scenario.plain (Scenario.start (Scenario.routerAt 7 0 false)) !! 0%nat
     = Some 2.
Proof.
  assert (Hlive : exists i, 0 <= i < Z.of_nat (length Scenario.three)
                            /\ i ∉ ({[1]} : gset Z))
    by (exists 0; split; [cbn; lia|set_solver]).
  pose proof (resolve_many_skips_dead
                (Scenario.env (inl ("s2", Scenario.three, {[1]}))
                   (inl Scenario.ok200) false)
                Scenario.plain (Scenario.start (Scenario.routerAt 7 0 false))
                "s2" Scenario.three {[1]} 5
                eq_refl (empty_cache_agrees _ _)
                ltac:(cbn; unfold Int32.max_int; lia)
                ltac:(vm_compute; discriminate)
                ltac:(vm_compute; discriminate) Hlive) as [Hlen _].
  split; [exact Hlen|]. vm_compute. reflexivity.
Defined.

Lemma resolve_many_fair_witness :
  resolve_many (Scenario.env (inl ("s1", Scenario.three, ∅)) (inl Scenario.ok200) false)
    4 Scenario.plain (Scenario.start (Scenario.routerAt 0 0 false))
  = [0; 1; 2; 0].
Proof.
  rewrite (resolve_many_fair
             (Scenario.env (inl ("s1", Scenario.three, ∅)) (inl Scenario.ok200) false)
             Scenario.plain (Scenario.start (Scenario.routerAt 0 0 false))
             "s1" Scenario.three 4
             eq_refl (empty_cache_agrees _ _)
             ltac:(cbn; unfold Int32.max_int; lia)
             ltac:(vm_compute; discriminate)
             ltac:(vm_compute; discriminate)).
  vm_compute. reflexivity.
Defined.

(** ** Termination, counters and snapshots without a live backend *)

(** X3: Selection terminates.  For a backend count that fits [int32] and a
    dead set that holds no negative key, lines 213-225 come to an end for
    every [int32] counter value: with a result, or with the division by
    zero of an empty snapshot. *)
Theorem selectIndex_terminates (set : backendSet) (counter : Z) :
  Z.of_nat (length (backends set)) <= Int32.max_int ->
  (forall i, i ∈ dead set -> 0 <= i) ->
  selectIndex set counter <> Forever.
Proof.
  intros Hn Hdead. unfold selectIndex, int32_rem.
  set (n := Z.of_nat (length (backends set))) in *.
  rewrite (Int32Facts.wrap_small n)
    by (unfold Int32.in_range, Int32.min_int, Int32.max_int in *; lia).
  destruct (n =? 0) eqn:Hz; [discriminate|]. apply Z.eqb_neq in Hz.
  set (k0 := Z.rem (Int32.sub counter 1) n).
  assert (Hk : - n < k0 < n).
  { pose proof (Z.rem_bound_abs (Int32.sub counter 1) n Hz) as Hb.
    fold k0 in Hb. lia. }
  destruct (Z_lt_dec k0 0) as [Hneg|Hpos].
  - destruct (scan_fuel n) as [|fuel] eqn:Hfuel; [unfold scan_fuel in Hfuel; lia|].
    cbn [scan]. destruct (decide (k0 ∈ dead set)) as [Hin|_]; [|discriminate].
    apply Hdead in Hin. lia.
  - destruct (Z.to_nat n) as [|m] eqn:Hm; [lia|].
    pose proof (scan_walk (dead set) n k0 ltac:(lia) ltac:(lia) m 0%nat (scan_fuel n)
                  ltac:(lia) ltac:(unfold scan_fuel; lia)) as Hs.
    rewrite Z.add_0_r, Z.mod_small in Hs by lia.
    rewrite Hs. discriminate.
Qed.

Lemma selectIndex_terminates_witness :
  selectIndex (mkBackendSet "s2" Scenario.three {[0; 1; 2]} 0) (-5) <> Forever.
Proof.
  apply selectIndex_terminates.
  - cbn. unfold Int32.max_int. lia.
  - intros i Hi. cbn [dead] in Hi. set_unfold. lia.
Defined.

(** X5: The counter table.  Whatever the outcome of a resolution, the
    counters of other hosts and the settings of the router are left as
    they were; the counter of the request's host is created if need be
    and incremented once (wrapping in [int32]) exactly when a snapshot
    was obtained, also when the selection that follows finds every
    backend dead or panics. *)
Theorem getRequestData_counters (E : Env) (req : Request) (save : bool) (w : World) :
  let h := hostOnly E (Host req) in
  let rr := roundRobin (router w) in
  let rr' := roundRobin (router (world_of (getRequestData E req save w))) in
  (forall h', h' <> h -> rr' !! h' = rr !! h')
  /\ match getBackends E h (after_start w) with
     | Ret (inl _) _ => rr' !! h = Some (Int32.add (default 0 (rr !! h)) 1)
     | _ => rr' !! h = rr !! h
     end
  /\ same_settings (router w) (router (world_of (getRequestData E req save w))).
Proof.
  cbv zeta. unfold getRequestData. run_go. fold (after_start w).
  destruct (getBackends_router E (hostOnly E (Host req)) (after_start w))
    as (r & w2 & c' & Hget & Hrt).
  rewrite Hget. cbn [router after_start] in Hrt.
  destruct r as [set|err].
  - unfold nextCounter. run_go. rewrite Hrt. cbn [roundRobin set_cache].
    assert (Hother : forall h' v,
              h' <> hostOnly E (Host req) ->
              <[hostOnly E (Host req) := v]>
                (match roundRobin (router w) !! hostOnly E (Host req) with
                 | Some _ => roundRobin (router w)
                 | None => <[hostOnly E (Host req) := 0]> (roundRobin (router w))
                 end) !! h' = roundRobin (router w) !! h').
    { intros h' v Hne. rewrite lookup_insert_ne by congruence.
      destruct (roundRobin (router w) !! hostOnly E (Host req)); [reflexivity|].
      apply lookup_insert_ne. congruence. }
    rewrite nextCounter_value.
    destruct (selectIndex set _) as [[probes toUse]|p|]; cbn [lift]; run_go.
    + destruct (toUse =? -1); run_go.
      * cbn. split; [intros; apply Hother; assumption|].
        split; [apply lookup_insert_eq|repeat split].
      * destruct (index (backends set) toUse) as [b|p|]; cbn [lift]; run_go; cbn;
          (split; [intros; apply Hother; assumption|]);
          (split; [apply lookup_insert_eq|repeat split]).
    + cbn. split; [intros; apply Hother; assumption|].
      split; [apply lookup_insert_eq|repeat split].
    + cbn. split; [intros; apply Hother; assumption|].
      split; [apply lookup_insert_eq|repeat split].
  - run_go. cbn. rewrite Hrt. cbn. repeat split.
Qed.

Lemma reference_select_None set counter :
  Z.of_nat (length (backends set)) <> 0 ->
  (reference_select set counter = None
   <-> forall i, 0 <= i < Z.of_nat (length (backends set)) -> i ∈ dead set).
Proof.
  intros Hn. split.
  - intros Hnone i Hi.
    destruct (decide (i ∈ dead set)) as [Hin|Hout]; [exact Hin|].
    destruct (reference_select_live set counter i Hi Hout) as (j & Hj). congruence.
  - intros Hall. destruct (reference_select set counter) as [i|] eqn:Href; [|reflexivity].
    exfalso. unfold reference_select in Href.
    destruct (Z.of_nat (length (backends set)) =? 0); [discriminate|].
    assert (Hpos : 0 < Z.of_nat (length (backends set))) by lia.
    pose proof (find_ring_range _ _ _ _ Hpos Href) as Hi.
    apply find_some in Href as [_ Hlive]. apply bool_decide_eq_true in Hlive.
    exact (Hlive (Hall i Hi)).
Qed.

(** X6: All backends dead.  While the counter of the host has not wrapped,
    resolution over a snapshot of 1 <= N < 2^31 backends returns, and it
    returns the error "all backends are dead" exactly when every index of
    the snapshot is in its dead set; the counter is incremented either
    way. *)
Theorem getRequestData_all_dead (E : Env) (req : Request) (save : bool)
    (w : World) (set : backendSet) (w2 : World) :
  let h := hostOnly E (Host req) in
  let n := Z.of_nat (length (backends set)) in
  let c := default 0 (roundRobin (router w2) !! h) in
  getBackends E h (after_start w) = Ret (inl set) w2 ->
  1 <= n <= Int32.max_int -> 0 <= c < Int32.max_int ->
  exists req' rd oerr w',
    getRequestData E req save w = Ret (req', rd, oerr) w'
    /\ (oerr = Some (PlainError "all backends are dead")
        <-> forall i, 0 <= i < n -> i ∈ dead set)
    /\ (oerr = None <-> exists i, 0 <= i < n /\ i ∉ dead set)
    /\ roundRobin (router w') !! h = Some (c + 1).
Proof.
  intros h n c Hget Hn Hc.
  destruct (getRequestData_reference E req save w set w2 Hget Hn Hc)
    as (req' & rd & w' & Hrun & Hrr & _).
  fold h c in Hrun, Hrr.
  pose proof (reference_select_None set (c + 1) ltac:(fold n; lia)) as Hnone.
  fold n in Hnone.
  eexists req', rd, _, w'. split; [exact Hrun|]. split; [|split; [|exact Hrr]].
  - destruct (reference_select set (c + 1)) as [i|] eqn:Href.
    + split; [discriminate|]. intros Hall. apply Hnone in Hall. discriminate.
    + split; [intros _; apply Hnone; reflexivity|reflexivity].
  - destruct (reference_select set (c + 1)) as [i|] eqn:Href.
    + split; [|reflexivity]. intros _. clear Hnone. exists i.
      unfold reference_select in Href. fold n in Href.
      destruct (n =? 0); [discriminate|].
      assert (Hpos : 0 < n) by lia.
      pose proof (find_ring_range _ _ _ _ Hpos Href) as Hi.
      apply find_some in Href as [_ Hlive]. apply bool_decide_eq_true in Hlive.
      split; assumption.
    + split; [discriminate|]. intros (i & Hi & Hlive).
      exfalso. apply Hlive. apply Hnone; [reflexivity|exact Hi].
Qed.

Lemma getRequestData_all_dead_witness :
  exists req' rd w',
    getRequestData
      (Scenario.env (inl ("s2", Scenario.three, {[0; 1; 2]})) (inl Scenario.ok200) false)
      Scenario.plain true (Scenario.start (Scenario.routerAt 4 0 false))
    = Ret (req', rd, Some (PlainError "all backends are dead")) w'
    /\ roundRobin (router w') !! "app.example" = Some 5.
Proof.
  assert (Hget :
    getBackends
      (Scenario.env (inl ("s2", Scenario.three, {[0; 1; 2]})) (inl Scenario.ok200) false)
      (hostOnly
         (Scenario.env (inl ("s2", Scenario.three, {[0; 1; 2]}))
            (inl Scenario.ok200) false) (Host Scenario.plain))
      (after_start (Scenario.start (Scenario.routerAt 4 0 false)))
    = Ret (inl (mkBackendSet "s2" Scenario.three {[0; 1; 2]} (3 * Second)))
        (mkWorld
           (mkRouter 0 30 "" true {["app.example" := 4]}
              [("app.example",
                mkBackendSet "s2" Scenario.three {[0; 1; 2]} (3 * Second))]
              false)
           2 [EvBackends "app.example"])) by (vm_compute; reflexivity).
  destruct (getRequestData_all_dead _ Scenario.plain true _ _ _ Hget
              ltac:(cbn; unfold Int32.max_int; lia)
              ltac:(vm_compute; split; [discriminate|reflexivity]))
    as (req' & rd & oerr & w' & Hrun & Hdead & _ & Hrr).
  exists req', rd, w'. split; [|exact Hrr].
  rewrite Hrun. f_equal. f_equal. apply Hdead.
  intros i Hi. cbn [dead]. cbn in Hi. set_unfold. lia.
Defined.

Lemma selectIndex_wrapped_witness :
  exists k,
    selectIndex (mkBackendSet "s1" Scenario.three ∅ 0) (-7) = Done ([k], k)
    /\ k < 0.
Proof.
  destruct (selectIndex_wrapped (mkBackendSet "s1" Scenario.three ∅ 0) (-7)
              ltac:(cbn; unfold Int32.max_int; lia)
              ltac:(unfold Int32.min_int; lia)
              ltac:(cbn; intros i Hi; set_solver)
              ltac:(vm_compute; discriminate)) as (k & Hk & Hrange).
  exists k. split; [exact Hk|lia].
Defined.

Lemma getBackends_keeps_stamps_witness :
  exists r w',
    getBackends (Scenario.env (inl ("s1", Scenario.three, ∅)) (inl Scenario.ok200) false)
      "app.example" Scenario.idle = Ret r w'
    /\ stamped_by_clock
         (Scenario.env (inl ("s1", Scenario.three, ∅)) (inl Scenario.ok200) false) w'
    /\ lru_peek "app.example" (cache (router w'))
       = Some (mkBackendSet "s1" Scenario.three ∅ (2 * Second)).
Proof.
  assert (Hrun :
    getBackends (Scenario.env (inl ("s1", Scenario.three, ∅)) (inl Scenario.ok200) false)
      "app.example" Scenario.idle
    = Ret (inl (mkBackendSet "s1" Scenario.three ∅ (2 * Second)))
        (mkWorld
           (mkRouter 0 30 "" true {["app.example" := 0]}
              [("app.example", mkBackendSet "s1" Scenario.three ∅ (2 * Second))]
              false)
           1 [EvBackends "app.example"])) by (vm_compute; reflexivity).
  assert (Hinit : stamped_by_clock
            (Scenario.env (inl ("s1", Scenario.three, ∅)) (inl Scenario.ok200) false)
            Scenario.idle) by (intros h s; cbn; discriminate).
  destruct (getBackends_keeps_stamps _ _ _ _ _ Hinit Hrun) as [Hinv _].
  eexists _, _. split; [exact Hrun|]. split; [exact Hinv|]. reflexivity.
Defined.

(** ** What the forwarder returns and logs *)

Lemma handleTransportError_events (E : Env) (req : Request) (rd : requestData)
    (err : error) (w : World) :
  exists rest : list event,
    handleTransportError E req rd err w
    = Ret tt (mkWorld (router w) (ticks w)
                (trace w ++ EvLogError (requestData_String rd) (Path (ReqURL req))
                              (PlainError (transportErrorText E (router w) req err))
                            :: rest))
    /\ List.filter isAccessLog rest = []
    /\ List.filter isRoundTrip rest = []
    /\ (length (List.filter isLogError rest) <= 1)%nat
    /\ (shouldMark E (router w) req err = false -> rest = []).
Proof.
  unfold handleTransportError, transportErrorText, shouldMark, timedOut, nonTemporary,
    logError, Errorf.
  destruct w as [rt t tr]. run_go.
  destruct ((0 <? RequestTimeout rt) && timerFired E req);
    destruct err as [msg|msg [|]]; cbn [negb andb error_msg];
    try (exists []; repeat split; reflexivity || (cbn; lia)).
  destruct (markingDisabled rt); cbn [negb andb]; run_go;
    [exists []; repeat split; reflexivity || (cbn; lia)|].
  destruct (MarkDead E _ _ _ _ _); run_go; rewrite <- !app_assoc;
    eexists; (split; [reflexivity|]); repeat split; cbn; try lia; discriminate.
Qed.

Lemma RoundTripWithData_respond (E : Env) (req : Request) (rd : requestData)
    (w : World) :
  unresolved req = false ->
  let sent := upstreamRequest E req in
  RoundTripWithData E req rd w
  = match Transport_RoundTrip E sent with
    | inl rsp => respond sent rd rsp (called sent w)
    | inr err =>
        match handleTransportError E sent rd err (called sent w) with
        | Ret _ w2 => respond sent rd (unavailable sent) w2
        | Panics p w2 => Panics p w2
        | Diverges w2 => Diverges w2
        end
    end.
Proof.
  intros Hres sent. unfold RoundTripWithData. unfold unresolved in Hres. rewrite Hres.
  change (if ParseIP E (hostOnly E (UHost (ReqURL req))) then req
          else set_Host (hostOnly E (UHost (ReqURL req)))
                 (set_ReqHeader (Header_Set (ReqHeader req) "X-Host" (Host req)) req))
    with (upstreamRequest E req).
  fold sent. unfold respond, logged, called, unavailable. destruct w as [rt t tr]. run_go.
  destruct (Transport_RoundTrip E sent) as [rsp|err]; run_go.
  - destruct (debug rd); [destruct (RspHeader rsp) as [h|] eqn:Hh|].
    + unfold Response_Header_Set. rewrite Hh. cbn.
      destruct (hasLogger rt); reflexivity.
    + unfold Response_Header_Set. rewrite Hh. reflexivity.
    + cbn. destruct (hasLogger rt); reflexivity.
  - destruct (handleTransportError_events E sent rd err
                (mkWorld rt (S (S t)) (tr ++ [EvRoundTrip sent])))
      as (rest & Hrun & _).
    cbn [router ticks trace] in Hrun. rewrite Hrun. cbn.
    destruct (debug rd); cbn; destruct (hasLogger rt); reflexivity.
Qed.



(** X12: Upstream responses pass through.  Whatever the transport returns as a
    response, an upstream 5xx included, is handed back: untouched without
    the debug flag, and with it changed only in the three [X-Debug-*]
    headers; no error is logged and [MarkDead] is not called. *)
Theorem RoundTripWithData_passes_through (E : Env) (req : Request)
    (rd : requestData) (w : World) (rsp : Response) :
  unresolved req = false ->
  Transport_RoundTrip E (upstreamRequest E req) = inl rsp ->
  let o := RoundTripWithData E req rd w in
  List.filter isMarkDead (new_events w o) = []
  /\ List.filter isLogError (new_events w o) = []
  /\ (debug rd = false -> exists w', o = Ret (upstreamRequest E req, rsp) w')
  /\ (debug rd = true ->
      forall h, RspHeader rsp = Some h ->
      exists out h' w',
        o = Ret (upstreamRequest E req, out) w'
        /\ StatusCode out = StatusCode rsp
        /\ Body out = Body rsp
        /\ ContentLength out = ContentLength rsp
        /\ RspHeader out = Some h'
        /\ forall k, k <> "X-Debug-Backend-Url" -> k <> "X-Debug-Backend-Id" ->
                     k <> "X-Debug-Frontend-Key" -> h' !! k = h !! k).
Proof.
  intros Hres Hup o. subst o.
  rewrite (RoundTripWithData_respond E req rd w Hres). cbv zeta. rewrite Hup.
  unfold respond, logged, called. cbn [router].
  assert (Hev : forall (A : Type) (x : outcome A) (tail : list event),
            trace (world_of x) = (trace w ++ [EvRoundTrip (upstreamRequest E req)]) ++ tail ->
            (forall e, In e tail -> isAccessLog e = true) ->
            List.filter isMarkDead (new_events w x) = []
            /\ List.filter isLogError (new_events w x) = []).
  { intros A x tail Htr Htail.
    rewrite (new_events_app _ _ (EvRoundTrip (upstreamRequest E req) :: tail))
      by (rewrite Htr, <- app_assoc; reflexivity).
    cbn. clear Htr. induction tail as [|e tail IH]; [split; reflexivity|].
    pose proof (Htail e (or_introl eq_refl)) as He.
    destruct e; try discriminate. cbn. apply IH. intros e' He'. apply Htail. now right. }
  destruct (debug rd) eqn:Hdbg.
  - destruct (RspHeader rsp) as [h|] eqn:Hh.
    + destruct (hasLogger (router w)).
      * destruct (Hev _ (Ret (upstreamRequest E req, with_header rsp (debugHeaders rd h))
                           (mkWorld (router w) (S (S (S (S (ticks w)))))
                              ((trace w ++ [EvRoundTrip (upstreamRequest E req)])
                               ++ [EvAccessLog (StatusCode (with_header rsp (debugHeaders rd h)))
                                     (backendKey rd)])))
                    _ eq_refl) as [H1 H2].
        { intros e [<-|[]]. reflexivity. }
        split; [exact H1|]. split; [exact H2|]. split; [discriminate|].
        intros _ h0 [= <-]. eexists _, _, _. split; [reflexivity|].
        cbn. repeat split. intros k K1 K2 K3. unfold debugHeaders, Header_Set.
        rewrite !lookup_insert_ne by congruence. reflexivity.
      * destruct (Hev _ (Ret (upstreamRequest E req, with_header rsp (debugHeaders rd h))
                           (mkWorld (router w) (S (S (ticks w)))
                              (trace w ++ [EvRoundTrip (upstreamRequest E req)])))
                    [] ltac:(cbn; rewrite app_nil_r; reflexivity))
          as [H1 H2].
        { intros e []. }
        split; [exact H1|]. split; [exact H2|]. split; [discriminate|].
        intros _ h0 [= <-]. eexists _, _, _. split; [reflexivity|].
        cbn. repeat split. intros k K1 K2 K3. unfold debugHeaders, Header_Set.
        rewrite !lookup_insert_ne by congruence. reflexivity.
    + destruct (Hev _ (Panics NilMapAssignment
                         (mkWorld (router w) (S (S (ticks w)))
                            (trace w ++ [EvRoundTrip (upstreamRequest E req)]))
                       : outcome (Request * Response))
                  [] ltac:(cbn; rewrite app_nil_r; reflexivity))
        as [H1 H2].
      { intros e []. }
      split; [exact H1|]. split; [exact H2|]. split; [discriminate|].
      intros _ h0 [=].
  - destruct (hasLogger (router w)).
    + destruct (Hev _ (Ret (upstreamRequest E req, rsp)
                         (mkWorld (router w) (S (S (S (S (ticks w)))))
                            ((trace w ++ [EvRoundTrip (upstreamRequest E req)])
                             ++ [EvAccessLog (StatusCode rsp) (backendKey rd)])))
                  _ eq_refl) as [H1 H2].
      { intros e [<-|[]]. reflexivity. }
      split; [exact H1|]. split; [exact H2|].
      split; [intros _; eexists; reflexivity|discriminate].
    + destruct (Hev _ (Ret (upstreamRequest E req, rsp)
                         (mkWorld (router w) (S (S (ticks w)))
                            (trace w ++ [EvRoundTrip (upstreamRequest E req)])))
                  [] ltac:(cbn; rewrite app_nil_r; reflexivity))
        as [H1 H2].
      { intros e []. }
      split; [exact H1|]. split; [exact H2|].
      split; [intros _; eexists; reflexivity|discriminate].
Qed.

(** X13: Transport errors.  When the upstream exchange fails, the forwarder
    returns the 503 response with an empty body, in the protocol version
    of the request, carrying the debug headers if asked for and no other;
    the error is logged right after the call, as a timeout when the
    request timer had fired, and marked with [*DEAD*] when it is a
    non-temporary network error that is no timeout, whether or not
    marking is enabled. *)
Theorem RoundTripWithData_transport_error (E : Env) (req : Request)
    (rd : requestData) (w : World) (err : error) :
  unresolved req = false ->
  Transport_RoundTrip E (upstreamRequest E req) = inr err ->
  let sent := upstreamRequest E req in
  let o := RoundTripWithData E req rd w in
  (exists w',
     o = Ret (sent,
              mkResponse StatusServiceUnavailable (ProtoMajor req) (ProtoMinor req) 0
                (Some (if debug rd then debugHeaders rd ∅ else ∅)) "") w')
  /\ new_events w o !! 0%nat = Some (EvRoundTrip sent)
  /\ new_events w o !! 1%nat
     = Some (EvLogError (requestData_String rd) (Path (ReqURL req))
               (PlainError (transportErrorText E (router w) sent err)))
  /\ (length (List.filter isLogError (new_events w o)) <= 2)%nat.
Proof.
  intros Hres Hup. cbv zeta.
  rewrite (RoundTripWithData_respond E req rd w Hres). cbv zeta. rewrite Hup.
  set (sent := upstreamRequest E req).
  destruct (handleTransportError_events E sent rd err (called sent w))
    as (rest & Hrun & Hacc & _ & Hlog & _).
  rewrite Hrun. cbn [router ticks trace called].
  assert (Hproto : ProtoMajor sent = ProtoMajor req /\ ProtoMinor sent = ProtoMinor req
                   /\ Path (ReqURL sent) = Path (ReqURL req)).
  { subst sent. unfold upstreamRequest. destruct (ParseIP E _); repeat split. }
  destruct Hproto as (Hmaj & Hmin & Hpath).
  unfold respond, unavailable, logged. cbn [debug RspHeader router hasLogger].
  rewrite Hmaj, Hmin, Hpath.
  set (line := EvLogError (requestData_String rd) (Path (ReqURL req))
                 (PlainError (transportErrorText E (router w) sent err))).
  destruct (debug rd); destruct (hasLogger (router w));
    (split; [eexists; reflexivity|]);
    (erewrite new_events_app
       by (cbn [world_of trace]; rewrite <- ?app_assoc; reflexivity));
    cbn [app lookup list_lookup]; (split; [reflexivity|]); (split; [reflexivity|]);
    subst line; cbn [List.filter isLogError]; rewrite ?List.filter_app;
    cbn [List.filter isLogError]; rewrite ?app_nil_r; cbn [length]; lia.
Qed.

Lemma RoundTripWithData_passes_through_witness :
  exists w',
    RoundTripWithData
      (Scenario.env (inl ("s1", Scenario.three, ∅))
         (inl (mkResponse 502 1 1 11 (Some ∅) "bad gateway")) false)
      (set_URL "http" "a:80" Scenario.plain)
      (mkRequestData 3 "http://a:80" 0 "s1" "app.example" false 0) Scenario.idle
    = Ret (set_Host "a"
             (set_ReqHeader {["X-Host" := ["app.example"]]}
                (set_URL "http" "a:80" Scenario.plain)),
           mkResponse 502 1 1 11 (Some ∅) "bad gateway") w'.
Proof.
  destruct (RoundTripWithData_passes_through
              (Scenario.env (inl ("s1", Scenario.three, ∅))
                 (inl (mkResponse 502 1 1 11 (Some ∅) "bad gateway")) false)
              (set_URL "http" "a:80" Scenario.plain)
              (mkRequestData 3 "http://a:80" 0 "s1" "app.example" false 0)
              Scenario.idle
              (mkResponse 502 1 1 11 (Some ∅) "bad gateway")
              eq_refl eq_refl) as (_ & _ & Hplain & _).
  destruct (Hplain eq_refl) as (w' & Hrun).
  exists w'. rewrite Hrun. vm_compute. reflexivity.
Defined.

Lemma RoundTripWithData_transport_error_witness :
  exists sent w',
    RoundTripWithData
      (Scenario.env (inl ("s1", Scenario.three, ∅)) (inr Scenario.refused) false)
      (set_URL "http" "a:80" Scenario.plain)
      (mkRequestData 3 "http://a:80" 0 "s1" "app.example" false 0) Scenario.idle
    = Ret (sent, mkResponse StatusServiceUnavailable 1 1 0 (Some ∅) "") w'.
Proof.
  destruct (RoundTripWithData_transport_error
              (Scenario.env (inl ("s1", Scenario.three, ∅)) (inr Scenario.refused) false)
              (set_URL "http" "a:80" Scenario.plain)
              (mkRequestData 3 "http://a:80" 0 "s1" "app.example" false 0)
              Scenario.idle Scenario.refused eq_refl eq_refl) as ((w' & Hrun) & _).
  eexists _, w'. exact Hrun.
Defined.

Lemma respond_router (sent : Request) (rd : requestData) (rsp : Response) (w : World) :
  router (world_of (respond sent rd rsp w)) = router w.
Proof.
  unfold respond, logged.
  destruct (debug rd); [destruct (RspHeader rsp)|];
    try destruct (hasLogger (router w)); reflexivity.
Qed.

(** X23: The forwarder leaves the router alone.  Whatever happens to the
    upstream exchange, the counters, the cache and the settings of the
    router are after the run what they were before: a backend is marked
    dead in the routes backend only, and a snapshot in the cache goes on
    being served with the dead set it was fetched with. *)
Theorem RoundTripWithData_keeps_router (E : Env) (req : Request) (rd : requestData)
    (w : World) :
  router (world_of (RoundTripWithData E req rd w)) = router w.
Proof.
  destruct (unresolved req) eqn:Hres.
  - rewrite (RoundTripWithData_unresolved E req rd w Hres).
    destruct (debug rd); [reflexivity|].
    destruct (hasLogger (router w)); reflexivity.
  - rewrite (RoundTripWithData_respond E req rd w Hres). cbv zeta.
    destruct (Transport_RoundTrip E (upstreamRequest E req)) as [rsp|err].
    + rewrite respond_router. reflexivity.
    + destruct (handleTransportError_events E (upstreamRequest E req) rd err
                  (called (upstreamRequest E req) w)) as (rest & Hrun & _).
      rewrite Hrun, respond_router. reflexivity.
Qed.

(** ** The request on its way upstream *)

(** Resolution leaves the settings of the router alone. *)
Lemma getRequestData_settings (E : Env) (req : Request) (save : bool) (w : World) :
  same_settings (router w) (router (world_of (getRequestData E req save w))).
Proof.
  unfold getRequestData. run_go. fold (after_start w).
  destruct (getBackends_router E (hostOnly E (Host req)) (after_start w))
    as (r & w2 & c' & Hget & Hrt).
  rewrite Hget. cbn [router after_start] in Hrt.
  destruct r as [set|err].
  - unfold nextCounter. run_go. rewrite Hrt.
    destruct (selectIndex set _) as [[probes toUse]|p|]; cbn [lift]; run_go.
    + destruct (toUse =? -1); run_go; [repeat split|].
      destruct (index (backends set) toUse) as [b|p|]; cbn [lift]; run_go; repeat split.
    + repeat split.
    + repeat split.
  - run_go. cbn. rewrite Hrt. repeat split.
Qed.

(** What [chooseBackend] adds to a resolution: at most one line in the
    error log, the upstream URL, and at most one header. *)
Lemma chooseBackend_cases (E : Env) (req : Request) (w : World) :
  match getRequestData E (set_URL "" "" req) true w with
  | Ret (req1, rd, oerr) w1 =>
      exists req' (logs : list event),
        chooseBackend E req w
        = Ret (req', rd) (mkWorld (router w1) (ticks w1) (trace w1 ++ logs))
        /\ forallb isLogError logs = true
        /\ req1 = resolving req
        /\ Host req' = Host req /\ RemoteAddr req' = RemoteAddr req
        /\ Path (ReqURL req') = Path (ReqURL req)
        /\ ProtoMajor req' = ProtoMajor req /\ ProtoMinor req' = ProtoMinor req
        /\ (ReqHeader req' = ReqHeader (resolving req)
            \/ exists uid,
                 RequestIDHeader (router w) <> ""
                 /\ Header_Get (ReqHeader (resolving req))
                      (CanonicalKey E (RequestIDHeader (router w))) = ""
                 /\ ReqHeader req'
                    = Header_Set (ReqHeader (resolving req))
                        (CanonicalKey E (RequestIDHeader (router w))) uid)
  | Panics p w1 => chooseBackend E req w = Panics p w1
  | Diverges w1 => chooseBackend E req w = Diverges w1
  end.
Proof.
  destruct (getRequestData_effects E (set_URL "" "" req) true w) as [_ Hret].
  pose proof (getRequestData_settings E (set_URL "" "" req) true w) as (_ & _ & Hid & _).
  destruct (getRequestData E (set_URL "" "" req) true w)
    as [[[req1 rd] oerr] w1|p w1|w1] eqn:Hget.
  2,3: unfold chooseBackend, bind; rewrite Hget; reflexivity.
  destruct (Hret _ _ _ _ eq_refl) as (-> & _ & _). clear Hret.
  unfold chooseBackend, bind at 1. rewrite Hget.
  cbn [world_of] in Hid. fold (resolving req).
  unfold logError. destruct oerr as [err|]; run_go.
  - eexists _, [_]. split; [reflexivity|]. repeat split. left. reflexivity.
  - destruct (url_Parse E (backend rd)) as [u|err]; run_go.
    + rewrite Hid.
      destruct (negb (String.eqb (RequestIDHeader (router w)) "")) eqn:Hcfg; cbn [andb].
      * match goal with
        | |- context [String.eqb (Header_Get ?h ?k) ""] =>
            destruct (String.eqb (Header_Get h k) "") eqn:Habsent
        end.
        -- match goal with
           | |- context [uuid_NewV4 E ?r] => destruct (uuid_NewV4 E r) as [uid|err]
           end; run_go.
           ++ eexists _, []. rewrite app_nil_r. split; [destruct w1; reflexivity|].
              split; [reflexivity|]. split; [reflexivity|].
              destruct (String.eqb (UHost _) ""); cbn; repeat split.
              all: right; exists uid; split;
                [intros Heq; rewrite Heq in Hcfg; discriminate|];
                split; [apply String.eqb_eq in Habsent|]; auto.
           ++ eexists _, [_]. split; [reflexivity|]. split; [reflexivity|].
              split; [reflexivity|].
              destruct (String.eqb (UHost _) ""); cbn; repeat split; left; reflexivity.
        -- eexists _, []. rewrite app_nil_r. split; [destruct w1; reflexivity|].
           split; [reflexivity|]. split; [reflexivity|].
           destruct (String.eqb (UHost _) ""); cbn; repeat split; left; reflexivity.
      * eexists _, []. rewrite app_nil_r. split; [destruct w1; reflexivity|].
        split; [reflexivity|]. split; [reflexivity|].
        destruct (String.eqb (UHost _) ""); cbn; repeat split; left; reflexivity.
    + eexists _, [_]. split; [reflexivity|]. repeat split. left. reflexivity.
Qed.

(** X9: Request headers through [chooseBackend].  The request it hands to the
    forwarder has the authority, the peer address and the path the client
    sent.  Of the headers only [X-Debug-Router] and the configured request
    id header can differ: the first is removed, and the second is set, to
    a single generated value, only if a header is configured and the client
    sent none (or an empty one); an id sent by the client is never
    replaced. *)
Theorem chooseBackend_headers (E : Env) (req : Request) (w : World)
    (req' : Request) (rd : requestData) (w' : World) :
  chooseBackend E req w = Ret (req', rd) w' ->
  let key := CanonicalKey E (RequestIDHeader (router w)) in
  Host req' = Host req /\ RemoteAddr req' = RemoteAddr req
  /\ Path (ReqURL req') = Path (ReqURL req)
  /\ (forall k, k <> key -> k <> "X-Debug-Router" ->
      ReqHeader req' !! k = ReqHeader req !! k)
  /\ (key <> "X-Debug-Router" ->
      ReqHeader req' !! "X-Debug-Router" = None
      /\ (ReqHeader req' !! key = ReqHeader req !! key
          \/ (exists uid, ReqHeader req' !! key = Some [uid])
             /\ RequestIDHeader (router w) <> ""
             /\ Header_Get (ReqHeader req) key = "")).
Proof.
  intros Hrun key. pose proof (chooseBackend_cases E req w) as Hcases.
  destruct (getRequestData E (set_URL "" "" req) true w)
    as [[[req1 rd1] oerr] w1|p w1|w1]; [|congruence|congruence].
  destruct Hcases as (req2 & logs & Hrun2 & _ & _ & Hhost & Haddr & Hpath & _ & _ & Hhdr).
  rewrite Hrun2 in Hrun. injection Hrun as <- <- _.
  fold key in Hhdr. unfold resolving in Hhdr.
  cbn [ReqHeader set_ReqHeader set_URL] in Hhdr.
  split; [exact Hhost|]. split; [exact Haddr|]. split; [exact Hpath|].
  unfold Header_Set, Header_Del, Header_Get in *.
  split.
  - intros k Hk Hdbg. destruct Hhdr as [->|(uid & _ & _ & ->)].
    + apply lookup_delete_ne. congruence.
    + rewrite lookup_insert_ne by congruence. apply lookup_delete_ne. congruence.
  - intros Hkey. destruct Hhdr as [->|(uid & Hcfg & Habsent & ->)].
    + split; [apply lookup_delete_eq|]. left. apply lookup_delete_ne. congruence.
    + split; [rewrite lookup_insert_ne by congruence; apply lookup_delete_eq|].
      right. split; [exists uid; apply lookup_insert_eq|]. split; [exact Hcfg|].
      rewrite lookup_delete_ne in Habsent by congruence. exact Habsent.
Qed.

Lemma chooseBackend_headers_witness :
  exists req' rd w',
    chooseBackend
      (Scenario.env (inl ("s1", Scenario.three, ∅)) (inl Scenario.ok200) false)
      (Scenario.request {["X-Request-Id" := ["from-client"]; "X-Debug-Router" := ["1"]]})
      (Scenario.start (mkRouter 0 30 "X-Request-Id" true ∅ [] false))
    = Ret (req', rd) w'
    /\ ReqHeader req' !! "X-Request-Id" = Some ["from-client"]
    /\ ReqHeader req' !! "X-Debug-Router" = None.
Proof.
  destruct (chooseBackend
              (Scenario.env (inl ("s1", Scenario.three, ∅)) (inl Scenario.ok200) false)
              (Scenario.request
                 {["X-Request-Id" := ["from-client"]; "X-Debug-Router" := ["1"]]})
              (Scenario.start (mkRouter 0 30 "X-Request-Id" true ∅ [] false)))
    as [[req' rd] w'|p w'|w'] eqn:Hrun; [|vm_compute in Hrun; discriminate..].
  pose proof (chooseBackend_headers _ _ _ req' rd w' Hrun) as H.
  cbv zeta in H. destruct H as (_ & _ & _ & _ & Hkey).
  destruct (Hkey ltac:(vm_compute; discriminate)) as (Hdbg & [Hkept|(_ & _ & Habsent)]).
  - exists req', rd, w'. split; [reflexivity|]. split; [|exact Hdbg].
    etransitivity; [exact Hkept|]. vm_compute. reflexivity.
  - vm_compute in Habsent. discriminate.
Defined.

Lemma log_only_no_round_trip (evs : list event) :
  forallb isLogError evs = true -> List.filter isRoundTrip evs = [].
Proof.
  induction evs as [|e evs IH]; [reflexivity|].
  cbn. destruct e; cbn; try discriminate. exact IH.
Qed.

Lemma filter_nil_In {A} (p : A -> bool) (l : list A) (x : A) :
  List.filter p l = [] -> In x l -> p x = false.
Proof.
  intros Hnil Hin. destruct (p x) eqn:Hp; [|reflexivity].
  assert (Hx : In x (List.filter p l)) by (apply filter_In; auto).
  rewrite Hnil in Hx. destruct Hx.
Qed.

Lemma upstreamRequest_keeps (E : Env) (req : Request) :
  ReqURL (upstreamRequest E req) = ReqURL req
  /\ RemoteAddr (upstreamRequest E req) = RemoteAddr req
  /\ forall k, k <> "X-Host" ->
       ReqHeader (upstreamRequest E req) !! k = ReqHeader req !! k.
Proof.
  unfold upstreamRequest. destruct (ParseIP E _); cbn; repeat split.
  intros k Hk. unfold Header_Set. apply lookup_insert_ne. congruence.
Qed.

(** X11: One upstream call per request.  [RoundTrip] calls the transport at
    most once, whatever the outcome, and only with a request that has an
    upstream scheme and host; that request has the path and the peer
    address the client sent, and, unless [X-Debug-Router] itself is
    configured as the request id header, no [X-Debug-Router] header. *)
Theorem RoundTrip_upstream_call (E : Env) (req : Request) (w : World) :
  let o := RoundTrip E req w in
  (length (List.filter isRoundTrip (new_events w o)) <= 1)%nat
  /\ forall sent,
       In (EvRoundTrip sent) (new_events w o) ->
       unresolved sent = false
       /\ Path (ReqURL sent) = Path (ReqURL req)
       /\ RemoteAddr sent = RemoteAddr req
       /\ (CanonicalKey E (RequestIDHeader (router w)) <> "X-Debug-Router" ->
           ReqHeader sent !! "X-Debug-Router" = None).
Proof.
  cbv zeta.
  destruct (getRequestData_effects E (set_URL "" "" req) true w)
    as [(evs0 & Htr & Hevs0) _].
  pose proof (chooseBackend_cases E req w) as Hcases.
  pose proof (backends_only_no_round_trip _ Hevs0) as Hno0.
  assert (Hquiet : forall o : outcome (Request * Response),
            trace (world_of o) = trace w ++ evs0 ->
            (length (List.filter isRoundTrip (new_events w o)) <= 1)%nat
            /\ forall sent, In (EvRoundTrip sent) (new_events w o) -> False).
  { intros o Ho. rewrite (new_events_app _ _ _ Ho), Hno0. split; [cbn; lia|].
    intros sent Hin. pose proof (filter_nil_In _ _ _ Hno0 Hin). discriminate. }
  destruct (getRequestData E (set_URL "" "" req) true w)
    as [[[req1 rd] oerr] w1|p w1|w1]; cbn [world_of] in Htr.
  2,3: unfold RoundTrip, bind; rewrite Hcases;
       match goal with
       | |- context [new_events _ ?o] => destruct (Hquiet o Htr) as [Hlen Hnone]
       end;
       (split; [exact Hlen|]); intros sent Hin; destruct (Hnone sent Hin).
  destruct Hcases as (req' & logs & Hchoose & Hlogs & _ & _ & Haddr & Hpath & _ & _ & Hhdr).
  pose proof (log_only_no_round_trip _ Hlogs) as Hnol.
  unfold RoundTrip, bind. rewrite Hchoose.
  set (w2 := mkWorld (router w1) (ticks w1) (trace w1 ++ logs)).
  destruct (unresolved req') eqn:Hres.
  - rewrite (RoundTripWithData_unresolved E req' rd w2 Hres).
    assert (Hshape : exists tail : list event,
              trace (world_of (if debug rd then Panics NilMapAssignment w2
                               else Ret (req',
                                         mkResponse StatusBadRequest (ProtoMajor req')
                                           (ProtoMinor req') 13 None noRouteResponseBody)
                                      (if hasLogger (router w2)
                                       then mkWorld (router w2) (S (S (ticks w2)))
                                              (trace w2 ++ [EvAccessLog StatusBadRequest
                                                              (backendKey rd)])
                                       else w2)))
              = trace w ++ evs0 ++ logs ++ tail
              /\ List.filter isRoundTrip tail = []).
    { destruct (debug rd); [|destruct (hasLogger (router w2))]; cbn [world_of trace w2].
      - exists []. rewrite Htr, app_nil_r, <- app_assoc. split; reflexivity.
      - eexists [_]. rewrite Htr, <- !app_assoc. split; reflexivity.
      - exists []. rewrite Htr, app_nil_r, <- app_assoc. split; reflexivity. }
    destruct Hshape as (tail & Hshape & Hnot).
    rewrite (new_events_app _ _ _ Hshape).
    assert (Hnone : List.filter isRoundTrip (evs0 ++ logs ++ tail) = [])
      by (rewrite !List.filter_app, Hno0, Hnol, Hnot; reflexivity).
    rewrite Hnone. split; [cbn; lia|].
    intros sent Hin. pose proof (filter_nil_In _ _ _ Hnone Hin). discriminate.
  - destruct (RoundTripWithData_resolved E req' rd w2 Hres) as (evs & Hrt & Hnot & _).
    cbn [trace w2] in Hrt. rewrite Htr, <- !app_assoc in Hrt.
    rewrite (new_events_app _ _ _ Hrt).
    split.
    + rewrite !List.filter_app, Hno0, Hnol. cbn. rewrite Hnot. cbn. lia.
    + intros sent Hin.
      apply in_app_or in Hin as [Hin|Hin];
        [pose proof (filter_nil_In _ _ _ Hno0 Hin); discriminate|].
      apply in_app_or in Hin as [Hin|Hin];
        [pose proof (filter_nil_In _ _ _ Hnol Hin); discriminate|].
      destruct Hin as [Heq|Hin];
        [|pose proof (filter_nil_In _ _ _ Hnot Hin); discriminate].
      injection Heq as <-.
      destruct (upstreamRequest_keeps E req') as (Hurl & Hra & Hkeep).
      split; [unfold unresolved in *; rewrite Hurl; exact Hres|].
      split; [rewrite Hurl; exact Hpath|]. split; [rewrite Hra; exact Haddr|].
      intros Hkey. rewrite Hkeep by discriminate.
      unfold resolving in Hhdr. cbn [ReqHeader set_ReqHeader set_URL] in Hhdr.
      unfold Header_Set, Header_Del in Hhdr.
      destruct Hhdr as [->|(uid & _ & _ & ->)].
      * apply lookup_delete_eq.
      * rewrite lookup_insert_ne by congruence. apply lookup_delete_eq.
Qed.

Lemma RoundTrip_upstream_call_witness :
  exists sent,
    In (EvRoundTrip sent)
      (new_events Scenario.idle
         (RoundTrip (Scenario.env (inl ("s1", Scenario.three, ∅)) (inl Scenario.ok200) false)
            Scenario.debugging Scenario.idle))
    /\ ReqHeader sent !! "X-Debug-Router" = None
    /\ Path (ReqURL sent) = "/".
Proof.
  pose proof (RoundTrip_upstream_call
                (Scenario.env (inl ("s1", Scenario.three, ∅)) (inl Scenario.ok200) false)
                Scenario.debugging Scenario.idle) as H.
  cbv zeta in H. destruct H as [_ H].
  eexists. split; [vm_compute; right; left; reflexivity|].
  match goal with
  | |- ReqHeader ?s !! _ = None /\ _ =>
      assert (Hin : In (EvRoundTrip s)
                (new_events Scenario.idle
                   (RoundTrip (Scenario.env (inl ("s1", Scenario.three, ∅))
                                 (inl Scenario.ok200) false)
                      Scenario.debugging Scenario.idle)))
        by (vm_compute; right; left; reflexivity);
      destruct (H s Hin) as (_ & Hpath & _ & Hdbg)
  end.
  split; [apply Hdbg; vm_compute; discriminate|exact Hpath].
Defined.

(** X10: Where a request goes.  A request that leaves [chooseBackend] with an
    upstream was resolved without error, and its upstream is read off the
    chosen backend: scheme and authority of the backend's URL, or, for a
    URL without authority (a bare address), the scheme [http] and the
    backend string itself. *)
Theorem chooseBackend_upstream (E : Env) (req : Request) (w : World)
    (req' : Request) (rd : requestData) (w' : World) :
  chooseBackend E req w = Ret (req', rd) w' ->
  unresolved req' = false ->
  exists req1 w1 u,
    getRequestData E (set_URL "" "" req) true w = Ret (req1, rd, None) w1
    /\ url_Parse E (backend rd) = inl u
    /\ Scheme (ReqURL req') = (if String.eqb (UHost u) "" then "http" else Scheme u)
    /\ UHost (ReqURL req') = (if String.eqb (UHost u) "" then backend rd else UHost u).
Proof.
  destruct (getRequestData_effects E (set_URL "" "" req) true w) as [_ Hret].
  unfold chooseBackend, bind at 1.
  destruct (getRequestData E (set_URL "" "" req) true w)
    as [[[req1 rd1] oerr] w1|p w1|w1] eqn:Hget; try discriminate.
  destruct (Hret _ _ _ _ eq_refl) as (Hreq1 & _ & _). clear Hret.
  assert (Hun : unresolved req1 = true) by (rewrite Hreq1; reflexivity).
  unfold logError. destruct oerr as [err|]; run_go.
  - intros [= <- <- _] Hres. congruence.
  - destruct (url_Parse E (backend rd1)) as [u|err] eqn:Hu; run_go.
    + destruct (negb _ && _); [destruct (uuid_NewV4 E _)|]; run_go;
        intros [= <- <- _] _; exists req1, w1, u;
        (split; [reflexivity|]); (split; [exact Hu|]);
        cbn [UHost ReqURL set_URL];
        destruct (String.eqb (UHost u) ""); split; reflexivity.
    + intros [= <- <- _] Hres. congruence.
Qed.

Lemma chooseBackend_upstream_witness :
  exists req' rd w',
    chooseBackend
      (Scenario.env (inl ("s1", Scenario.three, ∅)) (inl Scenario.ok200) false)
      Scenario.plain Scenario.idle
    = Ret (req', rd) w'
    /\ Scheme (ReqURL req') = "http" /\ UHost (ReqURL req') = "a:80".
Proof.
  destruct (chooseBackend
              (Scenario.env (inl ("s1", Scenario.three, ∅)) (inl Scenario.ok200) false)
              Scenario.plain Scenario.idle)
    as [[req' rd] w'|p w'|w'] eqn:Hrun; [|vm_compute in Hrun; discriminate..].
  assert (Hres : unresolved req' = false).
  { vm_compute in Hrun. injection Hrun as <- _ _. reflexivity. }
  assert (Hrd : backend rd = "http://a:80").
  { vm_compute in Hrun. injection Hrun as _ <- _. reflexivity. }
  destruct (chooseBackend_upstream _ _ _ req' rd w' Hrun Hres)
    as (req1 & w1 & u & _ & Hu & Hs & Hh).
  rewrite Hrd in Hu. vm_compute in Hu. injection Hu as <-.
  exists req', rd, w'. split; [reflexivity|]. split; [exact Hs|exact Hh].
Defined.

(** ** The steps of the WebSocket path *)

(** How far [serveWebsocket] gets. *)
Lemma serveWebsocket_shape (E : Env) (req : Request) (w : World) :
  let o := serveWebsocket E req w in
  exists (evs0 tail : list event) (addr : string),
    trace (world_of o) = trace w ++ evs0 ++ tail
    /\ forallb isBackends evs0 = true
    /\ ((tail = [] /\ failed o)
        \/ (tail = [EvDial addr] /\ failed o
            /\ (Dial E addr <> None \/ isHijacker E = false))
        \/ (Dial E addr = None /\ isHijacker E = true
            /\ ((tail = [EvDial addr; EvHijack] /\ failed o /\ Hijack E <> None)
                \/ (tail = [EvDial addr; EvHijack;
                            EvRequestWrite (upgradeRequest E addr req)]
                    /\ failed o /\ Hijack E = None
                    /\ Request_Write E (upgradeRequest E addr req) <> None)
                \/ (tail = [EvDial addr; EvHijack;
                            EvRequestWrite (upgradeRequest E addr req); EvSplice]
                    /\ Hijack E = None
                    /\ Request_Write E (upgradeRequest E addr req) = None
                    /\ exists rd w',
                         o = Ret (upgradeRequest E addr req, rd, None) w')))).
Proof.
  cbv zeta.
  destruct (getRequestData_effects E req false w) as [(evs0 & Htr & Hevs0) Hret].
  unfold serveWebsocket, failed. run_go.
  destruct (getRequestData E req false w) as [[[req1 rd] oerr] w1|p w1|w1] eqn:Hget;
    cbn [world_of] in Htr.
  2,3: exists evs0, [], ""; rewrite app_nil_r; split; [exact Htr|];
       split; [exact Hevs0|]; left; split; [reflexivity|]; intros r rd w'; discriminate.
  destruct (Hret _ _ _ _ eq_refl) as (Hreq1 & _ & _).
  destruct oerr as [err|].
  { exists evs0, [], "". rewrite app_nil_r. split; [exact Htr|].
    split; [exact Hevs0|]. left. split; [reflexivity|]. intros r rd' w'. discriminate. }
  destruct (url_Parse E (backend rd)) as [u|err] eqn:Hu.
  2: { exists evs0, [], "". rewrite app_nil_r. split; [exact Htr|].
       split; [exact Hevs0|]. left. split; [reflexivity|].
       intros r rd' w'. discriminate. }
  destruct w1 as [rt1 t1 tr1]. cbn [trace] in Htr. run_go.
  destruct (Dial E (UHost u)) as [derr|] eqn:Hdial.
  { exists evs0, [EvDial (UHost u)], (UHost u). cbn [world_of trace].
    rewrite Htr, <- app_assoc. split; [reflexivity|]. split; [exact Hevs0|].
    right. left. split; [reflexivity|]. split; [intros r rd' w'; discriminate|].
    left. rewrite Hdial. discriminate. }
  destruct (isHijacker E) eqn:Hhj; cbn [negb].
  2: { exists evs0, [EvDial (UHost u)], (UHost u). cbn [world_of trace].
       rewrite Htr, <- app_assoc. split; [reflexivity|]. split; [exact Hevs0|].
       right. left. split; [reflexivity|]. split; [intros r rd' w'; discriminate|].
       right. reflexivity. }
  run_go. destruct (Hijack E) as [herr|] eqn:Hhijack.
  { exists evs0, [EvDial (UHost u); EvHijack], (UHost u). cbn [world_of trace].
    rewrite Htr, <- !app_assoc. split; [reflexivity|]. split; [exact Hevs0|].
    right. right. split; [exact Hdial|]. split; [reflexivity|].
    left. split; [reflexivity|]. split; [intros r rd' w'; discriminate|discriminate]. }
  run_go.
  change (match SplitHostPort E (RemoteAddr (set_Host (UHost u) req1)) with
          | Some (clientIP, _) =>
              set_ReqHeader
                (Header_Set (ReqHeader (set_Host (UHost u) req1)) "X-Forwarded-For"
                   match ReqHeader (set_Host (UHost u) req1) !! "X-Forwarded-For" with
                   | Some prior => Join prior ", " +:+ ", " +:+ clientIP
                   | None => clientIP
                   end) (set_Host (UHost u) req1)
          | None => set_Host (UHost u) req1
          end) with (forwardedFor E (set_Host (UHost u) req1)).
  rewrite Hreq1. fold (upgradeRequest E (UHost u) req).
  destruct (Request_Write E (upgradeRequest E (UHost u) req)) as [werr|] eqn:Hwrite.
  - exists evs0, [EvDial (UHost u); EvHijack; EvRequestWrite (upgradeRequest E (UHost u) req)],
      (UHost u).
    cbn [world_of trace]. rewrite Htr, <- !app_assoc. split; [reflexivity|].
    split; [exact Hevs0|].
    right. right. split; [exact Hdial|]. split; [reflexivity|].
    right. left. split; [reflexivity|]. split; [intros r rd' w'; discriminate|].
    split; [reflexivity|]. rewrite Hwrite. discriminate.
  - run_go.
    exists evs0, [EvDial (UHost u); EvHijack;
                  EvRequestWrite (upgradeRequest E (UHost u) req); EvSplice], (UHost u).
    cbn [world_of trace]. rewrite Htr, <- !app_assoc. split; [reflexivity|].
    split; [exact Hevs0|].
    right. right. split; [exact Hdial|]. split; [reflexivity|].
    right. right. split; [reflexivity|]. split; [reflexivity|].
    split; [exact Hwrite|]. eexists _, _. reflexivity.
Qed.



Lemma append_assoc (a b c : string) : (a +:+ b) +:+ c = a +:+ (b +:+ c).
Proof.
  induction a as [|ch a IH]; [reflexivity|].
  change (String ch ((a +:+ b) +:+ c) = String ch (a +:+ (b +:+ c))).
  rewrite IH. reflexivity.
Qed.

(** Joining a non-empty list and one more element. *)
Lemma Join_snoc (l : list string) (x sep : string) :
  l <> [] -> Join (l ++ [x]) sep = Join l sep +:+ sep +:+ x.
Proof.
  intros Hl. induction l as [|s l IH]; [contradiction|].
  destruct l as [|s' l]; [reflexivity|].
  change (Join ((s :: s' :: l) ++ [x]) sep)
    with (s +:+ sep +:+ Join ((s' :: l) ++ [x]) sep).
  rewrite IH by discriminate.
  change (Join (s :: s' :: l) sep) with (s +:+ sep +:+ Join (s' :: l) sep).
  rewrite !append_assoc. reflexivity.
Qed.

(** X16: The request written on the WebSocket path.  It is the client's request
    with its URL left as it came (the path never rewrites scheme and host)
    and with two headers changed: [X-Debug-Router] is removed, and, when
    the peer address splits into host and port, [X-Forwarded-For] becomes a
    single value, the values the client sent joined by ", " with the peer
    host appended (a header sent without any value leaves a leading
    separator).  No other header is touched; in particular no request id
    is generated on this path. *)
Theorem serveWebsocket_forwarded_for (E : Env) (req : Request) (w : World)
    (out : Request) :
  In (EvRequestWrite out) (new_events w (serveWebsocket E req w)) ->
  ReqURL out = ReqURL req
  /\ ReqHeader out !! "X-Debug-Router" = None
  /\ (forall k, k <> "X-Debug-Router" -> k <> "X-Forwarded-For" ->
      ReqHeader out !! k = ReqHeader req !! k)
  /\ ReqHeader out !! "X-Forwarded-For"
     = match SplitHostPort E (RemoteAddr req) with
       | Some (ip, _) =>
           Some [match ReqHeader req !! "X-Forwarded-For" with
                 | Some [] => ", " +:+ ip
                 | Some prior => Join (prior ++ [ip]) ", "
                 | None => ip
                 end]
       | None => ReqHeader req !! "X-Forwarded-For"
       end.
Proof.
  destruct (serveWebsocket_shape E req w) as (evs0 & tail & addr & Htr & Hevs0 & Hcases).
  rewrite (new_events_app _ _ _ Htr). intros Hin.
  assert (Hout : out = upgradeRequest E addr req).
  { apply in_app_or in Hin as [Hin|Hin];
      [apply (backends_only_In _ _ Hevs0) in Hin; discriminate|].
    destruct Hcases as [(-> & _)|[(-> & _)|(_ & _ & [(-> & _)|[(-> & _)|(-> & _)]])]];
      cbn in Hin; repeat (destruct Hin as [Hin|Hin]; try discriminate);
      try contradiction; injection Hin as <-; reflexivity. }
  subst out. clear. unfold upgradeRequest, forwardedFor.
  cbn [RemoteAddr set_Host set_ReqHeader ReqHeader].
  assert (Hfwd : Header_Del (ReqHeader req) "X-Debug-Router" !! "X-Forwarded-For"
                 = ReqHeader req !! "X-Forwarded-For")
    by (apply lookup_delete_ne; discriminate).
  rewrite Hfwd.
  destruct (SplitHostPort E (RemoteAddr req)) as [[ip port]|];
    cbn [ReqURL ReqHeader set_Host set_ReqHeader]; unfold Header_Set, Header_Del.
  - split; [reflexivity|].
    split; [rewrite lookup_insert_ne by discriminate; apply lookup_delete_eq|].
    split; [intros k Hk Hf; rewrite lookup_insert_ne by congruence;
            apply lookup_delete_ne; congruence|].
    rewrite lookup_insert_eq.
    destruct (ReqHeader req !! "X-Forwarded-For") as [[|v prior]|]; try reflexivity.
    rewrite Join_snoc by discriminate. reflexivity.
  - split; [reflexivity|]. split; [apply lookup_delete_eq|].
    split; [intros k Hk Hf; apply lookup_delete_ne; congruence|exact Hfwd].
Qed.

Lemma serveWebsocket_forwarded_for_witness :
  In (EvRequestWrite Scenario.written)
    (new_events Scenario.idle
       (serveWebsocket Scenario.byAddress Scenario.upgrading Scenario.idle))
  /\ ReqHeader Scenario.written !! "X-Forwarded-For" = Some ["203.0.113.5"]
  /\ ReqHeader Scenario.written !! "Upgrade" = Some ["websocket"].
Proof.
  assert (Hin : In (EvRequestWrite Scenario.written)
                  (new_events Scenario.idle
                     (serveWebsocket Scenario.byAddress Scenario.upgrading
                        Scenario.idle))).
  { vm_compute. do 3 right. left. reflexivity. }
  destruct (serveWebsocket_forwarded_for Scenario.byAddress Scenario.upgrading
              Scenario.idle Scenario.written Hin) as (_ & _ & Hkeep & Hfwd).
  split; [exact Hin|]. split.
  - rewrite Hfwd. vm_compute. reflexivity.
  - rewrite Hkeep by discriminate. vm_compute. reflexivity.
Defined.

(** ** The entry point, and the reuse of snapshots *)

Lemma backends_only_filter (p : event -> bool) (evs : list event) :
  (forall h, p (EvBackends h) = false) ->
  forallb isBackends evs = true -> List.filter p evs = [].
Proof.
  intros Hp. induction evs as [|e evs IH]; [reflexivity|].
  cbn. destruct e; cbn; try discriminate. rewrite Hp. exact IH.
Qed.

(** X17: Upgrade requests.  A request that asks for a WebSocket upgrade (and is
    not the health check) is served by [serveWebsocket] alone: it is never
    handed to the reverse proxy, the transport is not used and no backend
    is marked dead, whatever goes wrong.  When the connections were
    spliced nothing is written to the client through the response writer
    and nothing is logged; every failure, also one that comes after the
    client connection was taken over, is logged once, as the last thing
    before the 502 reply. *)
Theorem ServeHTTP_upgrade (E : Env) (ToLower : string -> string) (req : Request)
    (w : World) :
  isPing req = false ->
  isUpgrade ToLower req = true ->
  let o := ServeHTTP E ToLower req w in
  let evs := new_events w o in
  List.filter isRoundTrip evs = [] /\ List.filter isMarkDead evs = []
  /\ match o with
     | Ret replies _ =>
         (replies = [] /\ last evs = Some EvSplice /\ List.filter isLogError evs = [])
         \/ (replies = [RwError "" StatusBadGateway] /\ ~ In EvSplice evs
             /\ exists who path err,
                  last evs = Some (EvLogError who path err)
                  /\ List.filter isLogError evs = [EvLogError who path err])
     | _ => List.filter isLogError evs = []
     end.
Proof.
  unfold isPing, isUpgrade. intros Hping Hup. cbv zeta.
  unfold ServeHTTP. rewrite Hping, Hup.
  pose proof (serveWebsocket_shape E req w) as Hshape. cbv zeta in Hshape.
  destruct Hshape as (evs0 & tail & addr & Htr & Hevs0 & Hcases).
  assert (Hrt0 := backends_only_filter isRoundTrip evs0 (fun _ => eq_refl) Hevs0).
  assert (Hmd0 := backends_only_filter isMarkDead evs0 (fun _ => eq_refl) Hevs0).
  assert (Hle0 := backends_only_filter isLogError evs0 (fun _ => eq_refl) Hevs0).
  assert (Htail : List.filter isRoundTrip tail = [] /\ List.filter isMarkDead tail = []
                  /\ List.filter isLogError tail = []
                  /\ (In EvSplice (evs0 ++ tail) ->
                      exists rd w', serveWebsocket E req w
                                    = Ret (upgradeRequest E addr req, rd, None) w')
                  /\ ((exists rd w', serveWebsocket E req w
                                    = Ret (upgradeRequest E addr req, rd, None) w') ->
                      last (evs0 ++ tail) = Some EvSplice)).
  { assert (Hno : forall l : list event, In EvSplice (evs0 ++ l) -> In EvSplice l).
    { intros l Hin. apply in_app_or in Hin as [Hin|Hin]; [|exact Hin].
      apply (backends_only_In _ _ Hevs0) in Hin. discriminate. }
    destruct Hcases
      as [(-> & Hf)|[(-> & Hf & _)|(_ & _ & [(-> & Hf & _)|[(-> & Hf & _)|Hdone]])]];
      [| | | |destruct Hdone as (-> & _ & _ & Hrun)];
      repeat (split; [reflexivity|]).
    1-4: split; [intros Hin; apply Hno in Hin; cbn in Hin;
                 repeat (destruct Hin as [Hin|Hin]; try discriminate); contradiction
                |intros (rd & w' & Hrun); destruct (Hf _ _ _ Hrun)].
    split; [intros _; exact Hrun|]. intros _. rewrite last_app. reflexivity. }
  destruct Htail as (Hrt & Hmd & Hle & Hsplice & Hlast).
  unfold bind.
  destruct (serveWebsocket E req w) as [[[req' rd] oerr] w1|p w1|w1] eqn:Hrun;
    cbn [world_of] in Htr.
  - destruct oerr as [err|]; unfold logError; run_go.
    + erewrite new_events_app
        by (cbn [world_of trace]; rewrite Htr, <- app_assoc; reflexivity).
      rewrite !List.filter_app, Hrt0, Hmd0, Hle0, Hrt, Hmd, Hle.
      split; [reflexivity|]. split; [reflexivity|]. right. split; [reflexivity|].
      split.
      * intros Hin. apply in_app_or in Hin as [Hin|Hin].
        -- destruct (Hsplice Hin) as (rd' & w' & Heq). discriminate.
        -- destruct Hin as [Hin|[]]. discriminate.
      * eexists _, _, _. rewrite last_app. split; reflexivity.
    + erewrite new_events_app by (cbn [world_of trace]; exact Htr).
      rewrite !List.filter_app, Hrt0, Hmd0, Hle0, Hrt, Hmd, Hle.
      split; [reflexivity|]. split; [reflexivity|]. left. split; [reflexivity|].
      split; [|reflexivity].
      destruct Hcases
        as [(_ & Hf)|[(_ & Hf & _)|(_ & _ & [(_ & Hf & _)|[(_ & Hf & _)|Hdone]])]];
        try (destruct (Hf _ _ _ eq_refl)).
      destruct Hdone as (_ & _ & _ & rd' & w' & Heq).
      apply Hlast. eexists _, _. exact Heq.
  - erewrite new_events_app by (cbn [world_of trace]; exact Htr).
    rewrite !List.filter_app, Hrt0, Hmd0, Hle0, Hrt, Hmd, Hle. repeat split.
  - erewrite new_events_app by (cbn [world_of trace]; exact Htr).
    rewrite !List.filter_app, Hrt0, Hmd0, Hle0, Hrt, Hmd, Hle. repeat split.
Qed.

Lemma ServeHTTP_upgrade_witness :
  exists w',
    ServeHTTP Scenario.byAddress (fun s => s) Scenario.upgrading Scenario.idle
    = Ret [] w'
    /\ last (new_events Scenario.idle
               (ServeHTTP Scenario.byAddress (fun s => s) Scenario.upgrading
                  Scenario.idle)) = Some EvSplice.
Proof.
  pose proof (ServeHTTP_upgrade Scenario.byAddress (fun s => s) Scenario.upgrading
                Scenario.idle eq_refl eq_refl) as H.
  cbv zeta in H. destruct H as (_ & _ & H).
  destruct (ServeHTTP Scenario.byAddress (fun s => s) Scenario.upgrading Scenario.idle)
    as [replies w'|p w'|w'] eqn:Hrun; [|vm_compute in Hrun; discriminate..].
  destruct H as [(-> & Hlast & _)|(-> & _)].
  - exists w'. split; [reflexivity|exact Hlast].
  - vm_compute in Hrun. discriminate.
Defined.

(** X8: A snapshot is reused.  Whatever [getBackends] returns as a snapshot,
    served from the cache or just fetched, is what the next call for the
    same host returns, without asking the routes backend, as long as the
    clock has not passed its deadline. *)
Theorem getBackends_reuses_snapshot (E : Env) (h : string) (w : World)
    (s : backendSet) (w1 : World) :
  getBackends E h w = Ret (inl s) w1 ->
  clock E (ticks w1) <= expires s ->
  exists w2,
    getBackends E h w1 = Ret (inl s) w2
    /\ new_events w1 (getBackends E h w1) = []
    /\ roundRobin (router w2) = roundRobin (router w).
Proof.
  intros Hrun Hfresh.
  assert (Hcached : lru_peek h (cache (router w1)) = Some s
                    /\ roundRobin (router w1) = roundRobin (router w)).
  { revert Hrun. unfold getBackends, cache_Get, cache_Add, Expired.
    destruct w as [rt t tr]. run_go.
    pose proof (lru_Get_fst h (cache rt)) as Hfst.
    pose proof (lru_Get_peek h h (cache rt)) as Hsnd.
    destruct (lru_Get h (cache rt)) as [v c']. simpl in Hfst, Hsnd. subst v. run_go.
    destruct (lru_peek h (cache rt)) as [s0|] eqn:Hpeek; run_go.
    - destruct (expires s0 <? clock E t); run_go.
      + destruct (Backends E h) as [[[i bs] d]|err]; run_go; intros [= <- <-].
        cbn. split; [apply lru_Add_peek|reflexivity].
      + intros [= <- <-]. cbn. split; [exact Hsnd|reflexivity].
    - destruct (Backends E h) as [[[i bs] d]|err]; run_go; intros [= <- <-].
      cbn. split; [apply lru_Add_peek|reflexivity]. }
  destruct Hcached as [Hcached Hrr].
  unfold new_events, getBackends, cache_Get, cache_Add, Expired.
  destruct w1 as [rt1 t1 tr1]. run_go. cbn [router ticks cache] in *.
  pose proof (lru_Get_fst h (cache rt1)) as Hfst.
  destruct (lru_Get h (cache rt1)) as [v c']. simpl in Hfst. subst v.
  rewrite Hcached. run_go.
  destruct (expires s <? clock E t1) eqn:Hexp; [apply Z.ltb_lt in Hexp; lia|].
  run_go. eexists. split; [reflexivity|]. cbn.
  split; [apply drop_length_self|exact Hrr].
Qed.

Lemma getBackends_reuses_snapshot_witness :
  exists w2,
    getBackends (Scenario.env (inl ("s1", Scenario.three, ∅)) (inl Scenario.ok200) false)
      "app.example"
      (mkWorld
         (mkRouter 0 30 "" true {["app.example" := 0]}
            [("app.example", mkBackendSet "s1" Scenario.three ∅ (2 * Second))]
            false)
         1 [EvBackends "app.example"])
    = Ret (inl (mkBackendSet "s1" Scenario.three ∅ (2 * Second))) w2.
Proof.
  assert (Hrun :
    getBackends (Scenario.env (inl ("s1", Scenario.three, ∅)) (inl Scenario.ok200) false)
      "app.example" Scenario.idle
    = Ret (inl (mkBackendSet "s1" Scenario.three ∅ (2 * Second)))
        (mkWorld
           (mkRouter 0 30 "" true {["app.example" := 0]}
              [("app.example", mkBackendSet "s1" Scenario.three ∅ (2 * Second))]
              false)
           1 [EvBackends "app.example"])) by (vm_compute; reflexivity).
  destruct (getBackends_reuses_snapshot _ _ _ _ _ Hrun
              ltac:(vm_compute; discriminate)) as (w2 & Hagain & _).
  exists w2. exact Hagain.
Defined.

(** ** Start-up *)

(** A successful [Init] ends in lines 126-141, on a router whose TTL and
    log path are set. *)
Lemma Init_wired (D : Startup.Deps) (r r' : Startup.Router)
    (calls : list Startup.call) :
  Startup.Init D r = (r', None, calls) ->
  exists r0,
    r' = Startup.wire r0
    /\ Startup.DeadBackendTTL r0 <> 0
    /\ Startup.LogPath r0 <> "".
Proof.
  unfold Startup.Init.
  destruct r as [tr lp dt rq ttl fl rid rp0 dl be lg rr ch md]. cbn.
  destruct (Startup.NewRedisBackend D) as [nb [e1|]];
    destruct (Startup.NewFileLogger D "./access.log") as [nl1 [e2|]] eqn:Hl1;
    destruct (Startup.NewFileLogger D lp) as [nl2 [e3|]] eqn:Hl2;
    destruct be as [b|]; cbn; try discriminate;
    destruct (String.eqb_spec lp "") as [->|Hlp]; cbn; rewrite ?Hl1, ?Hl2; cbn;
    destruct lg as [l|]; cbn; rewrite ?Hl1, ?Hl2; cbn; try discriminate;
    try (destruct (String.eqb_spec lp "none") as [->|Hnone]; cbn;
         rewrite ?Hl1, ?Hl2; cbn; try discriminate);
    destruct (Z.eqb_spec ttl 0) as [->|Httl]; cbn;
    destruct ch as [c|]; cbn; intros [= <- <-];
    (eexists; split; [reflexivity|]); cbn; split; (discriminate || congruence || lia).
Qed.

(** X18: A ready router.  When [Init] returns no error the router can serve:
    the counter table is a fresh, empty map, there is a cache, the TTL of
    dead marks is not zero and the log path is not empty, and dialer,
    transport and reverse proxy are built from the configured timeouts.
    What the caller had supplied is kept: a backend, a logger, a cache, a
    TTL other than zero, a log path other than the empty one. *)
Theorem Init_ready (D : Startup.Deps) (r r' : Startup.Router)
    (calls : list Startup.call) :
  Startup.Init D r = (r', None, calls) ->
  Startup.roundRobin r' = Some ∅
  /\ (exists rt, serving r' = Some rt /\ roundRobin rt = ∅)
  /\ Startup.DeadBackendTTL r' <> 0
  /\ Startup.LogPath r' <> ""
  /\ Startup.dialer r'
     = Some (Startup.mkDialer (Startup.DialTimeout r) (30 * Second))
  /\ Startup.Transport r'
     = Startup.mkTransport (Startup.dialer r') (Startup.DialTimeout r) 100
  /\ Startup.rp r' = Some (Startup.mkReverseProxy (Startup.FlushInterval r))
  /\ same_configuration r r'
  /\ (forall b, Startup.backend r = Some b -> Startup.backend r' = Some b)
  /\ (forall l, Startup.logger r = Some l -> Startup.logger r' = Some l)
  /\ (forall c, Startup.cache r = Some c -> Startup.cache r' = Some c)
  /\ (Startup.DeadBackendTTL r <> 0 ->
      Startup.DeadBackendTTL r' = Startup.DeadBackendTTL r)
  /\ (Startup.LogPath r <> "" -> Startup.LogPath r' = Startup.LogPath r).
Proof.
  unfold Startup.Init, serving, same_configuration.
  destruct r as [tr lp dt rq ttl fl rid rp0 dl be lg rr ch md]. cbn.
  destruct (Startup.NewRedisBackend D) as [nb [e1|]];
    destruct (Startup.NewFileLogger D "./access.log") as [nl1 [e2|]] eqn:Hl1;
    destruct (Startup.NewFileLogger D lp) as [nl2 [e3|]] eqn:Hl2;
    destruct be as [b|]; cbn; try discriminate;
    destruct (String.eqb_spec lp "") as [->|Hlp]; cbn; rewrite ?Hl1, ?Hl2; cbn;
    destruct lg as [l|]; cbn; rewrite ?Hl1, ?Hl2; cbn; try discriminate;
    try (destruct (String.eqb_spec lp "none") as [->|Hnone]; cbn;
         rewrite ?Hl1, ?Hl2; cbn; try discriminate);
    destruct (Z.eqb_spec ttl 0) as [->|Httl]; cbn;
    destruct ch as [c|]; cbn; intros [= <- <-]; cbn;
    repeat (split; try (eexists; split; reflexivity); try discriminate;
            try congruence; try lia; try (intros ? [= <-]; reflexivity)).
Qed.

Lemma Init_ready_witness :
  exists r' calls,
    Startup.Init (Startup.mkDeps (Some 1, None) (fun _ => (Some 2, None)))
      (Startup.mkRouter (Startup.mkTransport None 0 0) "" 5 0 0 0 "" None None
         None None None None false)
    = (r', None, calls)
    /\ Startup.DeadBackendTTL r' = 30
    /\ Startup.roundRobin r' = Some ∅.
Proof.
  eexists _, _. split; [vm_compute; reflexivity|].
  split; [reflexivity|].
  refine (proj1 (Init_ready (Startup.mkDeps (Some 1, None) (fun _ => (Some 2, None)))
                   (Startup.mkRouter (Startup.mkTransport None 0 0) "" 5 0 0 0 "" None
                      None None None None None false) _ _ _)).
  vm_compute. reflexivity.
Defined.

(** X19: Initialising again.  On a router that [Init] has set up, with a
    backend and, unless the log path is "none", a logger, a later [Init]
    calls no constructor and returns no error; it keeps the cache with
    whatever snapshots it holds and everything else, and replaces the
    counter table by an empty one. *)
Theorem Init_again (D D' : Startup.Deps) (r r' : Startup.Router)
    (calls : list Startup.call) (rr : gmap string Z) (c : Cache) :
  Startup.Init D r = (r', None, calls) ->
  Startup.backend r' <> None ->
  Startup.logger r' <> None \/ Startup.LogPath r' = "none" ->
  Startup.Init D' (in_service rr c r') = (in_service ∅ c r', None, []).
Proof.
  intros Hinit Hbe Hlog.
  destruct (Init_wired D r r' calls Hinit) as (r0 & -> & Httl & Hlp).
  destruct r0 as [tr lp dt rq ttl fl rid rp0 dl be lg rr0 ch md].
  unfold Startup.Init, in_service, Startup.wire in *. cbn in *.
  destruct be as [b|]; [|contradiction]. cbn.
  destruct (String.eqb_spec lp "") as [->|_]; [contradiction|]. cbn.
  destruct lg as [l|].
  - cbn. destruct (Z.eqb_spec ttl 0) as [->|_]; [contradiction|]. reflexivity.
  - destruct Hlog as [Hl | ->]; [contradiction|]. cbn.
    destruct (Z.eqb_spec ttl 0) as [->|_]; [contradiction|]. reflexivity.
Qed.

Lemma Init_again_witness :
  exists r',
    Startup.Init (Startup.mkDeps (Some 1, None) (fun _ => (Some 2, None)))
      (Startup.mkRouter (Startup.mkTransport None 0 0) "" 5 0 0 0 "" None None
         None None None None false)
    = (r', None,
       [Startup.CallNewRedisBackend; Startup.CallNewFileLogger "./access.log";
        Startup.CallLruNew 100])
    /\ Startup.Init (Startup.mkDeps (None, Some (PlainError "down"))
                       (fun _ => (None, Some (PlainError "disk full"))))
         (in_service {["app.example" := 7]} [] r')
       = (in_service ∅ [] r', None, []).
Proof.
  eexists. split; [vm_compute; reflexivity|].
  apply (Init_again (Startup.mkDeps (Some 1, None) (fun _ => (Some 2, None)))
           (Startup.mkDeps (None, Some (PlainError "down"))
              (fun _ => (None, Some (PlainError "disk full"))))
           (Startup.mkRouter (Startup.mkTransport None 0 0) "" 5 0 0 0 "" None None
              None None None None false)
           _
           [Startup.CallNewRedisBackend; Startup.CallNewFileLogger "./access.log";
            Startup.CallLruNew 100]
           {["app.example" := 7]} []).
  - vm_compute. reflexivity.
  - discriminate.
  - left. discriminate.
Defined.

(** X20: Round robin starts over.  On the router that a successful [Init]
    leaves, the first requests for a host whose backends are all live are
    given the indices 0, 1, 2, ... in turn, modulo the number of backends,
    whatever the counters were before. *)
Theorem Init_restarts_round_robin (D : Startup.Deps) (r r' : Startup.Router)
    (calls : list Startup.call) (E : Env) (req : Request) (t : nat)
    (tr : list event) (i0 : string) (bs : list string) (k : nat) :
  Startup.Init D r = (r', None, calls) ->
  exists rt,
    serving r' = Some rt
    /\ (Backends E (hostOnly E (Host req)) = inl (i0, bs, ∅) ->
        cache_agrees E (hostOnly E (Host req)) (cache rt) ->
        1 <= Z.of_nat (length bs) <= Int32.max_int ->
        Z.of_nat k <= Int32.max_int ->
        resolve_many E k req (mkWorld rt t tr)
        = map (fun j => Z.of_nat j mod Z.of_nat (length bs)) (seq 0 k)).
Proof.
  intros Hinit.
  destruct (Init_wired D r r' calls Hinit) as (r0 & -> & _ & _).
  assert (Hcache : Startup.cache r0 <> None).
  { revert Hinit. unfold Startup.Init.
    destruct r as [tr1 lp dt rq ttl fl rid rp0 dl be lg rr ch md]. cbn.
    destruct (Startup.NewRedisBackend D) as [nb [e1|]];
      destruct (Startup.NewFileLogger D "./access.log") as [nl1 [e2|]] eqn:Hl1;
      destruct (Startup.NewFileLogger D lp) as [nl2 [e3|]] eqn:Hl2;
      destruct be as [b|]; cbn; try discriminate;
      destruct (String.eqb_spec lp "") as [->|Hlp]; cbn; rewrite ?Hl1, ?Hl2; cbn;
      destruct lg as [l|]; cbn; rewrite ?Hl1, ?Hl2; cbn; try discriminate;
      try (destruct (String.eqb_spec lp "none") as [->|Hnone]; cbn;
           rewrite ?Hl1, ?Hl2; cbn; try discriminate);
      destruct (Z.eqb_spec ttl 0) as [->|Httl]; cbn;
      destruct ch as [c|]; cbn; intros [= Hr _];
      destruct r0; cbn in *; congruence. }
  unfold serving, Startup.wire. cbn.
  destruct (Startup.cache r0) as [c|]; [|contradiction].
  eexists. split; [reflexivity|].
  intros Hb Hagree Hn Hk.
  assert (Hlive : exists i, 0 <= i < Z.of_nat (length bs) /\ i ∉ (∅ : gset Z))
    by (exists 0; split; [lia|set_solver]).
  match goal with
  | |- resolve_many E k req ?w = _ => set (w0 := w) in *
  end.
  assert (Hc : default 0 (roundRobin (router w0) !! hostOnly E (Host req)) = 0)
    by (cbn; rewrite lookup_empty; reflexivity).
  assert (H0 : 0 <= 0) by lia.
  assert (Hk0 : 0 + Z.of_nat k <= Int32.max_int) by lia.
  rewrite (resolve_many_steps E req i0 bs ∅ Hb Hn Hlive k w0 0 Hc Hagree H0 Hk0).
  apply map_ext. intros j. unfold chosen.
  rewrite reference_select_no_dead by lia.
  cbn [default]. replace (0 + Z.of_nat j + 1 - 1) with (Z.of_nat j) by lia. reflexivity.
Qed.

Lemma Init_restarts_round_robin_witness :
  exists rt,
    serving
      (Startup.wire
         (Startup.mkRouter (Startup.mkTransport None 0 0) "none" 5 0 30 0 "" None None
            (Some 1) None (Some {["app.example" := 7]}) (Some []) false))
    = Some rt
    /\ resolve_many (Scenario.env (inl ("s1", Scenario.three, ∅)) (inl Scenario.ok200) false)
         4 Scenario.plain (mkWorld rt 0 [])
       = [0; 1; 2; 0].
Proof.
  destruct (Init_restarts_round_robin
              (Startup.mkDeps (None, None) (fun _ => (None, None)))
              (Startup.mkRouter (Startup.mkTransport None 0 0) "none" 5 0 30 0 "" None
                 None (Some 1) None (Some {["app.example" := 7]}) (Some []) false)
              (Startup.wire
                 (Startup.mkRouter (Startup.mkTransport None 0 0) "none" 5 0 30 0 ""
                    None None (Some 1) None (Some {["app.example" := 7]}) (Some [])
                    false))
              []
              (Scenario.env (inl ("s1", Scenario.three, ∅)) (inl Scenario.ok200) false)
              Scenario.plain 0%nat [] "s1" Scenario.three 4
              ltac:(vm_compute; reflexivity)) as (rt & Hserving & Hrun).
  exists rt. split; [exact Hserving|].
  injection Hserving as <-.
  rewrite Hrun.
  - vm_compute. reflexivity.
  - reflexivity.
  - intros s. cbn. discriminate.
  - cbn. unfold Int32.max_int. lia.
  - unfold Int32.max_int. lia.
Defined.

(** ** Fixed bodies and the buffer pool *)

(** X21: One read, and the stream is over.  [Read] reports [io.EOF] every
    time and never moves on: it fills the buffer with the first bytes of
    the fixed value, as many as fit, and leaves the rest of the buffer
    alone.  So the value arrives whole exactly when the buffer is at least
    as long as the value. *)
Theorem FixedReadCloser_Read_once (value p : list Byte.byte) :
  let '(p', n, err) := FixedReadCloser_Read value p in
  err = io_EOF
  /\ n = Nat.min (length p) (length value)
  /\ length p' = length p
  /\ take n p' = take (length p) value
  /\ drop n p' = drop n p
  /\ (take n p' = value <-> (length value <= length p)%nat).
Proof.
  unfold FixedReadCloser_Read, copy. cbn.
  set (n := Nat.min (length p) (length value)).
  assert (Hlen : length (take n value) = n)
    by (rewrite length_take; unfold n; lia).
  split; [reflexivity|]. split; [reflexivity|].
  split; [rewrite length_app, Hlen, length_drop; unfold n; lia|].
  assert (Htake : take n (take n value ++ drop n p) = take n value).
  { rewrite take_app_le by lia. rewrite take_ge by lia. reflexivity. }
  split.
  { rewrite Htake. unfold n.
    destruct (Nat.le_gt_cases (length p) (length value)) as [Hle|Hgt].
    - rewrite Nat.min_l by exact Hle. reflexivity.
    - rewrite Nat.min_r by lia. rewrite !take_ge by lia. reflexivity. }
  split.
  - rewrite drop_app_ge by lia. rewrite Hlen, Nat.sub_diag. reflexivity.
  - rewrite Htake. split.
    + intros Heq. apply (f_equal length) in Heq. rewrite Hlen in Heq. unfold n in Heq. lia.
    + intros Hle. apply take_ge. unfold n. lia.
Qed.

Lemma make_length (n : nat) : length (make n) = n.
Proof. apply length_replicate. Qed.

Lemma keep_marked_Forall {A} (P : A -> Prop) (keep : list bool) (l : list A) :
  Forall P l -> Forall P (keep_marked keep l).
Proof.
  intros Hl. revert keep. induction Hl as [|x l Hx Hl IH]; intros [|[|] keep]; cbn;
    auto using Forall_nil, Forall_cons.
Qed.

Lemma pool_run_sizes (ops : list pool_op) (p : bufferPool)
    (out : list (list Byte.byte)) :
  Forall (fun b => length b = bufferSize) (syncPool p) ->
  Forall (fun b => length b = bufferSize) out ->
  Forall (fun b => length b = bufferSize) (syncPool (fst (pool_run ops p out)))
  /\ Forall (fun b => length b = bufferSize) (snd (pool_run ops p out)).
Proof.
  revert p out. induction ops as [|[pick|i|keep] ops IH]; intros p out Hp Hout;
    cbn [pool_run].
  - auto.
  - unfold bufferPool_Get.
    destruct (pick (syncPool p)) as [i|].
    + destruct (syncPool p !! i) as [b|] eqn:Hb.
      * apply IH; cbn [syncPool].
        -- apply Forall_delete. exact Hp.
        -- apply Forall_app. split; [exact Hout|]. apply Forall_singleton.
           exact (Forall_lookup_1 _ _ _ _ Hp Hb).
      * apply IH; [exact Hp|]. apply Forall_app. split; [exact Hout|].
        apply Forall_singleton. apply make_length.
    + apply IH; [exact Hp|]. apply Forall_app. split; [exact Hout|].
      apply Forall_singleton. apply make_length.
  - destruct (out !! i) as [b|] eqn:Hb; apply IH; auto.
    unfold bufferPool_Put. cbn [syncPool]. apply Forall_cons. split; [|exact Hp].
    exact (Forall_lookup_1 _ _ _ _ Hout Hb).
  - apply IH; [|exact Hout]. cbn [syncPool]. apply keep_marked_Forall. exact Hp.
Qed.

(** X22: Buffers keep their size.  Starting from the empty pool that [Init]
    gives the reverse proxy, and as long as only buffers obtained from
    [Get] are put back, every buffer [Get] hands out is 32 KiB long,
    whatever the pool chooses to hand out or to drop. *)
Theorem bufferPool_Get_size (ops : list pool_op) (b : list Byte.byte) :
  In b (snd (pool_run ops (mkBufferPool []) [])) -> length b = bufferSize.
Proof.
  intros Hin.
  destruct (pool_run_sizes ops (mkBufferPool []) [] (List.Forall_nil _) (List.Forall_nil _))
    as [_ Hout].
  exact (proj1 (List.Forall_forall _ _) Hout b Hin).
Qed.

Lemma bufferPool_Get_size_witness :
  In (make bufferSize)
    (snd (pool_run [DoGet (fun _ => None); DoPut 0; DoGet (fun _ => Some 0%nat)]
            (mkBufferPool []) []))
  /\ length (make bufferSize) = bufferSize.
Proof.
  assert (Hin : In (make bufferSize)
                  (snd (pool_run [DoGet (fun _ => None); DoPut 0;
                                  DoGet (fun _ => Some 0%nat)]
                          (mkBufferPool []) [])))
    by (left; reflexivity).
  split; [exact Hin|].
  exact (bufferPool_Get_size
           [DoGet (fun _ => None); DoPut 0; DoGet (fun _ => Some 0%nat)]
           (make bufferSize) Hin).
Defined.
